(** * Bolder Flight IMU drivers: MPU9250, ICM-20649, ICM-20948

    A shallow embedding of the three drivers of the repository
    ([MPU9250.cpp], [src/icm20649.cpp], [src/icm20948.cpp]) and the
    properties of their register access, configuration, bring-up and
    acquisition code.

    Conventions.
    - A [uint8_t] is a [Z] in [0, 256); a store into a [uint8_t] is [u8].
      An [int16_t] is a [Z] in [-32768, 32768); a store into one is [i16].
    - A [float] is an IEEE-754 binary32 value and a [double] a binary64
      value, both as [spec_float] with the operations of [SpecFloat]
      (round to nearest even).
    - The bus transport object ([imu_], of a class that is not part of
      these sources) is a parameter: a [Transport].  Every call into it is
      recorded in a log carried by the driver state, so that bus traffic
      can be stated.
    - The constants, enumerator values and buffer sizes of [Icm20649.h] and
      [Icm20948.h] (not part of these sources) are parameters, collected
      in a [Header] record per driver.
    - Driver methods are computations in a state monad over the object's
      members. *)

From Stdlib Require Import String.
From Stdlib Require Import ZArith List Bool Lia.
From Stdlib Require Import Floats.SpecFloat.
Import ListNotations.
Local Open Scope Z_scope.

(** ** Fixed-width integers *)

(** Conversion to [uint8_t]. *)
Definition u8 (x : Z) : Z := x mod 256.

(** Conversion to [int16_t]. *)
Definition i16 (x : Z) : Z := (x + 32768) mod 65536 - 32768.

(** Conversion of an integer to [bool]. *)
Definition to_bool (x : Z) : bool := negb (x =? 0).

(** [hi << 8 | lo] stored into an [int16_t]. *)
Definition unpack16 (hi lo : Z) : Z := i16 (Z.lor (Z.shiftl hi 8) lo).

(** ** Byte buffers *)

Definition byte_at (buf : list Z) (i : nat) : Z := nth i buf 0.

(** The [count] bytes a successful transfer stores at its destination,
    [bs] being what the transport received; a byte the transport did not
    supply reads as 0. *)
Definition delivered (count : Z) (bs : list Z) : list Z :=
  map (fun i => u8 (nth i bs 0)) (seq 0 (Z.to_nat count)).

(** Storing [bs] at the start of the array [buf]. *)
Definition overwrite (bs buf : list Z) : list Z :=
  bs ++ skipn (length bs) buf.

(** [buf[0] = v]. *)
Definition set_byte0 (v : Z) (buf : list Z) : list Z := overwrite [v] buf.

(** ** Floating point *)

Module F32.
Definition prec : Z := 24.
Definition emax : Z := 128.
Definition of_Z (z : Z) : spec_float := binary_normalize prec emax z 0 false.
Definition mul : spec_float -> spec_float -> spec_float := SFmul prec emax.
Definition div : spec_float -> spec_float -> spec_float := SFdiv prec emax.
Definition add : spec_float -> spec_float -> spec_float := SFadd prec emax.
Definition sub : spec_float -> spec_float -> spec_float := SFsub prec emax.
(** The literal [32767.5f] = 65535 * 2^-1. *)
Definition c32767_5 : spec_float := binary_normalize prec emax 65535 (-1) false.
(** The literal [-1.0f]. *)
Definition m1 : spec_float := of_Z (-1).
(** The literal [21.0f]. *)
Definition c21 : spec_float := of_Z 21.
End F32.

Module F64.
Definition prec : Z := 53.
Definition emax : Z := 1024.
Definition of_Z (z : Z) : spec_float := binary_normalize prec emax z 0 false.
Definition mul : spec_float -> spec_float -> spec_float := SFmul prec emax.
Definition div : spec_float -> spec_float -> spec_float := SFdiv prec emax.
(** The literal [32767.5]. *)
Definition c32767_5 : spec_float := binary_normalize prec emax 65535 (-1) false.
End F64.

(** The scale factor of a full-scale value: [full_scale / 32767.5f]. *)
Definition scale_factor (full_scale : Z) : spec_float :=
  F32.div (F32.of_Z full_scale) F32.c32767_5.

(** ** Bit fields *)

(** The bytes [w] and [b] have the same bit at every position (0 to 7)
    where [mask] has a 0. *)
Definition same_outside (mask b w : Z) : Prop :=
  forall i, 0 <= i < 8 -> Z.testbit mask i = false -> Z.testbit w i = Z.testbit b i.

(** A value fits the two-bit range field (bits 1-2, mask 0x06). *)
Definition range_fits (v : Z) : bool := (0 <=? v) && (v <? 4).

(** A value fits the three-bit filter field (bits 3-5). *)
Definition dlpf_fits (v : Z) : bool := (0 <=? v) && (v <? 8).

(** ** The bus transport and its log *)

(** The transport object behind [imu_]:
    [WriteRegister(reg, data, clock) -> bool],
    [ReadRegisters(reg, count, clock, dest) -> bool] and [Begin()].
    A read answers [Some bs] when it succeeds, [bs] being the bytes
    received, and [None] when it fails (nothing is stored then).  The
    clock argument is always the constant [SPI_CLOCK_] and is left out. *)
Record Transport : Type := {
  Dev : Type;
  tr_begin : Dev -> Dev;
  tr_write : Dev -> Z -> Z -> bool * Dev;
  tr_read : Dev -> Z -> Z -> option (list Z) * Dev
}.

Inductive BusEvent : Type :=
| BusBegin
| BusDelay (ms : Z)
| BusWrite (reg data : Z) (ok : bool)
| BusRead (reg count : Z) (reply : option (list Z)).

(** Whether the logged call reported success. *)
Definition ev_ok (e : BusEvent) : bool :=
  match e with
  | BusBegin | BusDelay _ => true
  | BusWrite _ _ ok => ok
  | BusRead _ _ r => match r with Some _ => true | None => false end
  end.

(** A transport that answers from a script: each call consumes the next
    reply; a write succeeds on [Ack], a read succeeds on [Data bs]. *)
Inductive Reply : Type := Ack | Nak | Data (bs : list Z).

Definition scripted : Transport := {|
  Dev := list Reply;
  tr_begin := fun d => d;
  tr_write := fun d _ _ =>
    match d with
    | Ack :: d' => (true, d')
    | _ :: d' => (false, d')
    | [] => (false, [])
    end;
  tr_read := fun d _ _ =>
    match d with
    | Data bs :: d' => (Some bs, d')
    | _ :: d' => (None, d')
    | [] => (None, [])
    end
|}.

(** A transport that acknowledges every write and answers every read
    with zeros. *)
Definition acking : Transport := {|
  Dev := unit;
  tr_begin := fun d => d;
  tr_write := fun d _ _ => (true, d);
  tr_read := fun d _ _ => (Some [], d)
|}.

(** The transport acknowledges every write. *)
Definition acknowledges (T : Transport) : Prop :=
  forall d reg data, fst (tr_write T d reg data) = true.

(** The number of bank switches a sequence of accesses to [banks] needs
    when [cur] is selected at its start. *)
Fixpoint bank_changes (cur : Z) (banks : list Z) : nat :=
  match banks with
  | [] => 0%nat
  | b :: l => ((if Z.eqb b cur then 0 else 1) + bank_changes b l)%nat
  end.

(** The events a call added to the log [before]. *)
Definition appended (before after : list BusEvent) : list BusEvent :=
  skipn (length before) after.

Definition last_event (l : list BusEvent) : BusEvent := last l BusBegin.

Definition is_read (e : BusEvent) : bool :=
  match e with BusRead _ _ _ => true | _ => false end.

(** ** The state monad of a driver object *)

Definition M (S A : Type) : Type := S -> A * S.

Definition ret {S A : Type} (a : A) : M S A := fun s => (a, s).

Definition bind {S A B : Type} (m : M S A) (k : A -> M S B) : M S B :=
  fun s => let (a, s') := m s in k a s'.

Definition gets {S A : Type} (f : S -> A) : M S A := fun s => (f s, s).

Definition modify {S : Type} (f : S -> S) : M S unit := fun s => (tt, f s).

Declare Scope drv_scope.
Delimit Scope drv_scope with drv.

Notation "x <- m ;; k" := (bind m (fun x => k))
  (at level 61, m at next level, right associativity) : drv_scope.
Notation "m ;; k" := (bind m (fun _ => k))
  (at level 61, right associativity) : drv_scope.
(** [if (!m) { return false; } k] *)
Notation "'check!' m ;; k" := (bind m (fun ok : bool => if ok then k else ret false))
  (at level 61, m at next level, right associativity) : drv_scope.

Local Open Scope drv_scope.

(** ** Fail-fast sequences

    A bring-up sequence is a list of steps.  The result of a [Checked] step
    is tested ([if (!step) return false;]); the result of an [Unchecked]
    step is dropped. *)

Inductive Step (S : Type) : Type :=
| Checked (m : M S bool)
| Unchecked {A : Type} (m : M S A).

Arguments Checked {S} m.
Arguments Unchecked {S A} m.

Fixpoint run_steps {S : Type} (l : list (Step S)) : M S bool :=
  match l with
  | [] => ret true
  | Checked m :: l' => check! m ;; run_steps l'
  | Unchecked m :: l' => m ;; run_steps l'
  end.

(** [ran l s s']: the steps of [l] were all executed, in order, from [s] to
    [s'], and every checked one returned [true]. *)
Fixpoint ran {S : Type} (l : list (Step S)) (s s' : S) : Prop :=
  match l with
  | [] => s' = s
  | Checked m :: l' => fst (m s) = true /\ ran l' (snd (m s)) s'
  | Unchecked m :: l' => ran l' (snd (m s)) s'
  end.

Definition vec3 (A : Type) : Type := (A * A * A)%type.

(** * ICM-20649 ([src/icm20649.cpp]) *)

Module Icm20649.

Inductive Interface : Type := I2C | SPI.

(** The enumerations of [Icm20649.h].  The last constructor of each stands
    for a value of the underlying integer type that is none of the
    enumerators (what a [switch] sends to [default]). *)
Inductive AccelRange : Type :=
| ACCEL_RANGE_4G | ACCEL_RANGE_8G | ACCEL_RANGE_16G | ACCEL_RANGE_30G
| AccelRange_cast (v : Z).

Inductive GyroRange : Type :=
| GYRO_RANGE_500DPS | GYRO_RANGE_1000DPS | GYRO_RANGE_2000DPS | GYRO_RANGE_4000DPS
| GyroRange_cast (v : Z).

Inductive AccelDlpfBandwidth : Type :=
| ACCEL_DLPF_BANDWIDTH_246HZ | ACCEL_DLPF_BANDWIDTH_111HZ
| ACCEL_DLPF_BANDWIDTH_50HZ | ACCEL_DLPF_BANDWIDTH_23HZ
| ACCEL_DLPF_BANDWIDTH_11HZ | ACCEL_DLPF_BANDWIDTH_5HZ
| ACCEL_DLPF_BANDWIDTH_473HZ
| AccelDlpfBandwidth_cast (v : Z).

Inductive GyroDlpfBandwidth : Type :=
| GYRO_DLPF_BANDWIDTH_196HZ | GYRO_DLPF_BANDWIDTH_151HZ
| GYRO_DLPF_BANDWIDTH_119HZ | GYRO_DLPF_BANDWIDTH_51HZ
| GYRO_DLPF_BANDWIDTH_23HZ | GYRO_DLPF_BANDWIDTH_11HZ
| GYRO_DLPF_BANDWIDTH_5HZ | GYRO_DLPF_BANDWIDTH_361HZ
| GyroDlpfBandwidth_cast (v : Z).

(** What [Icm20649.h] declares and the driver uses: register addresses,
    register values, physical constants, the size of [data_buf_] and the
    integer value of every enumerator. *)
Class Header : Type := {
  REG_BANK_SEL_ : Z;
  USER_CTRL_ : Z;
  I2C_IF_DIS_ : Z;
  PWR_MGMT_1_ : Z;
  CLKSEL_AUTO_ : Z;
  H_RESET_ : Z;
  WHO_AM_I_ : Z;
  WHOAMI_ICM20649_ : Z;
  ODR_ALIGN_EN_ : Z;
  ALIGN_ODR_ : Z;
  INT_ENABLE_1_ : Z;
  INT_RAW_RDY_EN_ : Z;
  INT_DISABLE_ : Z;
  ACCEL_CONFIG_ : Z;
  GYRO_CONFIG_1_ : Z;
  ACCEL_SMPLRT_DIV_2_ : Z;
  GYRO_SMPLRT_DIV_ : Z;
  INT_STATUS_1_ : Z;
  RAW_DATA_RDY_INT_ : Z;
  ACCEL_XOUT_H : Z;
  G_MPS2_ : spec_float;
  TEMP_SCALE_ : spec_float;
  DEG2RAD_ : spec_float;
  sizeof_data_buf_ : Z;
  enum_ACCEL_RANGE_4G : Z;
  enum_ACCEL_RANGE_8G : Z;
  enum_ACCEL_RANGE_16G : Z;
  enum_ACCEL_RANGE_30G : Z;
  enum_GYRO_RANGE_500DPS : Z;
  enum_GYRO_RANGE_1000DPS : Z;
  enum_GYRO_RANGE_2000DPS : Z;
  enum_GYRO_RANGE_4000DPS : Z;
  enum_ACCEL_DLPF_BANDWIDTH_246HZ : Z;
  enum_ACCEL_DLPF_BANDWIDTH_111HZ : Z;
  enum_ACCEL_DLPF_BANDWIDTH_50HZ : Z;
  enum_ACCEL_DLPF_BANDWIDTH_23HZ : Z;
  enum_ACCEL_DLPF_BANDWIDTH_11HZ : Z;
  enum_ACCEL_DLPF_BANDWIDTH_5HZ : Z;
  enum_ACCEL_DLPF_BANDWIDTH_473HZ : Z;
  enum_GYRO_DLPF_BANDWIDTH_196HZ : Z;
  enum_GYRO_DLPF_BANDWIDTH_151HZ : Z;
  enum_GYRO_DLPF_BANDWIDTH_119HZ : Z;
  enum_GYRO_DLPF_BANDWIDTH_51HZ : Z;
  enum_GYRO_DLPF_BANDWIDTH_23HZ : Z;
  enum_GYRO_DLPF_BANDWIDTH_11HZ : Z;
  enum_GYRO_DLPF_BANDWIDTH_5HZ : Z;
  enum_GYRO_DLPF_BANDWIDTH_361HZ : Z
}.

(** The members that hold a requested setting until its register write
    has succeeded. *)
Record Staged : Type := mkStaged {
  requested_accel_range_ : AccelRange;
  requested_accel_scale_ : spec_float;
  requested_gyro_range_ : GyroRange;
  requested_gyro_scale_ : spec_float;
  accel_requested_dlpf_ : AccelDlpfBandwidth;
  gyro_requested_dlpf_ : GyroDlpfBandwidth
}.

(** The members that hold the committed configuration. *)
Record Config : Type := mkConfig {
  accel_range_ : AccelRange;
  accel_scale_ : spec_float;
  gyro_range_ : GyroRange;
  gyro_scale_ : spec_float;
  accel_dlpf_bandwidth_ : AccelDlpfBandwidth;
  gyro_dlpf_bandwidth_ : GyroDlpfBandwidth;
  srd_ : Z
}.

(** The members that hold the latest sample. *)
Record Sample : Type := mkSample {
  new_imu_data_ : bool;
  accel_cnts_ : vec3 Z;
  gyro_cnts_ : vec3 Z;
  temp_cnts_ : Z;
  accel_ : vec3 spec_float;
  gyro_ : vec3 spec_float;
  temp_ : spec_float
}.

Section Driver.

Context {T : Transport} {h : Header}.

(** The integer value of an enumeration value. *)
Definition AccelRange_int (r : AccelRange) : Z :=
  match r with
  | ACCEL_RANGE_4G => enum_ACCEL_RANGE_4G
  | ACCEL_RANGE_8G => enum_ACCEL_RANGE_8G
  | ACCEL_RANGE_16G => enum_ACCEL_RANGE_16G
  | ACCEL_RANGE_30G => enum_ACCEL_RANGE_30G
  | AccelRange_cast v => v
  end.

Definition GyroRange_int (r : GyroRange) : Z :=
  match r with
  | GYRO_RANGE_500DPS => enum_GYRO_RANGE_500DPS
  | GYRO_RANGE_1000DPS => enum_GYRO_RANGE_1000DPS
  | GYRO_RANGE_2000DPS => enum_GYRO_RANGE_2000DPS
  | GYRO_RANGE_4000DPS => enum_GYRO_RANGE_4000DPS
  | GyroRange_cast v => v
  end.

Definition AccelDlpfBandwidth_int (d : AccelDlpfBandwidth) : Z :=
  match d with
  | ACCEL_DLPF_BANDWIDTH_246HZ => enum_ACCEL_DLPF_BANDWIDTH_246HZ
  | ACCEL_DLPF_BANDWIDTH_111HZ => enum_ACCEL_DLPF_BANDWIDTH_111HZ
  | ACCEL_DLPF_BANDWIDTH_50HZ => enum_ACCEL_DLPF_BANDWIDTH_50HZ
  | ACCEL_DLPF_BANDWIDTH_23HZ => enum_ACCEL_DLPF_BANDWIDTH_23HZ
  | ACCEL_DLPF_BANDWIDTH_11HZ => enum_ACCEL_DLPF_BANDWIDTH_11HZ
  | ACCEL_DLPF_BANDWIDTH_5HZ => enum_ACCEL_DLPF_BANDWIDTH_5HZ
  | ACCEL_DLPF_BANDWIDTH_473HZ => enum_ACCEL_DLPF_BANDWIDTH_473HZ
  | AccelDlpfBandwidth_cast v => v
  end.

Definition GyroDlpfBandwidth_int (d : GyroDlpfBandwidth) : Z :=
  match d with
  | GYRO_DLPF_BANDWIDTH_196HZ => enum_GYRO_DLPF_BANDWIDTH_196HZ
  | GYRO_DLPF_BANDWIDTH_151HZ => enum_GYRO_DLPF_BANDWIDTH_151HZ
  | GYRO_DLPF_BANDWIDTH_119HZ => enum_GYRO_DLPF_BANDWIDTH_119HZ
  | GYRO_DLPF_BANDWIDTH_51HZ => enum_GYRO_DLPF_BANDWIDTH_51HZ
  | GYRO_DLPF_BANDWIDTH_23HZ => enum_GYRO_DLPF_BANDWIDTH_23HZ
  | GYRO_DLPF_BANDWIDTH_11HZ => enum_GYRO_DLPF_BANDWIDTH_11HZ
  | GYRO_DLPF_BANDWIDTH_5HZ => enum_GYRO_DLPF_BANDWIDTH_5HZ
  | GYRO_DLPF_BANDWIDTH_361HZ => enum_GYRO_DLPF_BANDWIDTH_361HZ
  | GyroDlpfBandwidth_cast v => v
  end.

(** The [Icm20649] object: the transport with the log of the calls made
    into it, the serial console, and the data members. *)
Record t : Type := mk {
  imu_ : Dev T;
  bus_log : list BusEvent;
  serial_ : list String.string;
  iface_ : Interface;
  current_bank_ : Z;
  who_am_i_ : Z;
  data_buf_ : list Z;
  staged : Staged;
  config : Config;
  sample : Sample
}.

(** *** Member updates *)

Definition emit (e : BusEvent) (d : Dev T) (st : t) : t :=
  mk d (bus_log st ++ [e]) (serial_ st) (iface_ st) (current_bank_ st)
     (who_am_i_ st) (data_buf_ st) (staged st) (config st) (sample st).

Definition set_serial_ (v : list String.string) (st : t) : t :=
  mk (imu_ st) (bus_log st) v (iface_ st) (current_bank_ st)
     (who_am_i_ st) (data_buf_ st) (staged st) (config st) (sample st).

Definition set_current_bank_ (v : Z) (st : t) : t :=
  mk (imu_ st) (bus_log st) (serial_ st) (iface_ st) v
     (who_am_i_ st) (data_buf_ st) (staged st) (config st) (sample st).

Definition set_who_am_i_ (v : Z) (st : t) : t :=
  mk (imu_ st) (bus_log st) (serial_ st) (iface_ st) (current_bank_ st)
     v (data_buf_ st) (staged st) (config st) (sample st).

Definition set_data_buf_ (v : list Z) (st : t) : t :=
  mk (imu_ st) (bus_log st) (serial_ st) (iface_ st) (current_bank_ st)
     (who_am_i_ st) v (staged st) (config st) (sample st).

Definition set_staged (v : Staged) (st : t) : t :=
  mk (imu_ st) (bus_log st) (serial_ st) (iface_ st) (current_bank_ st)
     (who_am_i_ st) (data_buf_ st) v (config st) (sample st).

Definition set_config (v : Config) (st : t) : t :=
  mk (imu_ st) (bus_log st) (serial_ st) (iface_ st) (current_bank_ st)
     (who_am_i_ st) (data_buf_ st) (staged st) v (sample st).

Definition set_sample (v : Sample) (st : t) : t :=
  mk (imu_ st) (bus_log st) (serial_ st) (iface_ st) (current_bank_ st)
     (who_am_i_ st) (data_buf_ st) (staged st) (config st) v.

(** [requested_accel_range_ = range; requested_accel_scale_ = scale;] *)
Definition stage_accel_range (range : AccelRange) (scale : spec_float) (st : t) : t :=
  let s := staged st in
  set_staged (mkStaged range scale (requested_gyro_range_ s) (requested_gyro_scale_ s)
                (accel_requested_dlpf_ s) (gyro_requested_dlpf_ s)) st.

(** [requested_gyro_range_ = range; requested_gyro_scale_ = scale;] *)
Definition stage_gyro_range (range : GyroRange) (scale : spec_float) (st : t) : t :=
  let s := staged st in
  set_staged (mkStaged (requested_accel_range_ s) (requested_accel_scale_ s) range scale
                (accel_requested_dlpf_ s) (gyro_requested_dlpf_ s)) st.

(** [accel_requested_dlpf_ = dlpf;] *)
Definition stage_accel_dlpf (dlpf : AccelDlpfBandwidth) (st : t) : t :=
  let s := staged st in
  set_staged (mkStaged (requested_accel_range_ s) (requested_accel_scale_ s)
                (requested_gyro_range_ s) (requested_gyro_scale_ s)
                dlpf (gyro_requested_dlpf_ s)) st.

(** [gyro_requested_dlpf_ = dlpf;] *)
Definition stage_gyro_dlpf (dlpf : GyroDlpfBandwidth) (st : t) : t :=
  let s := staged st in
  set_staged (mkStaged (requested_accel_range_ s) (requested_accel_scale_ s)
                (requested_gyro_range_ s) (requested_gyro_scale_ s)
                (accel_requested_dlpf_ s) dlpf) st.

(** [accel_range_ = requested_accel_range_; accel_scale_ = requested_accel_scale_;] *)
Definition commit_accel_range (st : t) : t :=
  let s := staged st in let c := config st in
  set_config (mkConfig (requested_accel_range_ s) (requested_accel_scale_ s)
                (gyro_range_ c) (gyro_scale_ c)
                (accel_dlpf_bandwidth_ c) (gyro_dlpf_bandwidth_ c) (srd_ c)) st.

(** [gyro_range_ = requested_gyro_range_; gyro_scale_ = requested_gyro_scale_;] *)
Definition commit_gyro_range (st : t) : t :=
  let s := staged st in let c := config st in
  set_config (mkConfig (accel_range_ c) (accel_scale_ c)
                (requested_gyro_range_ s) (requested_gyro_scale_ s)
                (accel_dlpf_bandwidth_ c) (gyro_dlpf_bandwidth_ c) (srd_ c)) st.

(** [accel_dlpf_bandwidth_ = accel_requested_dlpf_;] *)
Definition commit_accel_dlpf (st : t) : t :=
  let s := staged st in let c := config st in
  set_config (mkConfig (accel_range_ c) (accel_scale_ c) (gyro_range_ c) (gyro_scale_ c)
                (accel_requested_dlpf_ s) (gyro_dlpf_bandwidth_ c) (srd_ c)) st.

(** [gyro_dlpf_bandwidth_ = gyro_requested_dlpf_;] *)
Definition commit_gyro_dlpf (st : t) : t :=
  let s := staged st in let c := config st in
  set_config (mkConfig (accel_range_ c) (accel_scale_ c) (gyro_range_ c) (gyro_scale_ c)
                (accel_dlpf_bandwidth_ c) (gyro_requested_dlpf_ s) (srd_ c)) st.

(** [srd_ = srd;] *)
Definition commit_srd (srd : Z) (st : t) : t :=
  let c := config st in
  set_config (mkConfig (accel_range_ c) (accel_scale_ c) (gyro_range_ c) (gyro_scale_ c)
                (accel_dlpf_bandwidth_ c) (gyro_dlpf_bandwidth_ c) srd) st.

(** [new_imu_data_ = v;] *)
Definition set_new_imu_data_ (v : bool) (st : t) : t :=
  let s := sample st in
  set_sample (mkSample v (accel_cnts_ s) (gyro_cnts_ s) (temp_cnts_ s)
                (accel_ s) (gyro_ s) (temp_ s)) st.

(** [data_buf_[0] = f(data_buf_[0]);] *)
Definition update_buf0 (f : Z -> Z) (st : t) : t :=
  set_data_buf_ (set_byte0 (u8 (f (byte_at (data_buf_ st) 0))) (data_buf_ st)) st.

(** The destinations the driver passes to [ReadRegisters]. *)
Inductive Dest : Type := dst_data_buf_ | dst_who_am_i_.

Definition poke (dst : Dest) (bs : list Z) (st : t) : t :=
  match dst with
  | dst_data_buf_ => set_data_buf_ (overwrite bs (data_buf_ st)) st
  | dst_who_am_i_ => set_who_am_i_ (nth 0 bs 0) st
  end.

(** *** Calls that leave the object *)

Definition delay (ms : Z) : M t unit :=
  modify (fun st => emit (BusDelay ms) (imu_ st) st).

Definition imu_Begin : M t unit :=
  modify (fun st => emit BusBegin (tr_begin T (imu_ st)) st).

Definition Serial_println (s : String.string) : M t unit :=
  modify (fun st => set_serial_ (serial_ st ++ [s]) st).

(** *** The methods *)

Definition WriteRegister (reg data : Z) : M t bool :=
  fun st =>
    let (ok, d) := tr_write T (imu_ st) reg data in
    (ok, emit (BusWrite reg data ok) d st).

Definition ReadRegisters (reg count : Z) (dst : Dest) : M t bool :=
  fun st =>
    let (r, d) := tr_read T (imu_ st) reg count in
    let st1 := emit (BusRead reg count r) d st in
    match r with
    | Some bs => (true, poke dst (delivered count bs) st1)
    | None => (false, st1)
    end.

Definition SetBank (bank : Z) : M t bool :=
  cur <- gets current_bank_ ;;
  if negb (bank =? cur) then
    ok <- WriteRegister REG_BANK_SEL_ (u8 (Z.shiftl bank 4)) ;;
    if ok then modify (set_current_bank_ bank) ;; ret true
    else ret false
  else ret true.

Definition EnableDrdyInt : M t bool :=
  check! SetBank 0 ;;
  check! WriteRegister INT_ENABLE_1_ INT_RAW_RDY_EN_ ;;
  ret true.

Definition DisableDrdyInt : M t bool :=
  check! SetBank 0 ;;
  check! WriteRegister INT_ENABLE_1_ INT_DISABLE_ ;;
  ret true.

Definition ConfigAccelRange (range : AccelRange) : M t bool :=
  check! SetBank 2 ;;
  check! match range with
         | ACCEL_RANGE_4G =>
             modify (stage_accel_range range (F32.div (F32.of_Z 4) F32.c32767_5)) ;; ret true
         | ACCEL_RANGE_8G =>
             modify (stage_accel_range range (F32.div (F32.of_Z 8) F32.c32767_5)) ;; ret true
         | ACCEL_RANGE_16G =>
             modify (stage_accel_range range (F32.div (F32.of_Z 16) F32.c32767_5)) ;; ret true
         | ACCEL_RANGE_30G =>
             modify (stage_accel_range range (F32.div (F32.of_Z 32) F32.c32767_5)) ;; ret true
         | AccelRange_cast _ => ret false
         end ;;
  ReadRegisters ACCEL_CONFIG_ 1 dst_data_buf_ ;;
  modify (update_buf0 (fun b => Z.land b (Z.lnot 6))) ;;
  r <- gets (fun st => requested_accel_range_ (staged st)) ;;
  modify (update_buf0 (fun b => Z.lor b (Z.shiftl (AccelRange_int r) 1))) ;;
  b <- gets (fun st => byte_at (data_buf_ st) 0) ;;
  check! WriteRegister ACCEL_CONFIG_ b ;;
  modify commit_accel_range ;;
  ret true.

Definition ConfigGyroRange (range : GyroRange) : M t bool :=
  check! SetBank 2 ;;
  check! match range with
         | GYRO_RANGE_500DPS =>
             modify (stage_gyro_range range (F32.div (F32.of_Z 500) F32.c32767_5)) ;; ret true
         | GYRO_RANGE_1000DPS =>
             modify (stage_gyro_range range (F32.div (F32.of_Z 1000) F32.c32767_5)) ;; ret true
         | GYRO_RANGE_2000DPS =>
             modify (stage_gyro_range range (F32.div (F32.of_Z 2000) F32.c32767_5)) ;; ret true
         | GYRO_RANGE_4000DPS =>
             modify (stage_gyro_range range (F32.div (F32.of_Z 4000) F32.c32767_5)) ;; ret true
         | GyroRange_cast _ => ret false
         end ;;
  ReadRegisters GYRO_CONFIG_1_ 1 dst_data_buf_ ;;
  modify (update_buf0 (fun b => Z.land b (Z.lnot 6))) ;;
  r <- gets (fun st => requested_accel_range_ (staged st)) ;;
  modify (update_buf0 (fun b => Z.lor b (Z.shiftl (AccelRange_int r) 1))) ;;
  b <- gets (fun st => byte_at (data_buf_ st) 0) ;;
  check! WriteRegister GYRO_CONFIG_1_ b ;;
  modify commit_gyro_range ;;
  ret true.

Definition ConfigSrd (srd : Z) : M t bool :=
  check! SetBank 2 ;;
  check! WriteRegister ACCEL_SMPLRT_DIV_2_ srd ;;
  check! WriteRegister GYRO_SMPLRT_DIV_ srd ;;
  modify (commit_srd srd) ;;
  ret true.

Definition ConfigAccelDlpfBandwidth (dlpf : AccelDlpfBandwidth) : M t bool :=
  check! SetBank 2 ;;
  check! match dlpf with
         | ACCEL_DLPF_BANDWIDTH_246HZ | ACCEL_DLPF_BANDWIDTH_111HZ
         | ACCEL_DLPF_BANDWIDTH_50HZ | ACCEL_DLPF_BANDWIDTH_23HZ
         | ACCEL_DLPF_BANDWIDTH_11HZ | ACCEL_DLPF_BANDWIDTH_5HZ
         | ACCEL_DLPF_BANDWIDTH_473HZ =>
             modify (stage_accel_dlpf dlpf) ;; ret true
         | AccelDlpfBandwidth_cast _ => ret false
         end ;;
  ReadRegisters ACCEL_CONFIG_ 1 dst_data_buf_ ;;
  modify (update_buf0 (fun b => Z.lor b 1)) ;;
  modify (update_buf0 (fun b => Z.land b 199)) ;;
  d <- gets (fun st => accel_requested_dlpf_ (staged st)) ;;
  modify (update_buf0 (fun b => Z.lor b (Z.shiftl (AccelDlpfBandwidth_int d) 3))) ;;
  b <- gets (fun st => byte_at (data_buf_ st) 0) ;;
  check! WriteRegister ACCEL_CONFIG_ b ;;
  modify commit_accel_dlpf ;;
  ret true.

Definition ConfigGyroDlpfBandwidth (dlpf : GyroDlpfBandwidth) : M t bool :=
  check! SetBank 2 ;;
  check! match dlpf with
         | GYRO_DLPF_BANDWIDTH_196HZ | GYRO_DLPF_BANDWIDTH_151HZ
         | GYRO_DLPF_BANDWIDTH_119HZ | GYRO_DLPF_BANDWIDTH_51HZ
         | GYRO_DLPF_BANDWIDTH_23HZ | GYRO_DLPF_BANDWIDTH_11HZ
         | GYRO_DLPF_BANDWIDTH_5HZ | GYRO_DLPF_BANDWIDTH_361HZ =>
             modify (stage_gyro_dlpf dlpf) ;; ret true
         | GyroDlpfBandwidth_cast _ => ret false
         end ;;
  ReadRegisters GYRO_CONFIG_1_ sizeof_data_buf_ dst_data_buf_ ;;
  modify (update_buf0 (fun b => Z.lor b 1)) ;;
  modify (update_buf0 (fun b => Z.land b 199)) ;;
  d <- gets (fun st => gyro_requested_dlpf_ (staged st)) ;;
  modify (update_buf0 (fun b => Z.lor b (Z.shiftl (GyroDlpfBandwidth_int d) 3))) ;;
  b <- gets (fun st => byte_at (data_buf_ st) 0) ;;
  check! WriteRegister GYRO_CONFIG_1_ b ;;
  modify commit_gyro_dlpf ;;
  ret true.

Definition Reset : M t unit :=
  SetBank 0 ;;
  WriteRegister PWR_MGMT_1_ H_RESET_ ;;
  delay 1.

(** The unpacking and scaling part of [Read]. *)
Definition publish (st : t) : t :=
  let buf := data_buf_ st in
  let c := config st in
  let f := F32.of_Z in
  let ax := unpack16 (byte_at buf 0) (byte_at buf 1) in
  let ay := unpack16 (byte_at buf 2) (byte_at buf 3) in
  let az := unpack16 (byte_at buf 4) (byte_at buf 5) in
  let gx := unpack16 (byte_at buf 6) (byte_at buf 7) in
  let gy := unpack16 (byte_at buf 8) (byte_at buf 9) in
  let gz := unpack16 (byte_at buf 10) (byte_at buf 11) in
  let tc := unpack16 (byte_at buf 12) (byte_at buf 13) in
  set_sample
    (mkSample (new_imu_data_ (sample st)) (ax, ay, az) (gx, gy, gz) tc
       (F32.mul (F32.mul (f ax) (accel_scale_ c)) G_MPS2_,
        F32.mul (F32.mul (F32.mul (f ay) (accel_scale_ c)) F32.m1) G_MPS2_,
        F32.mul (F32.mul (F32.mul (f az) (accel_scale_ c)) F32.m1) G_MPS2_)
       (F32.mul (F32.mul (f gx) (gyro_scale_ c)) DEG2RAD_,
        F32.mul (F32.mul (F32.mul (f gy) (gyro_scale_ c)) F32.m1) DEG2RAD_,
        F32.mul (F32.mul (F32.mul (f gz) (gyro_scale_ c)) F32.m1) DEG2RAD_)
       (F32.add (F32.div (F32.sub (f tc) F32.c21) TEMP_SCALE_) F32.c21))
    st.

Definition Read : M t bool :=
  SetBank 0 ;;
  modify (set_new_imu_data_ false) ;;
  check! ReadRegisters INT_STATUS_1_ 1 dst_data_buf_ ;;
  b <- gets (fun st => byte_at (data_buf_ st) 0) ;;
  modify (set_new_imu_data_ (to_bool (Z.land b RAW_DATA_RDY_INT_))) ;;
  ready <- gets (fun st => new_imu_data_ (sample st)) ;;
  if negb ready then ret false else
  ReadRegisters ACCEL_XOUT_H 14 dst_data_buf_ ;;
  modify publish ;;
  ret true.

Definition Begin : M t bool :=
  delay 100 ;;
  imu_Begin ;;
  (iface <- gets iface_ ;;
   match iface with
   | SPI =>
       ok <- WriteRegister USER_CTRL_ I2C_IF_DIS_ ;;
       if negb ok then Serial_println "I2C IF DIS FALSE"%string else ret tt
   | I2C => ret tt
   end) ;;
  check! SetBank 0 ;;
  delay 100 ;;
  check! WriteRegister PWR_MGMT_1_ CLKSEL_AUTO_ ;;
  check! ReadRegisters WHO_AM_I_ 1 dst_who_am_i_ ;;
  w <- gets who_am_i_ ;;
  if negb (w =? WHOAMI_ICM20649_) then ret false else
  SetBank 2 ;;
  check! WriteRegister ODR_ALIGN_EN_ ALIGN_ODR_ ;;
  check! ConfigAccelRange ACCEL_RANGE_30G ;;
  check! ConfigGyroRange GYRO_RANGE_4000DPS ;;
  check! ConfigAccelDlpfBandwidth ACCEL_DLPF_BANDWIDTH_111HZ ;;
  check! ConfigGyroDlpfBandwidth GYRO_DLPF_BANDWIDTH_119HZ ;;
  check! ConfigSrd 0 ;;
  ret true.

(** [Begin] as a list of steps: which results are tested and which are
    dropped. *)
Definition begin_steps : list (Step t) :=
  [ Unchecked (delay 100);
    Unchecked imu_Begin;
    Unchecked (iface <- gets iface_ ;;
               match iface with
               | SPI =>
                   ok <- WriteRegister USER_CTRL_ I2C_IF_DIS_ ;;
                   if negb ok then Serial_println "I2C IF DIS FALSE"%string else ret tt
               | I2C => ret tt
               end);
    Checked (SetBank 0);
    Unchecked (delay 100);
    Checked (WriteRegister PWR_MGMT_1_ CLKSEL_AUTO_);
    Checked (ReadRegisters WHO_AM_I_ 1 dst_who_am_i_);
    Checked (gets (fun st => who_am_i_ st =? WHOAMI_ICM20649_));
    Unchecked (SetBank 2);
    Checked (WriteRegister ODR_ALIGN_EN_ ALIGN_ODR_);
    Checked (ConfigAccelRange ACCEL_RANGE_30G);
    Checked (ConfigGyroRange GYRO_RANGE_4000DPS);
    Checked (ConfigAccelDlpfBandwidth ACCEL_DLPF_BANDWIDTH_111HZ);
    Checked (ConfigGyroDlpfBandwidth GYRO_DLPF_BANDWIDTH_119HZ);
    Checked (ConfigSrd 0) ].

(** [SetBank] for each bank of a list, in order. *)
Fixpoint SetBank_each (banks : list Z) : M t unit :=
  match banks with
  | [] => ret tt
  | b :: l => SetBank b ;; SetBank_each l
  end.

(** Every enumerator of the header fits the register field it is
    shifted into. *)
Definition fields_fit : bool :=
  forallb (fun r => range_fits (AccelRange_int r))
    [ACCEL_RANGE_4G; ACCEL_RANGE_8G; ACCEL_RANGE_16G; ACCEL_RANGE_30G] &&
  forallb (fun d => dlpf_fits (AccelDlpfBandwidth_int d))
    [ACCEL_DLPF_BANDWIDTH_246HZ; ACCEL_DLPF_BANDWIDTH_111HZ;
     ACCEL_DLPF_BANDWIDTH_50HZ; ACCEL_DLPF_BANDWIDTH_23HZ;
     ACCEL_DLPF_BANDWIDTH_11HZ; ACCEL_DLPF_BANDWIDTH_5HZ;
     ACCEL_DLPF_BANDWIDTH_473HZ] &&
  forallb (fun d => dlpf_fits (GyroDlpfBandwidth_int d))
    [GYRO_DLPF_BANDWIDTH_196HZ; GYRO_DLPF_BANDWIDTH_151HZ;
     GYRO_DLPF_BANDWIDTH_119HZ; GYRO_DLPF_BANDWIDTH_51HZ;
     GYRO_DLPF_BANDWIDTH_23HZ; GYRO_DLPF_BANDWIDTH_11HZ;
     GYRO_DLPF_BANDWIDTH_5HZ; GYRO_DLPF_BANDWIDTH_361HZ].

(** [data_buf_[0]] as the register read of a configuration method leaves
    it: after [SetBank(2)] and [ReadRegisters(reg, count, data_buf_)]. *)
Definition byte_read (reg count : Z) (st : t) : Z :=
  byte_at (data_buf_ (snd ((SetBank 2 ;; ReadRegisters reg count dst_data_buf_) st))) 0.

End Driver.

(** The full-scale value an enumerator is named after. *)
Definition AccelRange_nominal (r : AccelRange) : Z :=
  match r with
  | ACCEL_RANGE_4G => 4
  | ACCEL_RANGE_8G => 8
  | ACCEL_RANGE_16G => 16
  | ACCEL_RANGE_30G => 30
  | AccelRange_cast _ => 0
  end.

(** The full-scale value the driver's scale factor is computed from. *)
Definition AccelRange_full_scale (r : AccelRange) : Z :=
  match r with
  | ACCEL_RANGE_30G => 32
  | _ => AccelRange_nominal r
  end.

Definition GyroRange_full_scale (r : GyroRange) : Z :=
  match r with
  | GYRO_RANGE_500DPS => 500
  | GYRO_RANGE_1000DPS => 1000
  | GYRO_RANGE_2000DPS => 2000
  | GYRO_RANGE_4000DPS => 4000
  | GyroRange_cast _ => 0
  end.

Arguments t T : clear implicits.

(** An instance of the header, with the register map and field encodings
    of the ICM-20649 data sheet; used to run the driver on concrete
    inputs. *)
Definition example_header : Header := {|
  REG_BANK_SEL_ := 0x7F;
  USER_CTRL_ := 0x03;
  I2C_IF_DIS_ := 0x10;
  PWR_MGMT_1_ := 0x06;
  CLKSEL_AUTO_ := 0x01;
  H_RESET_ := 0x80;
  WHO_AM_I_ := 0x00;
  WHOAMI_ICM20649_ := 0xE1;
  ODR_ALIGN_EN_ := 0x09;
  ALIGN_ODR_ := 0x01;
  INT_ENABLE_1_ := 0x11;
  INT_RAW_RDY_EN_ := 0x01;
  INT_DISABLE_ := 0x00;
  ACCEL_CONFIG_ := 0x14;
  GYRO_CONFIG_1_ := 0x01;
  ACCEL_SMPLRT_DIV_2_ := 0x11;
  GYRO_SMPLRT_DIV_ := 0x00;
  INT_STATUS_1_ := 0x1A;
  RAW_DATA_RDY_INT_ := 0x01;
  ACCEL_XOUT_H := 0x2D;
  G_MPS2_ := F32.div (F32.of_Z 980665) (F32.of_Z 100000);
  TEMP_SCALE_ := F32.div (F32.of_Z 33387) (F32.of_Z 100);
  DEG2RAD_ := F32.div (F32.of_Z 355) (F32.of_Z 20340);
  sizeof_data_buf_ := 14;
  enum_ACCEL_RANGE_4G := 0;
  enum_ACCEL_RANGE_8G := 1;
  enum_ACCEL_RANGE_16G := 2;
  enum_ACCEL_RANGE_30G := 3;
  enum_GYRO_RANGE_500DPS := 0;
  enum_GYRO_RANGE_1000DPS := 1;
  enum_GYRO_RANGE_2000DPS := 2;
  enum_GYRO_RANGE_4000DPS := 3;
  enum_ACCEL_DLPF_BANDWIDTH_246HZ := 1;
  enum_ACCEL_DLPF_BANDWIDTH_111HZ := 2;
  enum_ACCEL_DLPF_BANDWIDTH_50HZ := 3;
  enum_ACCEL_DLPF_BANDWIDTH_23HZ := 4;
  enum_ACCEL_DLPF_BANDWIDTH_11HZ := 5;
  enum_ACCEL_DLPF_BANDWIDTH_5HZ := 6;
  enum_ACCEL_DLPF_BANDWIDTH_473HZ := 7;
  enum_GYRO_DLPF_BANDWIDTH_196HZ := 0;
  enum_GYRO_DLPF_BANDWIDTH_151HZ := 1;
  enum_GYRO_DLPF_BANDWIDTH_119HZ := 2;
  enum_GYRO_DLPF_BANDWIDTH_51HZ := 3;
  enum_GYRO_DLPF_BANDWIDTH_23HZ := 4;
  enum_GYRO_DLPF_BANDWIDTH_11HZ := 5;
  enum_GYRO_DLPF_BANDWIDTH_5HZ := 6;
  enum_GYRO_DLPF_BANDWIDTH_361HZ := 7
|}.

Definition zero3 : vec3 spec_float :=
  (S754_zero false, S754_zero false, S754_zero false).

(** An object on the I2C interface whose members are all zero, with bank 0
    cached, the 4G / 500DPS settings staged and committed, and an empty
    log, over the transport state [d]. *)
Definition example_object {T : Transport} (d : Dev T) : t T :=
  mk d [] [] I2C 0 0 (repeat 0 14)
     (mkStaged ACCEL_RANGE_4G (S754_zero false) GYRO_RANGE_500DPS (S754_zero false)
        ACCEL_DLPF_BANDWIDTH_246HZ GYRO_DLPF_BANDWIDTH_196HZ)
     (mkConfig ACCEL_RANGE_4G (S754_zero false) GYRO_RANGE_500DPS (S754_zero false)
        ACCEL_DLPF_BANDWIDTH_246HZ GYRO_DLPF_BANDWIDTH_196HZ 0)
     (mkSample false (0, 0, 0) (0, 0, 0) 0 zero3 zero3 (S754_zero false)).

End Icm20649.

(** * ICM-20948 with the AK09916 magnetometer ([src/icm20948.cpp]) *)

Module Icm20948.

Inductive Interface : Type := I2C | SPI.

(** The enumerations of [Icm20948.h]; the last constructor of each stands
    for a value of the underlying integer type that is none of the
    enumerators. *)
Inductive AccelRange : Type :=
| ACCEL_RANGE_2G | ACCEL_RANGE_4G | ACCEL_RANGE_8G | ACCEL_RANGE_16G
| AccelRange_cast (v : Z).

Inductive GyroRange : Type :=
| GYRO_RANGE_250DPS | GYRO_RANGE_500DPS | GYRO_RANGE_1000DPS | GYRO_RANGE_2000DPS
| GyroRange_cast (v : Z).

Inductive AccelDlpfBandwidth : Type :=
| ACCEL_DLPF_BANDWIDTH_246HZ | ACCEL_DLPF_BANDWIDTH_111HZ
| ACCEL_DLPF_BANDWIDTH_50HZ | ACCEL_DLPF_BANDWIDTH_23HZ
| ACCEL_DLPF_BANDWIDTH_11HZ | ACCEL_DLPF_BANDWIDTH_5HZ
| ACCEL_DLPF_BANDWIDTH_473HZ
| AccelDlpfBandwidth_cast (v : Z).

Inductive GyroDlpfBandwidth : Type :=
| GYRO_DLPF_BANDWIDTH_196HZ | GYRO_DLPF_BANDWIDTH_151HZ
| GYRO_DLPF_BANDWIDTH_119HZ | GYRO_DLPF_BANDWIDTH_51HZ
| GYRO_DLPF_BANDWIDTH_23HZ | GYRO_DLPF_BANDWIDTH_11HZ
| GYRO_DLPF_BANDWIDTH_5HZ | GYRO_DLPF_BANDWIDTH_361HZ
| GyroDlpfBandwidth_cast (v : Z).

Inductive TempDlpfBandwidth : Type :=
| TEMP_DLPF_BANDWIDTH_7932HZ | TEMP_DLPF_BANDWIDTH_217HZ
| TEMP_DLPF_BANDWIDTH_123HZ | TEMP_DLPF_BANDWIDTH_65HZ
| TEMP_DLPF_BANDWIDTH_34HZ | TEMP_DLPF_BANDWIDTH_17HZ
| TEMP_DLPF_BANDWIDTH_8HZ
| TempDlpfBandwidth_cast (v : Z).

(** What [Icm20948.h] declares and the driver uses. *)
Class Header : Type := {
  BANK_0_ : Z;
  BANK_2_ : Z;
  BANK_3_ : Z;
  REG_BANK_SEL_ : Z;
  USER_CTRL_ : Z;
  USER_CTRL_I2C_IF_DIS_ : Z;
  USER_CTRL_I2C_MST_EN_ : Z;
  PWR_MGMT_1_ : Z;
  PWR_MGMT_1_CLKSEL_AUTO_ : Z;
  PWR_MGMT_1_RESET_ : Z;
  I2C_MST_CTRL_ : Z;
  I2C_MST_CTRL_400_KHZ_CLK_ : Z;
  WHO_AM_I_ : Z;
  WHOAMI_ICM20649_ : Z;
  ODR_ALIGN_EN_ : Z;
  ODR_ALIGN_EN_ALIGN_ENABLE_ : Z;
  INT_ENABLE_1_ : Z;
  INT_ENABLE_1_INT_ENABLE_ : Z;
  INT_ENABLE_1_INT_DISABLE_ : Z;
  ACCEL_CONFIG_ : Z;
  GYRO_CONFIG_1_ : Z;
  TEMP_CONFIG_ : Z;
  ACCEL_SMPLRT_DIV_2_ : Z;
  GYRO_SMPLRT_DIV_ : Z;
  INT_STATUS_1_ : Z;
  RAW_DATA_RDY_INT_ : Z;
  ACCEL_XOUT_H : Z;
  I2C_SLV0_ADDR_ : Z;
  I2C_SLV0_ADDR_READ_ : Z;
  I2C_SLV0_REG_ : Z;
  I2C_SLV0_D0_ : Z;
  I2C_SLV0_CTRL_ : Z;
  I2C_SLV0_CTRL_EN_ : Z;
  EXT_SLV_SENS_DATA_00_ : Z;
  AK09916_I2C_ADDR_ : Z;
  AK09916_WIA2_ : Z;
  WHOAMI_AK09916_ : Z;
  AK09916_ST1_ : Z;
  AK09916_ST1_DRDY_ : Z;
  AK09916_ST2_HOFL_ : Z;
  AK09916_CNTL2_ : Z;
  AK09916_CNTL2_CONT_MEAS_MODE1_ : Z;
  AK09916_CNTL3_ : Z;
  AK09916_CNTL3_SRST_ : Z;
  G_MPS2_ : spec_float;
  TEMP_SCALE_ : spec_float;
  DEG2RAD_ : spec_float;
  MAG_SCALE_ : spec_float;
  sizeof_data_buf_ : Z;
  sizeof_mag_data_ : Z;
  enum_ACCEL_RANGE_2G : Z;
  enum_ACCEL_RANGE_4G : Z;
  enum_ACCEL_RANGE_8G : Z;
  enum_ACCEL_RANGE_16G : Z;
  enum_GYRO_RANGE_250DPS : Z;
  enum_GYRO_RANGE_500DPS : Z;
  enum_GYRO_RANGE_1000DPS : Z;
  enum_GYRO_RANGE_2000DPS : Z;
  enum_ACCEL_DLPF_BANDWIDTH_246HZ : Z;
  enum_ACCEL_DLPF_BANDWIDTH_111HZ : Z;
  enum_ACCEL_DLPF_BANDWIDTH_50HZ : Z;
  enum_ACCEL_DLPF_BANDWIDTH_23HZ : Z;
  enum_ACCEL_DLPF_BANDWIDTH_11HZ : Z;
  enum_ACCEL_DLPF_BANDWIDTH_5HZ : Z;
  enum_ACCEL_DLPF_BANDWIDTH_473HZ : Z;
  enum_GYRO_DLPF_BANDWIDTH_196HZ : Z;
  enum_GYRO_DLPF_BANDWIDTH_151HZ : Z;
  enum_GYRO_DLPF_BANDWIDTH_119HZ : Z;
  enum_GYRO_DLPF_BANDWIDTH_51HZ : Z;
  enum_GYRO_DLPF_BANDWIDTH_23HZ : Z;
  enum_GYRO_DLPF_BANDWIDTH_11HZ : Z;
  enum_GYRO_DLPF_BANDWIDTH_5HZ : Z;
  enum_GYRO_DLPF_BANDWIDTH_361HZ : Z;
  enum_TEMP_DLPF_BANDWIDTH_7932HZ : Z;
  enum_TEMP_DLPF_BANDWIDTH_217HZ : Z;
  enum_TEMP_DLPF_BANDWIDTH_123HZ : Z;
  enum_TEMP_DLPF_BANDWIDTH_65HZ : Z;
  enum_TEMP_DLPF_BANDWIDTH_34HZ : Z;
  enum_TEMP_DLPF_BANDWIDTH_17HZ : Z;
  enum_TEMP_DLPF_BANDWIDTH_8HZ : Z
}.

(** The members that hold a requested setting until its register write
    has succeeded. *)
Record Staged : Type := mkStaged {
  requested_accel_range_ : AccelRange;
  requested_accel_scale_ : spec_float;
  requested_gyro_range_ : GyroRange;
  requested_gyro_scale_ : spec_float;
  accel_requested_dlpf_ : AccelDlpfBandwidth;
  gyro_requested_dlpf_ : GyroDlpfBandwidth;
  temp_requested_dlpf_ : TempDlpfBandwidth
}.

(** The members that hold the committed configuration. *)
Record Config : Type := mkConfig {
  accel_range_ : AccelRange;
  accel_scale_ : spec_float;
  gyro_range_ : GyroRange;
  gyro_scale_ : spec_float;
  accel_dlpf_bandwidth_ : AccelDlpfBandwidth;
  gyro_dlpf_bandwidth_ : GyroDlpfBandwidth;
  temp_dlpf_bandwidth_ : TempDlpfBandwidth;
  srd_ : Z
}.

(** The members that hold the latest sample. *)
Record Sample : Type := mkSample {
  new_imu_data_ : bool;
  new_mag_data_ : bool;
  mag_sensor_overflow_ : bool;
  accel_cnts_ : vec3 Z;
  gyro_cnts_ : vec3 Z;
  temp_cnts_ : Z;
  mag_cnts_ : vec3 Z;
  accel_ : vec3 spec_float;
  gyro_ : vec3 spec_float;
  temp_ : spec_float;
  mag_ : vec3 spec_float
}.

Section Driver.

Context {T : Transport} {h : Header}.

(** The integer value of an enumeration value. *)
Definition AccelRange_int (r : AccelRange) : Z :=
  match r with
  | ACCEL_RANGE_2G => enum_ACCEL_RANGE_2G
  | ACCEL_RANGE_4G => enum_ACCEL_RANGE_4G
  | ACCEL_RANGE_8G => enum_ACCEL_RANGE_8G
  | ACCEL_RANGE_16G => enum_ACCEL_RANGE_16G
  | AccelRange_cast v => v
  end.

Definition GyroRange_int (r : GyroRange) : Z :=
  match r with
  | GYRO_RANGE_250DPS => enum_GYRO_RANGE_250DPS
  | GYRO_RANGE_500DPS => enum_GYRO_RANGE_500DPS
  | GYRO_RANGE_1000DPS => enum_GYRO_RANGE_1000DPS
  | GYRO_RANGE_2000DPS => enum_GYRO_RANGE_2000DPS
  | GyroRange_cast v => v
  end.

Definition AccelDlpfBandwidth_int (d : AccelDlpfBandwidth) : Z :=
  match d with
  | ACCEL_DLPF_BANDWIDTH_246HZ => enum_ACCEL_DLPF_BANDWIDTH_246HZ
  | ACCEL_DLPF_BANDWIDTH_111HZ => enum_ACCEL_DLPF_BANDWIDTH_111HZ
  | ACCEL_DLPF_BANDWIDTH_50HZ => enum_ACCEL_DLPF_BANDWIDTH_50HZ
  | ACCEL_DLPF_BANDWIDTH_23HZ => enum_ACCEL_DLPF_BANDWIDTH_23HZ
  | ACCEL_DLPF_BANDWIDTH_11HZ => enum_ACCEL_DLPF_BANDWIDTH_11HZ
  | ACCEL_DLPF_BANDWIDTH_5HZ => enum_ACCEL_DLPF_BANDWIDTH_5HZ
  | ACCEL_DLPF_BANDWIDTH_473HZ => enum_ACCEL_DLPF_BANDWIDTH_473HZ
  | AccelDlpfBandwidth_cast v => v
  end.

Definition GyroDlpfBandwidth_int (d : GyroDlpfBandwidth) : Z :=
  match d with
  | GYRO_DLPF_BANDWIDTH_196HZ => enum_GYRO_DLPF_BANDWIDTH_196HZ
  | GYRO_DLPF_BANDWIDTH_151HZ => enum_GYRO_DLPF_BANDWIDTH_151HZ
  | GYRO_DLPF_BANDWIDTH_119HZ => enum_GYRO_DLPF_BANDWIDTH_119HZ
  | GYRO_DLPF_BANDWIDTH_51HZ => enum_GYRO_DLPF_BANDWIDTH_51HZ
  | GYRO_DLPF_BANDWIDTH_23HZ => enum_GYRO_DLPF_BANDWIDTH_23HZ
  | GYRO_DLPF_BANDWIDTH_11HZ => enum_GYRO_DLPF_BANDWIDTH_11HZ
  | GYRO_DLPF_BANDWIDTH_5HZ => enum_GYRO_DLPF_BANDWIDTH_5HZ
  | GYRO_DLPF_BANDWIDTH_361HZ => enum_GYRO_DLPF_BANDWIDTH_361HZ
  | GyroDlpfBandwidth_cast v => v
  end.

Definition TempDlpfBandwidth_int (d : TempDlpfBandwidth) : Z :=
  match d with
  | TEMP_DLPF_BANDWIDTH_7932HZ => enum_TEMP_DLPF_BANDWIDTH_7932HZ
  | TEMP_DLPF_BANDWIDTH_217HZ => enum_TEMP_DLPF_BANDWIDTH_217HZ
  | TEMP_DLPF_BANDWIDTH_123HZ => enum_TEMP_DLPF_BANDWIDTH_123HZ
  | TEMP_DLPF_BANDWIDTH_65HZ => enum_TEMP_DLPF_BANDWIDTH_65HZ
  | TEMP_DLPF_BANDWIDTH_34HZ => enum_TEMP_DLPF_BANDWIDTH_34HZ
  | TEMP_DLPF_BANDWIDTH_17HZ => enum_TEMP_DLPF_BANDWIDTH_17HZ
  | TEMP_DLPF_BANDWIDTH_8HZ => enum_TEMP_DLPF_BANDWIDTH_8HZ
  | TempDlpfBandwidth_cast v => v
  end.

(** The [Icm20948] object: the transport with the log of the calls made
    into it, and the data members.  [ret_val] is the local variable of
    [WriteAk09916Register] whose address is passed to
    [ReadAk09916Registers]; it is not initialised there, so it holds
    whatever the state holds until a successful read stores into it. *)
Record t : Type := mk {
  imu_ : Dev T;
  bus_log : list BusEvent;
  iface_ : Interface;
  current_bank_ : Z;
  who_am_i_ : Z;
  data_buf_ : list Z;
  mag_data_ : list Z;
  ret_val : Z;
  staged : Staged;
  config : Config;
  sample : Sample
}.

(** *** Member updates *)

Definition emit (e : BusEvent) (d : Dev T) (st : t) : t :=
  mk d (bus_log st ++ [e]) (iface_ st) (current_bank_ st) (who_am_i_ st)
     (data_buf_ st) (mag_data_ st) (ret_val st) (staged st) (config st) (sample st).

Definition set_current_bank_ (v : Z) (st : t) : t :=
  mk (imu_ st) (bus_log st) (iface_ st) v (who_am_i_ st)
     (data_buf_ st) (mag_data_ st) (ret_val st) (staged st) (config st) (sample st).

Definition set_who_am_i_ (v : Z) (st : t) : t :=
  mk (imu_ st) (bus_log st) (iface_ st) (current_bank_ st) v
     (data_buf_ st) (mag_data_ st) (ret_val st) (staged st) (config st) (sample st).

Definition set_data_buf_ (v : list Z) (st : t) : t :=
  mk (imu_ st) (bus_log st) (iface_ st) (current_bank_ st) (who_am_i_ st)
     v (mag_data_ st) (ret_val st) (staged st) (config st) (sample st).

Definition set_mag_data_ (v : list Z) (st : t) : t :=
  mk (imu_ st) (bus_log st) (iface_ st) (current_bank_ st) (who_am_i_ st)
     (data_buf_ st) v (ret_val st) (staged st) (config st) (sample st).

Definition set_ret_val (v : Z) (st : t) : t :=
  mk (imu_ st) (bus_log st) (iface_ st) (current_bank_ st) (who_am_i_ st)
     (data_buf_ st) (mag_data_ st) v (staged st) (config st) (sample st).

Definition set_staged (v : Staged) (st : t) : t :=
  mk (imu_ st) (bus_log st) (iface_ st) (current_bank_ st) (who_am_i_ st)
     (data_buf_ st) (mag_data_ st) (ret_val st) v (config st) (sample st).

Definition set_config (v : Config) (st : t) : t :=
  mk (imu_ st) (bus_log st) (iface_ st) (current_bank_ st) (who_am_i_ st)
     (data_buf_ st) (mag_data_ st) (ret_val st) (staged st) v (sample st).

Definition set_sample (v : Sample) (st : t) : t :=
  mk (imu_ st) (bus_log st) (iface_ st) (current_bank_ st) (who_am_i_ st)
     (data_buf_ st) (mag_data_ st) (ret_val st) (staged st) (config st) v.

(** [requested_accel_range_ = range; requested_accel_scale_ = scale;] *)
Definition stage_accel_range (range : AccelRange) (scale : spec_float) (st : t) : t :=
  let s := staged st in
  set_staged (mkStaged range scale (requested_gyro_range_ s) (requested_gyro_scale_ s)
                (accel_requested_dlpf_ s) (gyro_requested_dlpf_ s)
                (temp_requested_dlpf_ s)) st.

(** [requested_gyro_range_ = range; requested_gyro_scale_ = scale;] *)
Definition stage_gyro_range (range : GyroRange) (scale : spec_float) (st : t) : t :=
  let s := staged st in
  set_staged (mkStaged (requested_accel_range_ s) (requested_accel_scale_ s) range scale
                (accel_requested_dlpf_ s) (gyro_requested_dlpf_ s)
                (temp_requested_dlpf_ s)) st.

(** [accel_requested_dlpf_ = dlpf;] *)
Definition stage_accel_dlpf (dlpf : AccelDlpfBandwidth) (st : t) : t :=
  let s := staged st in
  set_staged (mkStaged (requested_accel_range_ s) (requested_accel_scale_ s)
                (requested_gyro_range_ s) (requested_gyro_scale_ s)
                dlpf (gyro_requested_dlpf_ s) (temp_requested_dlpf_ s)) st.

(** [gyro_requested_dlpf_ = dlpf;] *)
Definition stage_gyro_dlpf (dlpf : GyroDlpfBandwidth) (st : t) : t :=
  let s := staged st in
  set_staged (mkStaged (requested_accel_range_ s) (requested_accel_scale_ s)
                (requested_gyro_range_ s) (requested_gyro_scale_ s)
                (accel_requested_dlpf_ s) dlpf (temp_requested_dlpf_ s)) st.

(** [temp_requested_dlpf_ = dlpf;] *)
Definition stage_temp_dlpf (dlpf : TempDlpfBandwidth) (st : t) : t :=
  let s := staged st in
  set_staged (mkStaged (requested_accel_range_ s) (requested_accel_scale_ s)
                (requested_gyro_range_ s) (requested_gyro_scale_ s)
                (accel_requested_dlpf_ s) (gyro_requested_dlpf_ s) dlpf) st.

(** [accel_range_ = requested_accel_range_; accel_scale_ = requested_accel_scale_;] *)
Definition commit_accel_range (st : t) : t :=
  let s := staged st in let c := config st in
  set_config (mkConfig (requested_accel_range_ s) (requested_accel_scale_ s)
                (gyro_range_ c) (gyro_scale_ c) (accel_dlpf_bandwidth_ c)
                (gyro_dlpf_bandwidth_ c) (temp_dlpf_bandwidth_ c) (srd_ c)) st.

(** [gyro_range_ = requested_gyro_range_; gyro_scale_ = requested_gyro_scale_;] *)
Definition commit_gyro_range (st : t) : t :=
  let s := staged st in let c := config st in
  set_config (mkConfig (accel_range_ c) (accel_scale_ c)
                (requested_gyro_range_ s) (requested_gyro_scale_ s)
                (accel_dlpf_bandwidth_ c) (gyro_dlpf_bandwidth_ c)
                (temp_dlpf_bandwidth_ c) (srd_ c)) st.

(** [accel_dlpf_bandwidth_ = accel_requested_dlpf_;] *)
Definition commit_accel_dlpf (st : t) : t :=
  let s := staged st in let c := config st in
  set_config (mkConfig (accel_range_ c) (accel_scale_ c) (gyro_range_ c) (gyro_scale_ c)
                (accel_requested_dlpf_ s) (gyro_dlpf_bandwidth_ c)
                (temp_dlpf_bandwidth_ c) (srd_ c)) st.

(** [gyro_dlpf_bandwidth_ = gyro_requested_dlpf_;] *)
Definition commit_gyro_dlpf (st : t) : t :=
  let s := staged st in let c := config st in
  set_config (mkConfig (accel_range_ c) (accel_scale_ c) (gyro_range_ c) (gyro_scale_ c)
                (accel_dlpf_bandwidth_ c) (gyro_requested_dlpf_ s)
                (temp_dlpf_bandwidth_ c) (srd_ c)) st.

(** [temp_dlpf_bandwidth_ = temp_requested_dlpf_;] *)
Definition commit_temp_dlpf (st : t) : t :=
  let s := staged st in let c := config st in
  set_config (mkConfig (accel_range_ c) (accel_scale_ c) (gyro_range_ c) (gyro_scale_ c)
                (accel_dlpf_bandwidth_ c) (gyro_dlpf_bandwidth_ c)
                (temp_requested_dlpf_ s) (srd_ c)) st.

(** [srd_ = srd;] *)
Definition commit_srd (srd : Z) (st : t) : t :=
  let c := config st in
  set_config (mkConfig (accel_range_ c) (accel_scale_ c) (gyro_range_ c) (gyro_scale_ c)
                (accel_dlpf_bandwidth_ c) (gyro_dlpf_bandwidth_ c)
                (temp_dlpf_bandwidth_ c) srd) st.

(** [new_imu_data_ = v;] *)
Definition set_new_imu_data_ (v : bool) (st : t) : t :=
  let s := sample st in
  set_sample (mkSample v (new_mag_data_ s) (mag_sensor_overflow_ s)
                (accel_cnts_ s) (gyro_cnts_ s) (temp_cnts_ s) (mag_cnts_ s)
                (accel_ s) (gyro_ s) (temp_ s) (mag_ s)) st.

(** [data_buf_[0] = f(data_buf_[0]);] *)
Definition update_buf0 (f : Z -> Z) (st : t) : t :=
  set_data_buf_ (set_byte0 (u8 (f (byte_at (data_buf_ st) 0))) (data_buf_ st)) st.

(** The destinations the driver passes to the read methods. *)
Inductive Dest : Type := dst_data_buf_ | dst_who_am_i_ | dst_mag_data_ | dst_ret_val.

Definition poke (dst : Dest) (bs : list Z) (st : t) : t :=
  match dst with
  | dst_data_buf_ => set_data_buf_ (overwrite bs (data_buf_ st)) st
  | dst_who_am_i_ => set_who_am_i_ (nth 0 bs 0) st
  | dst_mag_data_ => set_mag_data_ (overwrite bs (mag_data_ st)) st
  | dst_ret_val => set_ret_val (nth 0 bs 0) st
  end.

(** *** Calls that leave the object *)

Definition delay (ms : Z) : M t unit :=
  modify (fun st => emit (BusDelay ms) (imu_ st) st).

Definition imu_Begin : M t unit :=
  modify (fun st => emit BusBegin (tr_begin T (imu_ st)) st).

(** [imu_.WriteRegister(reg, data, SPI_CLOCK_)] *)
Definition imu_WriteRegister (reg data : Z) : M t bool :=
  fun st =>
    let (ok, d) := tr_write T (imu_ st) reg data in
    (ok, emit (BusWrite reg data ok) d st).

(** [imu_.ReadRegisters(reg, count, SPI_CLOCK_, dst)] *)
Definition imu_ReadRegisters (reg count : Z) (dst : Dest) : M t bool :=
  fun st =>
    let (r, d) := tr_read T (imu_ st) reg count in
    let st1 := emit (BusRead reg count r) d st in
    match r with
    | Some bs => (true, poke dst (delivered count bs) st1)
    | None => (false, st1)
    end.

(** *** The methods *)

Definition WriteRegister (bank reg data : Z) : M t bool :=
  cur <- gets current_bank_ ;;
  check! (if negb (bank =? cur) then
            ok <- imu_WriteRegister REG_BANK_SEL_ (u8 (Z.shiftl bank 4)) ;;
            if negb ok then ret false
            else modify (set_current_bank_ bank) ;; ret true
          else ret true) ;;
  imu_WriteRegister reg data.

Definition ReadRegisters (bank reg count : Z) (dst : Dest) : M t bool :=
  cur <- gets current_bank_ ;;
  check! (if negb (bank =? cur) then
            ok <- imu_WriteRegister REG_BANK_SEL_ (u8 (Z.shiftl bank 4)) ;;
            if negb ok then ret false
            else modify (set_current_bank_ bank) ;; ret true
          else ret true) ;;
  imu_ReadRegisters reg count dst.

Definition ReadAk09916Registers (reg count : Z) (dst : Dest) : M t bool :=
  check! WriteRegister BANK_3_ I2C_SLV0_ADDR_
           (u8 (Z.lor AK09916_I2C_ADDR_ I2C_SLV0_ADDR_READ_)) ;;
  check! WriteRegister BANK_3_ I2C_SLV0_REG_ reg ;;
  check! WriteRegister BANK_3_ I2C_SLV0_CTRL_ (u8 (Z.lor I2C_SLV0_CTRL_EN_ count)) ;;
  ok <- ReadRegisters BANK_0_ EXT_SLV_SENS_DATA_00_ count dst ;;
  if ok then ret true else ret false.

Definition WriteAk09916Register (reg data : Z) : M t bool :=
  check! WriteRegister BANK_3_ I2C_SLV0_ADDR_ AK09916_I2C_ADDR_ ;;
  check! WriteRegister BANK_3_ I2C_SLV0_REG_ reg ;;
  check! WriteRegister BANK_3_ I2C_SLV0_D0_ data ;;
  check! WriteRegister BANK_3_ I2C_SLV0_CTRL_ (u8 (Z.lor I2C_SLV0_CTRL_EN_ 1)) ;;
  check! ReadAk09916Registers reg 1 dst_ret_val ;;
  r <- gets ret_val ;;
  if data =? r then ret true else ret false.

Definition EnableDrdyInt : M t bool :=
  check! WriteRegister BANK_0_ INT_ENABLE_1_ INT_ENABLE_1_INT_ENABLE_ ;;
  ret true.

Definition DisableDrdyInt : M t bool :=
  check! WriteRegister BANK_0_ INT_ENABLE_1_ INT_ENABLE_1_INT_DISABLE_ ;;
  ret true.

Definition ConfigAccelRange (range : AccelRange) : M t bool :=
  check! match range with
         | ACCEL_RANGE_2G =>
             modify (stage_accel_range range (F32.div (F32.of_Z 2) F32.c32767_5)) ;; ret true
         | ACCEL_RANGE_4G =>
             modify (stage_accel_range range (F32.div (F32.of_Z 4) F32.c32767_5)) ;; ret true
         | ACCEL_RANGE_8G =>
             modify (stage_accel_range range (F32.div (F32.of_Z 8) F32.c32767_5)) ;; ret true
         | ACCEL_RANGE_16G =>
             modify (stage_accel_range range (F32.div (F32.of_Z 16) F32.c32767_5)) ;; ret true
         | AccelRange_cast _ => ret false
         end ;;
  ReadRegisters BANK_2_ ACCEL_CONFIG_ 1 dst_data_buf_ ;;
  modify (update_buf0 (fun b => Z.land b (Z.lnot 6))) ;;
  r <- gets (fun st => requested_accel_range_ (staged st)) ;;
  modify (update_buf0 (fun b => Z.lor b (Z.shiftl (AccelRange_int r) 1))) ;;
  b <- gets (fun st => byte_at (data_buf_ st) 0) ;;
  check! WriteRegister BANK_2_ ACCEL_CONFIG_ b ;;
  modify commit_accel_range ;;
  ret true.

Definition ConfigGyroRange (range : GyroRange) : M t bool :=
  check! match range with
         | GYRO_RANGE_250DPS =>
             modify (stage_gyro_range range (F32.div (F32.of_Z 250) F32.c32767_5)) ;; ret true
         | GYRO_RANGE_500DPS =>
             modify (stage_gyro_range range (F32.div (F32.of_Z 500) F32.c32767_5)) ;; ret true
         | GYRO_RANGE_1000DPS =>
             modify (stage_gyro_range range (F32.div (F32.of_Z 1000) F32.c32767_5)) ;; ret true
         | GYRO_RANGE_2000DPS =>
             modify (stage_gyro_range range (F32.div (F32.of_Z 2000) F32.c32767_5)) ;; ret true
         | GyroRange_cast _ => ret false
         end ;;
  ReadRegisters BANK_2_ GYRO_CONFIG_1_ 1 dst_data_buf_ ;;
  modify (update_buf0 (fun b => Z.land b (Z.lnot 6))) ;;
  r <- gets (fun st => requested_accel_range_ (staged st)) ;;
  modify (update_buf0 (fun b => Z.lor b (Z.shiftl (AccelRange_int r) 1))) ;;
  b <- gets (fun st => byte_at (data_buf_ st) 0) ;;
  check! WriteRegister BANK_2_ GYRO_CONFIG_1_ b ;;
  modify commit_gyro_range ;;
  ret true.

Definition ConfigSrd (srd : Z) : M t bool :=
  check! WriteRegister BANK_2_ ACCEL_SMPLRT_DIV_2_ srd ;;
  check! WriteRegister BANK_2_ GYRO_SMPLRT_DIV_ srd ;;
  check! WriteAk09916Register AK09916_CNTL2_ AK09916_CNTL2_CONT_MEAS_MODE1_ ;;
  check! ReadAk09916Registers AK09916_ST1_ sizeof_mag_data_ dst_mag_data_ ;;
  modify (commit_srd srd) ;;
  ret true.

Definition ConfigAccelDlpfBandwidth (dlpf : AccelDlpfBandwidth) : M t bool :=
  check! match dlpf with
         | ACCEL_DLPF_BANDWIDTH_246HZ | ACCEL_DLPF_BANDWIDTH_111HZ
         | ACCEL_DLPF_BANDWIDTH_50HZ | ACCEL_DLPF_BANDWIDTH_23HZ
         | ACCEL_DLPF_BANDWIDTH_11HZ | ACCEL_DLPF_BANDWIDTH_5HZ
         | ACCEL_DLPF_BANDWIDTH_473HZ =>
             modify (stage_accel_dlpf dlpf) ;; ret true
         | AccelDlpfBandwidth_cast _ => ret false
         end ;;
  ReadRegisters BANK_2_ ACCEL_CONFIG_ 1 dst_data_buf_ ;;
  modify (update_buf0 (fun b => Z.lor b 1)) ;;
  modify (update_buf0 (fun b => Z.land b 199)) ;;
  d <- gets (fun st => accel_requested_dlpf_ (staged st)) ;;
  modify (update_buf0 (fun b => Z.lor b (Z.shiftl (AccelDlpfBandwidth_int d) 3))) ;;
  b <- gets (fun st => byte_at (data_buf_ st) 0) ;;
  check! WriteRegister BANK_2_ ACCEL_CONFIG_ b ;;
  modify commit_accel_dlpf ;;
  ret true.

Definition ConfigGyroDlpfBandwidth (dlpf : GyroDlpfBandwidth) : M t bool :=
  check! match dlpf with
         | GYRO_DLPF_BANDWIDTH_196HZ | GYRO_DLPF_BANDWIDTH_151HZ
         | GYRO_DLPF_BANDWIDTH_119HZ | GYRO_DLPF_BANDWIDTH_51HZ
         | GYRO_DLPF_BANDWIDTH_23HZ | GYRO_DLPF_BANDWIDTH_11HZ
         | GYRO_DLPF_BANDWIDTH_5HZ | GYRO_DLPF_BANDWIDTH_361HZ =>
             modify (stage_gyro_dlpf dlpf) ;; ret true
         | GyroDlpfBandwidth_cast _ => ret false
         end ;;
  ReadRegisters BANK_2_ GYRO_CONFIG_1_ sizeof_data_buf_ dst_data_buf_ ;;
  modify (update_buf0 (fun b => Z.lor b 1)) ;;
  modify (update_buf0 (fun b => Z.land b 199)) ;;
  d <- gets (fun st => gyro_requested_dlpf_ (staged st)) ;;
  modify (update_buf0 (fun b => Z.lor b (Z.shiftl (GyroDlpfBandwidth_int d) 3))) ;;
  b <- gets (fun st => byte_at (data_buf_ st) 0) ;;
  check! WriteRegister BANK_2_ GYRO_CONFIG_1_ b ;;
  modify commit_gyro_dlpf ;;
  ret true.

Definition ConfigTempDlpfBandwidth (dlpf : TempDlpfBandwidth) : M t bool :=
  check! match dlpf with
         | TEMP_DLPF_BANDWIDTH_7932HZ | TEMP_DLPF_BANDWIDTH_217HZ
         | TEMP_DLPF_BANDWIDTH_123HZ | TEMP_DLPF_BANDWIDTH_65HZ
         | TEMP_DLPF_BANDWIDTH_34HZ | TEMP_DLPF_BANDWIDTH_17HZ
         | TEMP_DLPF_BANDWIDTH_8HZ =>
             modify (stage_temp_dlpf dlpf) ;; ret true
         | TempDlpfBandwidth_cast _ => ret false
         end ;;
  d <- gets (fun st => temp_requested_dlpf_ (staged st)) ;;
  check! WriteRegister BANK_2_ TEMP_CONFIG_ (u8 (TempDlpfBandwidth_int d)) ;;
  modify commit_temp_dlpf ;;
  ret true.

(** The unpacking and scaling part of [Read]. *)
Definition publish (st : t) : t :=
  let buf := data_buf_ st in
  let c := config st in
  let f := F32.of_Z in
  let ax := unpack16 (byte_at buf 0) (byte_at buf 1) in
  let ay := unpack16 (byte_at buf 2) (byte_at buf 3) in
  let az := unpack16 (byte_at buf 4) (byte_at buf 5) in
  let gx := unpack16 (byte_at buf 6) (byte_at buf 7) in
  let gy := unpack16 (byte_at buf 8) (byte_at buf 9) in
  let gz := unpack16 (byte_at buf 10) (byte_at buf 11) in
  let tc := unpack16 (byte_at buf 12) (byte_at buf 13) in
  let new_mag := to_bool (Z.land (byte_at buf 14) AK09916_ST1_DRDY_) in
  let mx := unpack16 (byte_at buf 16) (byte_at buf 15) in
  let my := unpack16 (byte_at buf 18) (byte_at buf 17) in
  let mz := unpack16 (byte_at buf 20) (byte_at buf 19) in
  let overflow := to_bool (Z.land (byte_at buf 22) AK09916_ST2_HOFL_) in
  let new_mag := if overflow then false else new_mag in
  set_sample
    (mkSample (new_imu_data_ (sample st)) new_mag overflow
       (ax, ay, az) (gx, gy, gz) tc (mx, my, mz)
       (F32.mul (F32.mul (f ay) (accel_scale_ c)) G_MPS2_,
        F32.mul (F32.mul (f ax) (accel_scale_ c)) G_MPS2_,
        F32.mul (F32.mul (F32.mul (f az) (accel_scale_ c)) F32.m1) G_MPS2_)
       (F32.mul (F32.mul (f gy) (gyro_scale_ c)) DEG2RAD_,
        F32.mul (F32.mul (f gx) (gyro_scale_ c)) DEG2RAD_,
        F32.mul (F32.mul (F32.mul (f gz) (gyro_scale_ c)) F32.m1) DEG2RAD_)
       (F32.add (F32.div (F32.sub (f tc) F32.c21) TEMP_SCALE_) F32.c21)
       (if new_mag
        then (F32.mul F32.m1 (F32.mul (f my) MAG_SCALE_),
              F32.mul (f mx) MAG_SCALE_,
              F32.mul (f mz) MAG_SCALE_)
        else mag_ (sample st)))
    st.

Definition Read : M t bool :=
  modify (set_new_imu_data_ false) ;;
  check! ReadRegisters BANK_0_ INT_STATUS_1_ 1 dst_data_buf_ ;;
  b <- gets (fun st => byte_at (data_buf_ st) 0) ;;
  modify (set_new_imu_data_ (to_bool (Z.land b RAW_DATA_RDY_INT_))) ;;
  ready <- gets (fun st => new_imu_data_ (sample st)) ;;
  if negb ready then ret false else
  ReadRegisters BANK_0_ ACCEL_XOUT_H sizeof_data_buf_ dst_data_buf_ ;;
  modify publish ;;
  ret true.

(** [if (iface_ == SPI) { WriteRegister(BANK_0_, USER_CTRL_, USER_CTRL_I2C_IF_DIS_); }] *)
Definition i2c_if_dis : M t unit :=
  iface <- gets iface_ ;;
  match iface with
  | SPI => WriteRegister BANK_0_ USER_CTRL_ USER_CTRL_I2C_IF_DIS_ ;; ret tt
  | I2C => ret tt
  end.

Definition Begin : M t bool :=
  imu_Begin ;;
  i2c_if_dis ;;
  check! WriteRegister BANK_0_ PWR_MGMT_1_ PWR_MGMT_1_CLKSEL_AUTO_ ;;
  check! WriteRegister BANK_0_ USER_CTRL_ USER_CTRL_I2C_MST_EN_ ;;
  check! WriteRegister BANK_3_ I2C_MST_CTRL_ I2C_MST_CTRL_400_KHZ_CLK_ ;;
  WriteAk09916Register AK09916_CNTL3_ AK09916_CNTL3_SRST_ ;;
  WriteRegister BANK_0_ PWR_MGMT_1_ PWR_MGMT_1_RESET_ ;;
  delay 100 ;;
  i2c_if_dis ;;
  check! WriteRegister BANK_0_ PWR_MGMT_1_ PWR_MGMT_1_CLKSEL_AUTO_ ;;
  check! ReadRegisters BANK_0_ WHO_AM_I_ 1 dst_who_am_i_ ;;
  w <- gets who_am_i_ ;;
  if negb (w =? WHOAMI_ICM20649_) then ret false else
  check! WriteRegister BANK_0_ USER_CTRL_ USER_CTRL_I2C_MST_EN_ ;;
  check! WriteRegister BANK_3_ I2C_MST_CTRL_ I2C_MST_CTRL_400_KHZ_CLK_ ;;
  check! ReadAk09916Registers AK09916_WIA2_ 1 dst_who_am_i_ ;;
  w <- gets who_am_i_ ;;
  if negb (w =? WHOAMI_AK09916_) then ret false else
  check! WriteRegister BANK_2_ ODR_ALIGN_EN_ ODR_ALIGN_EN_ALIGN_ENABLE_ ;;
  check! ConfigAccelRange ACCEL_RANGE_16G ;;
  check! ConfigGyroRange GYRO_RANGE_2000DPS ;;
  check! ConfigAccelDlpfBandwidth ACCEL_DLPF_BANDWIDTH_473HZ ;;
  check! ConfigGyroDlpfBandwidth GYRO_DLPF_BANDWIDTH_361HZ ;;
  check! ConfigTempDlpfBandwidth TEMP_DLPF_BANDWIDTH_7932HZ ;;
  check! ConfigSrd 0 ;;
  ret true.

(** [Begin] as a list of steps: which results are tested and which are
    dropped. *)
Definition begin_steps : list (Step t) :=
  [ Unchecked imu_Begin;
    Unchecked i2c_if_dis;
    Checked (WriteRegister BANK_0_ PWR_MGMT_1_ PWR_MGMT_1_CLKSEL_AUTO_);
    Checked (WriteRegister BANK_0_ USER_CTRL_ USER_CTRL_I2C_MST_EN_);
    Checked (WriteRegister BANK_3_ I2C_MST_CTRL_ I2C_MST_CTRL_400_KHZ_CLK_);
    Unchecked (WriteAk09916Register AK09916_CNTL3_ AK09916_CNTL3_SRST_);
    Unchecked (WriteRegister BANK_0_ PWR_MGMT_1_ PWR_MGMT_1_RESET_);
    Unchecked (delay 100);
    Unchecked i2c_if_dis;
    Checked (WriteRegister BANK_0_ PWR_MGMT_1_ PWR_MGMT_1_CLKSEL_AUTO_);
    Checked (ReadRegisters BANK_0_ WHO_AM_I_ 1 dst_who_am_i_);
    Checked (gets (fun st => who_am_i_ st =? WHOAMI_ICM20649_));
    Checked (WriteRegister BANK_0_ USER_CTRL_ USER_CTRL_I2C_MST_EN_);
    Checked (WriteRegister BANK_3_ I2C_MST_CTRL_ I2C_MST_CTRL_400_KHZ_CLK_);
    Checked (ReadAk09916Registers AK09916_WIA2_ 1 dst_who_am_i_);
    Checked (gets (fun st => who_am_i_ st =? WHOAMI_AK09916_));
    Checked (WriteRegister BANK_2_ ODR_ALIGN_EN_ ODR_ALIGN_EN_ALIGN_ENABLE_);
    Checked (ConfigAccelRange ACCEL_RANGE_16G);
    Checked (ConfigGyroRange GYRO_RANGE_2000DPS);
    Checked (ConfigAccelDlpfBandwidth ACCEL_DLPF_BANDWIDTH_473HZ);
    Checked (ConfigGyroDlpfBandwidth GYRO_DLPF_BANDWIDTH_361HZ);
    Checked (ConfigTempDlpfBandwidth TEMP_DLPF_BANDWIDTH_7932HZ);
    Checked (ConfigSrd 0) ].

(** [WriteRegister(bank, reg, data)] for each triple of a list, in
    order. *)
Fixpoint WriteRegister_each (ws : list (Z * Z * Z)) : M t unit :=
  match ws with
  | [] => ret tt
  | (bank, reg, data) :: l => WriteRegister bank reg data ;; WriteRegister_each l
  end.

(** Every enumerator of the header fits the register field it is
    shifted into. *)
Definition fields_fit : bool :=
  forallb (fun r => range_fits (AccelRange_int r))
    [ACCEL_RANGE_2G; ACCEL_RANGE_4G; ACCEL_RANGE_8G; ACCEL_RANGE_16G] &&
  forallb (fun d => dlpf_fits (AccelDlpfBandwidth_int d))
    [ACCEL_DLPF_BANDWIDTH_246HZ; ACCEL_DLPF_BANDWIDTH_111HZ;
     ACCEL_DLPF_BANDWIDTH_50HZ; ACCEL_DLPF_BANDWIDTH_23HZ;
     ACCEL_DLPF_BANDWIDTH_11HZ; ACCEL_DLPF_BANDWIDTH_5HZ;
     ACCEL_DLPF_BANDWIDTH_473HZ] &&
  forallb (fun d => dlpf_fits (GyroDlpfBandwidth_int d))
    [GYRO_DLPF_BANDWIDTH_196HZ; GYRO_DLPF_BANDWIDTH_151HZ;
     GYRO_DLPF_BANDWIDTH_119HZ; GYRO_DLPF_BANDWIDTH_51HZ;
     GYRO_DLPF_BANDWIDTH_23HZ; GYRO_DLPF_BANDWIDTH_11HZ;
     GYRO_DLPF_BANDWIDTH_5HZ; GYRO_DLPF_BANDWIDTH_361HZ].

(** [data_buf_[0]] as the register read of a configuration method leaves
    it: after [ReadRegisters(BANK_2_, reg, count, data_buf_)]. *)
Definition byte_read (reg count : Z) (st : t) : Z :=
  byte_at (data_buf_ (snd (ReadRegisters BANK_2_ reg count dst_data_buf_ st))) 0.

(** The bank-select write that precedes an access to [bank] when [cur] is
    cached, on a transport that acknowledges it. *)
Definition bank_select_traffic (cur bank : Z) : list BusEvent :=
  if bank =? cur then []
  else [BusWrite REG_BANK_SEL_ (u8 (Z.shiftl bank 4)) true].

(** The bus traffic of one indirect write of [data] to the magnetometer
    register [reg] followed by its read-back, on a transport that
    acknowledges every call and answers the read with [reply]. *)
Definition indirect_write_traffic (cur reg data : Z) (reply : list Z) : list BusEvent :=
  bank_select_traffic cur BANK_3_ ++
  [ BusWrite I2C_SLV0_ADDR_ AK09916_I2C_ADDR_ true;
    BusWrite I2C_SLV0_REG_ reg true;
    BusWrite I2C_SLV0_D0_ data true;
    BusWrite I2C_SLV0_CTRL_ (u8 (Z.lor I2C_SLV0_CTRL_EN_ 1)) true;
    BusWrite I2C_SLV0_ADDR_ (u8 (Z.lor AK09916_I2C_ADDR_ I2C_SLV0_ADDR_READ_)) true;
    BusWrite I2C_SLV0_REG_ reg true;
    BusWrite I2C_SLV0_CTRL_ (u8 (Z.lor I2C_SLV0_CTRL_EN_ 1)) true ] ++
  bank_select_traffic BANK_3_ BANK_0_ ++
  [ BusRead EXT_SLV_SENS_DATA_00_ 1 (Some reply) ].

End Driver.

(** The full-scale value an enumerator is named after. *)
Definition AccelRange_full_scale (r : AccelRange) : Z :=
  match r with
  | ACCEL_RANGE_2G => 2
  | ACCEL_RANGE_4G => 4
  | ACCEL_RANGE_8G => 8
  | ACCEL_RANGE_16G => 16
  | AccelRange_cast _ => 0
  end.

Definition GyroRange_full_scale (r : GyroRange) : Z :=
  match r with
  | GYRO_RANGE_250DPS => 250
  | GYRO_RANGE_500DPS => 500
  | GYRO_RANGE_1000DPS => 1000
  | GYRO_RANGE_2000DPS => 2000
  | GyroRange_cast _ => 0
  end.

Arguments t T : clear implicits.

(** An instance of the header, with the register map and field encodings
    of the ICM-20948 and AK09916 data sheets; used to run the driver on
    concrete inputs. *)
Definition example_header : Header := {|
  BANK_0_ := 0;
  BANK_2_ := 2;
  BANK_3_ := 3;
  REG_BANK_SEL_ := 0x7F;
  USER_CTRL_ := 0x03;
  USER_CTRL_I2C_IF_DIS_ := 0x10;
  USER_CTRL_I2C_MST_EN_ := 0x20;
  PWR_MGMT_1_ := 0x06;
  PWR_MGMT_1_CLKSEL_AUTO_ := 0x01;
  PWR_MGMT_1_RESET_ := 0x80;
  I2C_MST_CTRL_ := 0x01;
  I2C_MST_CTRL_400_KHZ_CLK_ := 0x07;
  WHO_AM_I_ := 0x00;
  WHOAMI_ICM20649_ := 0xEA;
  ODR_ALIGN_EN_ := 0x09;
  ODR_ALIGN_EN_ALIGN_ENABLE_ := 0x01;
  INT_ENABLE_1_ := 0x11;
  INT_ENABLE_1_INT_ENABLE_ := 0x01;
  INT_ENABLE_1_INT_DISABLE_ := 0x00;
  ACCEL_CONFIG_ := 0x14;
  GYRO_CONFIG_1_ := 0x01;
  TEMP_CONFIG_ := 0x53;
  ACCEL_SMPLRT_DIV_2_ := 0x11;
  GYRO_SMPLRT_DIV_ := 0x00;
  INT_STATUS_1_ := 0x1A;
  RAW_DATA_RDY_INT_ := 0x01;
  ACCEL_XOUT_H := 0x2D;
  I2C_SLV0_ADDR_ := 0x03;
  I2C_SLV0_ADDR_READ_ := 0x80;
  I2C_SLV0_REG_ := 0x04;
  I2C_SLV0_D0_ := 0x06;
  I2C_SLV0_CTRL_ := 0x05;
  I2C_SLV0_CTRL_EN_ := 0x80;
  EXT_SLV_SENS_DATA_00_ := 0x3B;
  AK09916_I2C_ADDR_ := 0x0C;
  AK09916_WIA2_ := 0x01;
  WHOAMI_AK09916_ := 0x09;
  AK09916_ST1_ := 0x10;
  AK09916_ST1_DRDY_ := 0x01;
  AK09916_ST2_HOFL_ := 0x08;
  AK09916_CNTL2_ := 0x31;
  AK09916_CNTL2_CONT_MEAS_MODE1_ := 0x02;
  AK09916_CNTL3_ := 0x32;
  AK09916_CNTL3_SRST_ := 0x01;
  G_MPS2_ := F32.div (F32.of_Z 980665) (F32.of_Z 100000);
  TEMP_SCALE_ := F32.div (F32.of_Z 33387) (F32.of_Z 100);
  DEG2RAD_ := F32.div (F32.of_Z 355) (F32.of_Z 20340);
  MAG_SCALE_ := F32.div (F32.of_Z 4912) (F32.of_Z 32752);
  sizeof_data_buf_ := 23;
  sizeof_mag_data_ := 8;
  enum_ACCEL_RANGE_2G := 0;
  enum_ACCEL_RANGE_4G := 1;
  enum_ACCEL_RANGE_8G := 2;
  enum_ACCEL_RANGE_16G := 3;
  enum_GYRO_RANGE_250DPS := 0;
  enum_GYRO_RANGE_500DPS := 1;
  enum_GYRO_RANGE_1000DPS := 2;
  enum_GYRO_RANGE_2000DPS := 3;
  enum_ACCEL_DLPF_BANDWIDTH_246HZ := 1;
  enum_ACCEL_DLPF_BANDWIDTH_111HZ := 2;
  enum_ACCEL_DLPF_BANDWIDTH_50HZ := 3;
  enum_ACCEL_DLPF_BANDWIDTH_23HZ := 4;
  enum_ACCEL_DLPF_BANDWIDTH_11HZ := 5;
  enum_ACCEL_DLPF_BANDWIDTH_5HZ := 6;
  enum_ACCEL_DLPF_BANDWIDTH_473HZ := 7;
  enum_GYRO_DLPF_BANDWIDTH_196HZ := 0;
  enum_GYRO_DLPF_BANDWIDTH_151HZ := 1;
  enum_GYRO_DLPF_BANDWIDTH_119HZ := 2;
  enum_GYRO_DLPF_BANDWIDTH_51HZ := 3;
  enum_GYRO_DLPF_BANDWIDTH_23HZ := 4;
  enum_GYRO_DLPF_BANDWIDTH_11HZ := 5;
  enum_GYRO_DLPF_BANDWIDTH_5HZ := 6;
  enum_GYRO_DLPF_BANDWIDTH_361HZ := 7;
  enum_TEMP_DLPF_BANDWIDTH_7932HZ := 0;
  enum_TEMP_DLPF_BANDWIDTH_217HZ := 1;
  enum_TEMP_DLPF_BANDWIDTH_123HZ := 2;
  enum_TEMP_DLPF_BANDWIDTH_65HZ := 3;
  enum_TEMP_DLPF_BANDWIDTH_34HZ := 4;
  enum_TEMP_DLPF_BANDWIDTH_17HZ := 5;
  enum_TEMP_DLPF_BANDWIDTH_8HZ := 6
|}.

Definition zero3 : vec3 spec_float :=
  (S754_zero false, S754_zero false, S754_zero false).

(** An object on the I2C interface whose members are all zero, with bank 0
    cached, the 2G / 250DPS settings staged and committed, and an empty
    log, over the transport state [d]. *)
Definition example_object {T : Transport} (d : Dev T) : t T :=
  mk d [] I2C 0 0 (repeat 0 23) (repeat 0 8) 0
     (mkStaged ACCEL_RANGE_2G (S754_zero false) GYRO_RANGE_250DPS (S754_zero false)
        ACCEL_DLPF_BANDWIDTH_246HZ GYRO_DLPF_BANDWIDTH_196HZ
        TEMP_DLPF_BANDWIDTH_7932HZ)
     (mkConfig ACCEL_RANGE_2G (S754_zero false) GYRO_RANGE_250DPS (S754_zero false)
        ACCEL_DLPF_BANDWIDTH_246HZ GYRO_DLPF_BANDWIDTH_196HZ
        TEMP_DLPF_BANDWIDTH_7932HZ 0)
     (mkSample false false false (0, 0, 0) (0, 0, 0) 0 (0, 0, 0)
        zero3 zero3 (S754_zero false) zero3).

End Icm20948.

(** * MPU-9250 ([MPU9250.cpp], [MPU9250.h]) *)

Module MPU9250.

Definition ACCEL_OUT : Z := 0x3B.
Definition GYRO_OUT : Z := 0x43.
Definition ACCEL_CONFIG : Z := 0x1C.
Definition ACCEL_FS_SEL_2G : Z := 0x00.
Definition ACCEL_FS_SEL_4G : Z := 0x08.
Definition ACCEL_FS_SEL_8G : Z := 0x10.
Definition ACCEL_FS_SEL_16G : Z := 0x18.
Definition ACCEL_CONFIG2 : Z := 0x1D.
Definition ACCEL_DLPF_184 : Z := 0x01.
Definition ACCEL_DLPF_92 : Z := 0x02.
Definition ACCEL_DLPF_41 : Z := 0x03.
Definition ACCEL_DLPF_20 : Z := 0x04.
Definition ACCEL_DLPF_10 : Z := 0x05.
Definition ACCEL_DLPF_5 : Z := 0x06.
Definition GYRO_CONFIG : Z := 0x1B.
Definition GYRO_FS_SEL_250DPS : Z := 0x00.
Definition GYRO_FS_SEL_500DPS : Z := 0x08.
Definition GYRO_FS_SEL_1000DPS : Z := 0x10.
Definition GYRO_FS_SEL_2000DPS : Z := 0x18.
Definition CONFIG : Z := 0x1A.
Definition GYRO_DLPF_184 : Z := 0x01.
Definition GYRO_DLPF_92 : Z := 0x02.
Definition GYRO_DLPF_41 : Z := 0x03.
Definition GYRO_DLPF_20 : Z := 0x04.
Definition GYRO_DLPF_10 : Z := 0x05.
Definition GYRO_DLPF_5 : Z := 0x06.
Definition SMPDIV : Z := 0x19.
Definition INT_PIN_CFG : Z := 0x37.
Definition INT_ENABLE : Z := 0x38.
Definition PWR_MGMNT_1 : Z := 0x6B.
Definition CLOCK_SEL_PLL : Z := 0x01.

(** [#define G 9.807]: the [double] nearest to 9807/1000, which is what the
    correctly rounded quotient of 9807 by 1000 is. *)
Definition G : spec_float := F64.div (F64.of_Z 9807) (F64.of_Z 1000).

(** What the driver does on the [Wire] object: [Wire.begin(...)], and a
    transmission to a device address ([beginTransmission], the [write]s,
    [endTransmission]). *)
Inductive WireEvent : Type :=
| Wire_begin
| Wire_transmission (address : Z) (bytes : list Z).

(** The [MPU9250] object, with the log of what it did on [Wire]. *)
Record t : Type := mk {
  _address : Z;
  _accelScale : spec_float;
  _gyroScale : spec_float;
  wire : list WireEvent
}.

Definition set_accelScale (v : spec_float) (st : t) : t :=
  mk (_address st) v (_gyroScale st) (wire st).

Definition set_gyroScale (v : spec_float) (st : t) : t :=
  mk (_address st) (_accelScale st) v (wire st).

Definition on_wire (e : WireEvent) (st : t) : t :=
  mk (_address st) (_accelScale st) (_gyroScale st) (wire st ++ [e]).

(** [if (c) { m }] *)
Definition when (c : bool) (m : M t unit) : M t unit :=
  if c then m else ret tt.

Definition writeRegister (subAddress data : Z) : M t unit :=
  modify (fun st => on_wire (Wire_transmission (_address st) [subAddress; data]) st).

Definition begin (accelRange gyroRange : string) : M t unit :=
  modify (on_wire Wire_begin) ;;
  writeRegister PWR_MGMNT_1 CLOCK_SEL_PLL ;;
  when (String.eqb accelRange "2G")
    (writeRegister ACCEL_CONFIG ACCEL_FS_SEL_2G ;;
     modify (set_accelScale (F64.div (F64.mul G (F64.of_Z 2)) F64.c32767_5))) ;;
  when (String.eqb accelRange "4G")
    (writeRegister ACCEL_CONFIG ACCEL_FS_SEL_4G ;;
     modify (set_accelScale (F64.div (F64.mul G (F64.of_Z 4)) F64.c32767_5))) ;;
  when (String.eqb accelRange "8G")
    (writeRegister ACCEL_CONFIG ACCEL_FS_SEL_8G ;;
     modify (set_accelScale (F64.div (F64.mul G (F64.of_Z 8)) F64.c32767_5))) ;;
  when (String.eqb accelRange "16G")
    (writeRegister ACCEL_CONFIG ACCEL_FS_SEL_16G ;;
     modify (set_accelScale (F64.div (F64.mul G (F64.of_Z 16)) F64.c32767_5))) ;;
  when (String.eqb gyroRange "250DPS")
    (writeRegister GYRO_CONFIG GYRO_FS_SEL_250DPS ;;
     modify (set_gyroScale (F64.div (F64.of_Z 250) F64.c32767_5))) ;;
  when (String.eqb gyroRange "500DPS")
    (writeRegister GYRO_CONFIG GYRO_FS_SEL_500DPS ;;
     modify (set_gyroScale (F64.div (F64.of_Z 500) F64.c32767_5))) ;;
  when (String.eqb gyroRange "1000DPS")
    (writeRegister GYRO_CONFIG GYRO_FS_SEL_1000DPS ;;
     modify (set_gyroScale (F64.div (F64.of_Z 1000) F64.c32767_5))) ;;
  when (String.eqb gyroRange "2000DPS")
    (writeRegister GYRO_CONFIG GYRO_FS_SEL_2000DPS ;;
     modify (set_gyroScale (F64.div (F64.of_Z 2000) F64.c32767_5))).

(** How a call ends: normally, or at an integer division by zero (which
    C++ leaves undefined). *)
Inductive Outcome : Type := Returned | DivisionByZero.

(** [a / b] on [int]: truncating division, undefined when [b] is 0. *)
Definition int_div (a b : Z) : option Z :=
  if b =? 0 then None else Some (Z.quot a b).

Definition setFilt (bandwidth : string) (frequency : Z) : M t Outcome :=
  let ISR : Z := 1000 in
  when (String.eqb bandwidth "184HZ")
    (writeRegister ACCEL_CONFIG2 ACCEL_DLPF_184 ;; writeRegister CONFIG GYRO_DLPF_184) ;;
  when (String.eqb bandwidth "92HZ")
    (writeRegister ACCEL_CONFIG2 ACCEL_DLPF_92 ;; writeRegister CONFIG GYRO_DLPF_92) ;;
  when (String.eqb bandwidth "41HZ")
    (writeRegister ACCEL_CONFIG2 ACCEL_DLPF_41 ;; writeRegister CONFIG GYRO_DLPF_41) ;;
  when (String.eqb bandwidth "20HZ")
    (writeRegister ACCEL_CONFIG2 ACCEL_DLPF_20 ;; writeRegister CONFIG GYRO_DLPF_20) ;;
  when (String.eqb bandwidth "10HZ")
    (writeRegister ACCEL_CONFIG2 ACCEL_DLPF_10 ;; writeRegister CONFIG GYRO_DLPF_10) ;;
  when (String.eqb bandwidth "5HZ")
    (writeRegister ACCEL_CONFIG2 ACCEL_DLPF_5 ;; writeRegister CONFIG GYRO_DLPF_5) ;;
  match int_div ISR frequency with
  | None => ret DivisionByZero
  | Some q =>
      let SRD := u8 (q - 1) in
      writeRegister SMPDIV SRD ;;
      writeRegister INT_PIN_CFG 0 ;;
      writeRegister INT_ENABLE 1 ;;
      ret Returned
  end.

(** The device side of the bus: a register file on which a transmission
    of a register address and a byte stores the byte. *)
Definition device_step (regs : Z -> Z) (e : WireEvent) : Z -> Z :=
  match e with
  | Wire_transmission _ [r; v] => fun a => if a =? r then v else regs a
  | _ => regs
  end.

Definition device_after (events : list WireEvent) (regs : Z -> Z) : Z -> Z :=
  fold_left device_step events regs.

(** The full-scale value a range string names. *)
Definition accel_range_g (accelRange : string) : option Z :=
  if String.eqb accelRange "2G" then Some 2
  else if String.eqb accelRange "4G" then Some 4
  else if String.eqb accelRange "8G" then Some 8
  else if String.eqb accelRange "16G" then Some 16
  else None.

Definition gyro_range_dps (gyroRange : string) : option Z :=
  if String.eqb gyroRange "250DPS" then Some 250
  else if String.eqb gyroRange "500DPS" then Some 500
  else if String.eqb gyroRange "1000DPS" then Some 1000
  else if String.eqb gyroRange "2000DPS" then Some 2000
  else None.

Definition example_object : t :=
  mk 0x68 (S754_zero false) (S754_zero false) [].

End MPU9250.

(** * Concrete runs

    Scripts and register files used to run the drivers on concrete
    inputs. *)

Module Examples.

(** Replies under which [Icm20948::Begin] runs to its end on an object
    with bank 0 cached: every call is acknowledged except the reset write
    to [PWR_MGMT_1_] (the fifteenth bus event). *)
Definition begin_script : list Reply :=
  repeat Ack 4 ++
  (* AK09916 soft reset and its read-back *)
  repeat Ack 8 ++ [Data [0]] ++
  (* IMU reset *)
  [Nak] ++
  (* clock source, WHO_AM_I, I2C master *)
  [Ack; Data [0xEA]; Ack; Ack; Ack] ++
  (* AK09916 WIA2 *)
  [Ack; Ack; Ack; Ack; Data [0x09]] ++
  (* ODR alignment, ranges, filters *)
  [Ack; Ack] ++
  [Data [0]; Ack; Data [0]; Ack; Data [6]; Ack; Data [6]; Ack; Ack] ++
  (* sample rate divider, magnetometer mode and its read-back, discard read *)
  [Ack; Ack] ++ repeat Ack 9 ++ [Data [0x02]] ++
  repeat Ack 5 ++ [Data [0; 0; 0; 0; 0; 0; 0; 0]].

(** A burst of 23 data bytes: accelerometer x = 0x0100, magnetometer
    status 1 = [st1], magnetometer x = 0x0002 (little endian), magnetometer
    status 2 = [st2]. *)
Definition burst (st1 st2 : Z) : list Z :=
  [1; 0; 0; 0; 0; 0; 0; 0; 0; 0; 0; 0; 0; 0; st1; 2; 0; 0; 0; 0; 0; 0; st2].

(** An MPU-9250 register file whose [CONFIG] register holds 0x40 (bit 6
    set) and whose other registers hold 0. *)
Definition mpu_regs : Z -> Z :=
  fun a => if a =? MPU9250.CONFIG then 0x40 else 0.

End Examples.

(** * Derived notions

    What the further properties are stated with: the device side of a
    sixteen-bit transfer, invariants of monadic code, the bank-select
    register as the log shows it, the methods of the two ICM drivers as
    a type of calls, and the read path and register codes of the
    MPU-9250 driver. *)

(** ** Sixteen-bit words *)

(** Conversion to [uint16_t]. *)
Definition u16 (x : Z) : Z := x mod 65536.

(** The two bytes of the sixteen-bit two's-complement representation of
    [v]: what a sensor puts into its high and low data registers. *)
Definition hi_byte (v : Z) : Z := u16 v / 256.

Definition lo_byte (v : Z) : Z := v mod 256.

(** High byte first (the inertial sensors). *)
Definition be16 (v : Z) : list Z := [hi_byte v; lo_byte v].

(** Low byte first (the AK09916 magnetometer). *)
Definition le16 (v : Z) : list Z := [lo_byte v; hi_byte v].

(** The value fits an [int16_t]. *)
Definition is_int16 (v : Z) : bool := (-32768 <=? v) && (v <? 32768).

(** ** Invariants of monadic code *)

(** The computation [m] keeps the state property [I]. *)
Definition preserves {S A : Type} (I : S -> Prop) (m : M S A) : Prop :=
  forall s, I s -> I (snd (m s)).

(** ** The bank-select register as the log shows it *)

(** The value the register [sel] of the device holds after the calls of
    [log]: the data of the last acknowledged write to it, if there is
    one. *)
Definition selected (sel : Z) (log : list BusEvent) : option Z :=
  fold_left
    (fun acc e =>
       match e with
       | BusWrite r d true => if r =? sel then Some d else acc
       | _ => acc
       end)
    log None.

(** The cached bank [cur] agrees with the bank-select register of the
    device, as far as the log tells: if a bank-select write was ever
    acknowledged, the last one carried [cur << 4]. *)
Definition cache_coherent (sel cur : Z) (log : list BusEvent) : Prop :=
  match selected sel log with
  | Some v => v = u8 (Z.shiftl cur 4)
  | None => True
  end.

(** Every call of the log reported success. *)
Definition all_ok (log : list BusEvent) : bool := forallb ev_ok log.

(** ** Calls into the ICM-20649 driver *)

Module Icm20649Calls.
Import Icm20649.

(** The methods of [Icm20649] that use the bus, with their arguments. *)
Inductive Call : Type :=
| Call_Begin
| Call_EnableDrdyInt
| Call_DisableDrdyInt
| Call_ConfigAccelRange (range : AccelRange)
| Call_ConfigGyroRange (range : GyroRange)
| Call_ConfigSrd (srd : Z)
| Call_ConfigAccelDlpfBandwidth (dlpf : AccelDlpfBandwidth)
| Call_ConfigGyroDlpfBandwidth (dlpf : GyroDlpfBandwidth)
| Call_Reset
| Call_Read.

Section Calls.
Context {T : Transport} {h : Header}.

(** One call, its result dropped. *)
Definition call (c : Call) : M (t T) unit :=
  match c with
  | Call_Begin => Begin ;; ret tt
  | Call_EnableDrdyInt => EnableDrdyInt ;; ret tt
  | Call_DisableDrdyInt => DisableDrdyInt ;; ret tt
  | Call_ConfigAccelRange range => ConfigAccelRange range ;; ret tt
  | Call_ConfigGyroRange range => ConfigGyroRange range ;; ret tt
  | Call_ConfigSrd srd => ConfigSrd srd ;; ret tt
  | Call_ConfigAccelDlpfBandwidth dlpf => ConfigAccelDlpfBandwidth dlpf ;; ret tt
  | Call_ConfigGyroDlpfBandwidth dlpf => ConfigGyroDlpfBandwidth dlpf ;; ret tt
  | Call_Reset => Reset
  | Call_Read => Read ;; ret tt
  end.

(** A sequence of calls, in order. *)
Fixpoint calls (l : list Call) : M (t T) unit :=
  match l with
  | [] => ret tt
  | c :: l' => call c ;; calls l'
  end.

(** No register the driver writes a value to is the bank-select register
    itself. *)
Definition bank_sel_private : bool :=
  forallb (fun r => negb (r =? REG_BANK_SEL_))
    [USER_CTRL_; PWR_MGMT_1_; ODR_ALIGN_EN_; INT_ENABLE_1_; ACCEL_CONFIG_;
     GYRO_CONFIG_1_; ACCEL_SMPLRT_DIV_2_; GYRO_SMPLRT_DIV_].

(** The cached bank of the object agrees with its log. *)
Definition bank_cached (st : t T) : Prop :=
  cache_coherent REG_BANK_SEL_ (current_bank_ st) (bus_log st).

(** The configuration [Begin] sets up. *)
Definition default_config : Config :=
  mkConfig ACCEL_RANGE_30G (scale_factor 32) GYRO_RANGE_4000DPS (scale_factor 4000)
    ACCEL_DLPF_BANDWIDTH_111HZ GYRO_DLPF_BANDWIDTH_119HZ 0.

End Calls.

(** The fourteen data registers from [ACCEL_XOUT_H] on, for the given
    counts: accelerometer, gyro, temperature, each high byte first. *)
Definition burst_of (a g : vec3 Z) (tc : Z) : list Z :=
  let '(ax, ay, az) := a in
  let '(gx, gy, gz) := g in
  be16 ax ++ be16 ay ++ be16 az ++ be16 gx ++ be16 gy ++ be16 gz ++ be16 tc.

End Icm20649Calls.

(** ** Calls into the ICM-20948 driver *)

Module Icm20948Calls.
Import Icm20948.

(** The methods of [Icm20948] that use the bus and take no register
    address, with their arguments. *)
Inductive Call : Type :=
| Call_Begin
| Call_EnableDrdyInt
| Call_DisableDrdyInt
| Call_ConfigAccelRange (range : AccelRange)
| Call_ConfigGyroRange (range : GyroRange)
| Call_ConfigSrd (srd : Z)
| Call_ConfigAccelDlpfBandwidth (dlpf : AccelDlpfBandwidth)
| Call_ConfigGyroDlpfBandwidth (dlpf : GyroDlpfBandwidth)
| Call_ConfigTempDlpfBandwidth (dlpf : TempDlpfBandwidth)
| Call_Read.

Section Calls.
Context {T : Transport} {h : Header}.

(** One call, its result dropped. *)
Definition call (c : Call) : M (t T) unit :=
  match c with
  | Call_Begin => Begin ;; ret tt
  | Call_EnableDrdyInt => EnableDrdyInt ;; ret tt
  | Call_DisableDrdyInt => DisableDrdyInt ;; ret tt
  | Call_ConfigAccelRange range => ConfigAccelRange range ;; ret tt
  | Call_ConfigGyroRange range => ConfigGyroRange range ;; ret tt
  | Call_ConfigSrd srd => ConfigSrd srd ;; ret tt
  | Call_ConfigAccelDlpfBandwidth dlpf => ConfigAccelDlpfBandwidth dlpf ;; ret tt
  | Call_ConfigGyroDlpfBandwidth dlpf => ConfigGyroDlpfBandwidth dlpf ;; ret tt
  | Call_ConfigTempDlpfBandwidth dlpf => ConfigTempDlpfBandwidth dlpf ;; ret tt
  | Call_Read => Read ;; ret tt
  end.

(** A sequence of calls, in order. *)
Fixpoint calls (l : list Call) : M (t T) unit :=
  match l with
  | [] => ret tt
  | c :: l' => call c ;; calls l'
  end.

(** No register the driver writes a value to is the bank-select register
    itself. *)
Definition bank_sel_private : bool :=
  forallb (fun r => negb (r =? REG_BANK_SEL_))
    [USER_CTRL_; PWR_MGMT_1_; I2C_MST_CTRL_; I2C_SLV0_ADDR_; I2C_SLV0_REG_;
     I2C_SLV0_D0_; I2C_SLV0_CTRL_; ODR_ALIGN_EN_; INT_ENABLE_1_; ACCEL_CONFIG_;
     GYRO_CONFIG_1_; TEMP_CONFIG_; ACCEL_SMPLRT_DIV_2_; GYRO_SMPLRT_DIV_].

(** The cached bank of the object agrees with its log. *)
Definition bank_cached (st : t T) : Prop :=
  cache_coherent REG_BANK_SEL_ (current_bank_ st) (bus_log st).

(** The configuration [Begin] sets up. *)
Definition default_config : Config :=
  mkConfig ACCEL_RANGE_16G (scale_factor 16) GYRO_RANGE_2000DPS (scale_factor 2000)
    ACCEL_DLPF_BANDWIDTH_473HZ GYRO_DLPF_BANDWIDTH_361HZ
    TEMP_DLPF_BANDWIDTH_7932HZ 0.

End Calls.

(** The twenty-three bytes from [ACCEL_XOUT_H] on, for the given counts:
    accelerometer, gyro and temperature high byte first, then what the I2C
    master copied from the magnetometer: status 1, the three axes low byte
    first, a reserved byte and status 2. *)
Definition burst_of (a g : vec3 Z) (tc st1 : Z) (m : vec3 Z) (rsv st2 : Z) : list Z :=
  let '(ax, ay, az) := a in
  let '(gx, gy, gz) := g in
  let '(mx, my, mz) := m in
  be16 ax ++ be16 ay ++ be16 az ++ be16 gx ++ be16 gy ++ be16 gz ++ be16 tc ++
  [st1] ++ le16 mx ++ le16 my ++ le16 mz ++ [rsv; st2].

End Icm20948Calls.

(** ** The read path of the MPU-9250 driver ([MPU9250.cpp])

    [Wire.requestFrom] asks the device for bytes, and the loop over
    [Wire.available()] stores those that arrived.  What arrives is up to
    the device: [peer subAddress count] is the list of bytes it sends when
    [count] bytes are asked for after its register pointer was set to
    [subAddress].  The buffers the getters read into are local arrays
    that are not initialised: their contents before the read are an
    argument, [buff]. *)

Module MPU9250Read.
Import MPU9250.

Section Reads.

Variable peer : Z -> Z -> list Z.

(** The receive buffer after [Wire.requestFrom(_address, count)]: at most
    [count] bytes. *)
Definition requestFrom (subAddress count : Z) : list Z :=
  map u8 (firstn (Z.to_nat count) (peer subAddress count)).

(** [readRegisters(subAddress, count, dest)]: the register pointer is
    sent in a transmission that ends without a stop
    ([endTransmission(false)]), the bytes are requested, and every byte
    that is available is stored, from [dest[0]] on.  [count] is 6 or 14
    in the driver, so the [uint8_t] index does not wrap.  The result is
    the array [dest] after the call. *)
Definition readRegisters (subAddress count : Z) (dest : list Z) : M t (list Z) :=
  modify (fun st => on_wire (Wire_transmission (_address st) [subAddress]) st) ;;
  ret (overwrite (requestFrom subAddress count) dest).

(** [(((uint16_t)buff[i]) << 8) | buff[j]] stored into a [uint16_t]. *)
Definition word (buff : list Z) (i j : nat) : Z :=
  u16 (Z.lor (Z.shiftl (byte_at buff i) 8) (byte_at buff j)).

(** The three counts are [uint16_t] values. *)
Definition uint16_counts (c : vec3 Z) : Prop :=
  let '(x, y, z) := c in
  0 <= x < 65536 /\ 0 <= y < 65536 /\ 0 <= z < 65536.

Definition getAccelCounts (buff : list Z) : M t (vec3 Z) :=
  buff <- readRegisters ACCEL_OUT 6 buff ;;
  ret (word buff 0 1, word buff 2 3, word buff 4 5).

Definition getGyroCounts (buff : list Z) : M t (vec3 Z) :=
  buff <- readRegisters GYRO_OUT 6 buff ;;
  ret (word buff 0 1, word buff 2 3, word buff 4 5).

Definition getMotion6Counts (buff : list Z) : M t (vec3 Z * vec3 Z) :=
  buff <- readRegisters ACCEL_OUT 14 buff ;;
  ret ((word buff 0 1, word buff 2 3, word buff 4 5),
       (word buff 8 9, word buff 10 11, word buff 12 13)).

(** [((int16_t) counts) * scale] *)
Definition scaled (counts : Z) (scale : spec_float) : spec_float :=
  F64.mul (F64.of_Z (i16 counts)) scale.

Definition scaled3 (c : vec3 Z) (scale : spec_float) : vec3 spec_float :=
  let '(x, y, z) := c in (scaled x scale, scaled y scale, scaled z scale).

Definition getAccel (buff : list Z) : M t (vec3 spec_float) :=
  accel <- getAccelCounts buff ;;
  s <- gets _accelScale ;;
  ret (scaled3 accel s).

Definition getGyro (buff : list Z) : M t (vec3 spec_float) :=
  gyro <- getGyroCounts buff ;;
  s <- gets _gyroScale ;;
  ret (scaled3 gyro s).

Definition getMotion6 (buff : list Z) : M t (vec3 spec_float * vec3 spec_float) :=
  c <- getMotion6Counts buff ;;
  sa <- gets _accelScale ;;
  sg <- gets _gyroScale ;;
  ret (scaled3 (fst c) sa, scaled3 (snd c) sg).

End Reads.

(** A device that answers from its register file [regs], the register
    pointer advancing by one per byte. *)
Definition register_file (regs : Z -> Z) : Z -> Z -> list Z :=
  fun subAddress count =>
    map (fun i => regs (subAddress + Z.of_nat i)) (seq 0 (Z.to_nat count)).

(** A device that does not answer. *)
Definition silent : Z -> Z -> list Z := fun _ _ => [].

End MPU9250Read.

(** ** Register codes of the MPU-9250 driver ([MPU9250.h]) *)

Module MPU9250Codes.

(** The register code of [begin] for a full-scale value: [FS_SEL] in bits
    3 and 4 of the configuration register. *)
Definition accel_fs_sel (g : Z) : Z := Z.shiftl (Z.log2 (g / 2)) 3.

Definition gyro_fs_sel (dps : Z) : Z := Z.shiftl (Z.log2 (dps / 250)) 3.

(** The filter code of [setFilt] for a bandwidth string. *)
Definition dlpf_code (bandwidth : string) : option Z :=
  if String.eqb bandwidth "184HZ" then Some 1
  else if String.eqb bandwidth "92HZ" then Some 2
  else if String.eqb bandwidth "41HZ" then Some 3
  else if String.eqb bandwidth "20HZ" then Some 4
  else if String.eqb bandwidth "10HZ" then Some 5
  else if String.eqb bandwidth "5HZ" then Some 6
  else None.

End MPU9250Codes.

(** * Properties *)

(** ** Fixed-width integers *)

Example unpack16_max : unpack16 0x7F 0xFF = 32767.
Proof. reflexivity. Qed.

Example unpack16_min : unpack16 0x80 0x00 = -32768.
Proof. reflexivity. Qed.

Lemma unpack16_range (hi lo : Z) : -32768 <= unpack16 hi lo < 32768.
Proof.
  unfold unpack16, i16.
  pose proof (Z.mod_pos_bound (Z.lor (Z.shiftl hi 8) lo + 32768) 65536). lia.
Qed.

(** ** Bit fields *)

Lemma small_testbit (v n i : Z) :
  0 <= v < 2 ^ n -> 0 <= n -> n <= i -> Z.testbit v i = false.
Proof.
  intros Hv Hn Hi.
  rewrite <- (Z.mod_small v (2 ^ n)) by exact Hv.
  apply Z.mod_pow2_bits_high. lia.
Qed.

Lemma u8_testbit (x i : Z) : 0 <= i < 8 -> Z.testbit (u8 x) i = Z.testbit x i.
Proof.
  intros Hi. unfold u8. change 256 with (2 ^ 8).
  apply Z.mod_pow2_bits_low. lia.
Qed.

Lemma fits_range v : range_fits v = true -> 0 <= v < 2 ^ 2.
Proof. unfold range_fits. rewrite andb_true_iff. change (2 ^ 2) with 4. lia. Qed.

Lemma fits_dlpf v : dlpf_fits v = true -> 0 <= v < 2 ^ 3.
Proof. unfold dlpf_fits. rewrite andb_true_iff. change (2 ^ 3) with 8. lia. Qed.

(** [b &= ~0x06; b |= v << 1] changes bits 1 and 2 only. *)
Lemma range_patch_frame (b v : Z) :
  range_fits v = true ->
  same_outside 6 b (u8 (Z.lor (u8 (Z.land b (Z.lnot 6))) (Z.shiftl v 1))).
Proof.
  intros Hv i Hi Hm. apply fits_range in Hv.
  rewrite u8_testbit, Z.lor_spec, u8_testbit, Z.land_spec, Z.lnot_spec by lia.
  rewrite Hm, Z.shiftl_spec by lia.
  assert (Hs : Z.testbit v (i - 1) = false).
  { destruct (Z.eq_dec i 0) as [->|]; [apply Z.testbit_neg_r; lia|].
    apply (small_testbit v 2); try lia.
    assert (i <> 1) by (intros ->; discriminate Hm).
    assert (i <> 2) by (intros ->; discriminate Hm). lia. }
  rewrite Hs. destruct (Z.testbit b i); reflexivity.
Qed.

(** [b |= 0x01; b &= 0xC7; b |= v << 3] changes bits 3 to 5 and bit 0 only. *)
Lemma dlpf_patch_frame (b v : Z) :
  dlpf_fits v = true ->
  same_outside 57 b
    (u8 (Z.lor (u8 (Z.land (u8 (Z.lor b 1)) 199)) (Z.shiftl v 3))).
Proof.
  intros Hv i Hi Hm. apply fits_dlpf in Hv.
  rewrite u8_testbit, Z.lor_spec, u8_testbit, Z.land_spec, u8_testbit, Z.lor_spec by lia.
  rewrite Z.shiftl_spec by lia.
  assert (Hc : i = 1 \/ i = 2 \/ i = 6 \/ i = 7).
  { assert (i = 0 \/ i = 1 \/ i = 2 \/ i = 3 \/ i = 4 \/ i = 5 \/ i = 6 \/ i = 7) as Hc by lia.
    repeat (destruct Hc as [->|Hc]; [try discriminate Hm; auto|]).
    subst i; try discriminate Hm; auto. }
  assert (Hs : Z.testbit v (i - 3) = false).
  { destruct Hc as [->|[->|Hc] ]; try (apply Z.testbit_neg_r; lia).
    apply (small_testbit v 3); lia. }
  rewrite Hs.
  destruct Hc as [-> | [-> | [-> | ->] ] ];
    match goal with |- context [Z.testbit b ?j] => destruct (Z.testbit b j) end;
    reflexivity.
Qed.

(** ** Byte buffers *)

(** After a successful transfer of [count] bytes to the start of a buffer,
    byte [i] of the buffer, for [i] below [count], is the [i]-th byte the
    transport received. *)
Lemma delivered_byte (count : Z) (bs buf : list Z) (i : nat) :
  (i < Z.to_nat count)%nat ->
  byte_at (overwrite (delivered count bs) buf) i = u8 (nth i bs 0).
Proof.
  intros Hi. unfold byte_at, overwrite, delivered.
  rewrite app_nth1 by (rewrite length_map, length_seq; exact Hi).
  set (f := fun k : nat => u8 (nth k bs 0)).
  rewrite (nth_indep _ 0 (f 0%nat)) by (rewrite length_map, length_seq; exact Hi).
  rewrite map_nth, seq_nth by exact Hi. reflexivity.
Qed.

(** ** The log *)

Lemma appended_app (l x : list BusEvent) : appended l (l ++ x) = x.
Proof.
  unfold appended. induction l as [|e l IH]; [reflexivity | exact IH].
Qed.

Lemma appended_same (l : list BusEvent) : appended l l = [].
Proof.
  rewrite <- (app_nil_r l) at 2. apply appended_app.
Qed.

Lemma last_event_snoc (l : list BusEvent) (e : BusEvent) : last_event (l ++ [e]) = e.
Proof. unfold last_event. apply last_last. Qed.

(** ** Fail-fast sequences *)

Section Steps.
Context {S : Type}.

Lemma bind_ext {A B : Type} (m : M S A) (k1 k2 : A -> M S B) (s : S) :
  (forall a s', k1 a s' = k2 a s') -> bind m k1 s = bind m k2 s.
Proof. intros H. unfold bind. destruct (m s). apply H. Qed.

Lemma check_ext (m : M S bool) (k1 k2 : M S bool) (s : S) :
  (forall s', k1 s' = k2 s') -> (check! m ;; k1) s = (check! m ;; k2) s.
Proof. intros H. apply bind_ext. intros [|] s'; [apply H | reflexivity]. Qed.

Lemma check_gets_neq (f : S -> Z) (c : Z) (k1 k2 : M S bool) (s : S) :
  (forall s', k1 s' = k2 s') ->
  (w <- gets f ;; if negb (w =? c) then ret false else k1) s =
  (check! gets (fun st => f st =? c) ;; k2) s.
Proof.
  intros H. unfold bind, gets, ret. destruct (f s =? c); cbn [negb]; auto.
Qed.

Lemma run_steps_ran (l : list (Step S)) :
  forall s s', run_steps l s = (true, s') <-> ran l s s'.
Proof.
  induction l as [|[m|A m] l IH]; intros s s'; cbn [run_steps ran]; unfold bind, ret.
  - split; [intros [= <-]; reflexivity | intros ->; reflexivity].
  - destruct (m s) as [[|] s1]; cbn [fst snd].
    + rewrite IH. tauto.
    + split; [discriminate | intros [? _]; discriminate].
  - destruct (m s) as [a s1]; cbn [snd]. apply IH.
Qed.

Lemma run_steps_stops (l : list (Step S)) :
  forall s s',
    run_steps l s = (false, s') <->
    exists pre m post s1,
      l = pre ++ Checked m :: post /\ ran pre s s1 /\ m s1 = (false, s').
Proof.
  induction l as [|[m|A m] l IH]; intros s s'; cbn [run_steps]; unfold bind, ret.
  - split; [discriminate|].
    intros (pre & m & post & s1 & E & _). destruct pre; discriminate.
  - destruct (m s) as [[|] s1] eqn:Em.
    + rewrite IH. split.
      * intros (pre & m' & post & s2 & -> & R & F).
        exists (Checked m :: pre), m', post, s2. cbn [ran app]. rewrite Em. auto.
      * intros (pre & m' & post & s2 & E & R & F).
        destruct pre as [|x pre]; cbn [app] in E; injection E as E1 E2; subst.
        -- cbn [ran] in R. subst s2. congruence.
        -- cbn [ran] in R. rewrite Em in R. cbn [fst snd] in R.
           exists pre, m', post, s2. tauto.
    + split.
      * intros [= <-]. exists [], m, l, s. cbn. auto.
      * intros (pre & m' & post & s2 & E & R & F).
        destruct pre as [|x pre]; cbn [app] in E; injection E as E1 E2; subst.
        -- cbn [ran] in R. subst s2. congruence.
        -- cbn [ran] in R. rewrite Em in R. cbn [fst] in R. destruct R; discriminate.
  - destruct (m s) as [a s1] eqn:Em. rewrite IH. split.
    + intros (pre & m' & post & s2 & -> & R & F).
      exists (Unchecked m :: pre), m', post, s2. cbn [ran app]. rewrite Em. auto.
    + intros (pre & m' & post & s2 & E & R & F).
      destruct pre as [|x pre]; cbn [app] in E; [discriminate|].
      injection E as E1 E2; subst. cbn [ran] in R. rewrite Em in R.
      exists pre, m', post, s2. auto.
Qed.

End Steps.

(** ** ICM-20649 *)

Module Icm20649Facts.
Import Icm20649.

(** Unfolds the methods down to the calls into the transport. *)
Ltac unfold_drv :=
  cbv beta iota zeta delta
    [Begin Read Reset ConfigAccelRange ConfigGyroRange ConfigSrd
     ConfigAccelDlpfBandwidth ConfigGyroDlpfBandwidth EnableDrdyInt DisableDrdyInt
     SetBank WriteRegister ReadRegisters delay imu_Begin Serial_println
     bind ret gets modify poke update_buf0 byte_read
     stage_accel_range stage_gyro_range stage_accel_dlpf stage_gyro_dlpf
     commit_accel_range commit_gyro_range commit_accel_dlpf commit_gyro_dlpf commit_srd
     set_new_imu_data_ emit set_serial_ set_current_bank_ set_who_am_i_ set_data_buf_
     set_staged set_config set_sample
     imu_ bus_log serial_ iface_ current_bank_ who_am_i_ data_buf_ staged config sample
     requested_accel_range_ requested_accel_scale_ requested_gyro_range_
     requested_gyro_scale_ accel_requested_dlpf_ gyro_requested_dlpf_
     accel_range_ accel_scale_ gyro_range_ gyro_scale_ accel_dlpf_bandwidth_
     gyro_dlpf_bandwidth_ srd_
     new_imu_data_ accel_cnts_ gyro_cnts_ temp_cnts_ accel_ gyro_ temp_
     fst snd negb].

(** Case analysis on the next answer of the transport, or on the next
    comparison. *)
Ltac bus_case :=
  match goal with
  | |- context [tr_write ?T ?d ?r ?v] =>
      let ok := fresh "ack" in let d' := fresh "d" in
      destruct (tr_write T d r v) as [ok d']; destruct ok
  | |- context [tr_read ?T ?d ?r ?c] =>
      let bs := fresh "bs" in let d' := fresh "d" in
      destruct (tr_read T d r c) as [[bs|] d']
  | |- context [Z.eqb ?a ?b] =>
      let E := fresh "E" in destruct (Z.eqb a b) eqn:E
  | |- context [to_bool ?x] =>
      let E := fresh "E" in destruct (to_bool x) eqn:E
  end; unfold_drv.

Section Facts.
Context {T : Transport} {h : Header}.

Lemma icm20649_Begin_steps (st : t T) : Begin st = run_steps begin_steps st.
Proof.
  unfold Begin, begin_steps. cbn [run_steps].
  do 3 (apply bind_ext; intros ? ?).
  apply check_ext; intros ?. apply bind_ext; intros ? ?.
  do 2 (apply check_ext; intros ?).
  apply check_gets_neq; intros ?.
  reflexivity.
Qed.

Lemma icm20649_SetBank_cached (bank : Z) (st : t T) :
  bank = current_bank_ st -> SetBank bank st = (true, st).
Proof.
  intros ->. unfold SetBank, bind, gets, ret. rewrite Z.eqb_refl. reflexivity.
Qed.

Lemma icm20649_SetBank_switch (bank : Z) (st : t T) :
  bank <> current_bank_ st ->
  exists ack,
    bus_log (snd (SetBank bank st)) =
      bus_log st ++ [BusWrite REG_BANK_SEL_ (u8 (Z.shiftl bank 4)) ack] /\
    fst (SetBank bank st) = ack /\
    current_bank_ (snd (SetBank bank st)) = (if ack then bank else current_bank_ st).
Proof.
  intros Hne. apply Z.eqb_neq in Hne.
  unfold SetBank, bind, gets, ret, WriteRegister, modify. rewrite Hne. cbn [negb].
  destruct (tr_write T (imu_ st) REG_BANK_SEL_ (u8 (Z.shiftl bank 4))) as [[|] d];
    cbn; eauto.
Qed.

(** [SetBank] touches the transport, the log and the cached bank only. *)
Lemma icm20649_SetBank_frame (bank : Z) (st : t T) :
  config (snd (SetBank bank st)) = config st /\
  staged (snd (SetBank bank st)) = staged st /\
  sample (snd (SetBank bank st)) = sample st /\
  data_buf_ (snd (SetBank bank st)) = data_buf_ st.
Proof.
  unfold_drv. repeat bus_case; auto.
Qed.

Lemma icm20649_SetBank_log (bank : Z) (st : t T) :
  appended (bus_log st) (bus_log (snd (SetBank bank st))) = [] \/
  exists ack,
    appended (bus_log st) (bus_log (snd (SetBank bank st))) =
      [BusWrite REG_BANK_SEL_ (u8 (Z.shiftl bank 4)) ack].
Proof.
  destruct (Z.eq_dec bank (current_bank_ st)) as [E|E].
  - left. rewrite icm20649_SetBank_cached by exact E. apply appended_same.
  - right. destruct (icm20649_SetBank_switch bank st E) as (ack & -> & _).
    exists ack. apply appended_app.
Qed.

(** An out-of-enumeration value is rejected right after the bank select. *)
Lemma icm20649_invalid_rejected (st : t T) :
  (forall v, ConfigAccelRange (AccelRange_cast v) st = (false, snd (SetBank 2 st))) /\
  (forall v, ConfigGyroRange (GyroRange_cast v) st = (false, snd (SetBank 2 st))) /\
  (forall v, ConfigAccelDlpfBandwidth (AccelDlpfBandwidth_cast v) st =
             (false, snd (SetBank 2 st))) /\
  (forall v, ConfigGyroDlpfBandwidth (GyroDlpfBandwidth_cast v) st =
             (false, snd (SetBank 2 st))).
Proof.
  repeat split; intros v; unfold_drv; repeat bus_case; reflexivity.
Qed.

Lemma icm20649_accel_scale (r : AccelRange) (st st' : t T) :
  ConfigAccelRange r st = (true, st') ->
  accel_range_ (config st') = r /\
  accel_scale_ (config st') = scale_factor (AccelRange_full_scale r).
Proof.
  destruct r; unfold_drv; repeat bus_case; intros [= <-]; split; reflexivity.
Qed.

Lemma icm20649_gyro_scale (r : GyroRange) (st st' : t T) :
  ConfigGyroRange r st = (true, st') ->
  gyro_range_ (config st') = r /\
  gyro_scale_ (config st') = scale_factor (GyroRange_full_scale r).
Proof.
  destruct r; unfold_drv; repeat bus_case; intros [= <-]; split; reflexivity.
Qed.

(** The byte [ConfigGyroRange] passes to the register write is patched
    with the staged accelerometer range. *)
Lemma icm20649_gyro_range_byte (r : GyroRange) (st st' : t T) :
  ConfigGyroRange r st = (true, st') ->
  last_event (bus_log st') =
    BusWrite GYRO_CONFIG_1_
      (u8 (Z.lor (u8 (Z.land (byte_read GYRO_CONFIG_1_ 1 st) (Z.lnot 6)))
                 (Z.shiftl (AccelRange_int (requested_accel_range_ (staged st))) 1)))
      true.
Proof.
  destruct r; unfold_drv; repeat bus_case; intros [= <-]; unfold_drv;
    apply last_event_snoc.
Qed.

Lemma icm20649_fields_fit :
  fields_fit = true ->
  (forall r, (forall v, r <> AccelRange_cast v) -> range_fits (AccelRange_int r) = true) /\
  (forall d, (forall v, d <> AccelDlpfBandwidth_cast v) ->
             dlpf_fits (AccelDlpfBandwidth_int d) = true) /\
  (forall d, (forall v, d <> GyroDlpfBandwidth_cast v) ->
             dlpf_fits (GyroDlpfBandwidth_int d) = true).
Proof.
  unfold fields_fit. cbn [forallb]. rewrite !andb_true_iff.
  intros H. repeat split; intros x Hx; destruct x; cbn; try tauto;
    exfalso; eapply Hx; reflexivity.
Qed.

(** The register read-modify-write of the four field updates. *)
Lemma icm20649_accel_range_frame (r : AccelRange) (st st' : t T) :
  fields_fit = true ->
  ConfigAccelRange r st = (true, st') ->
  exists w,
    last_event (bus_log st') = BusWrite ACCEL_CONFIG_ w true /\
    same_outside 6 (byte_read ACCEL_CONFIG_ 1 st) w.
Proof.
  intros Hfit. apply icm20649_fields_fit in Hfit. destruct Hfit as (Hr & _).
  specialize (Hr r). destruct r; unfold_drv; repeat bus_case; intros [= <-]; unfold_drv;
    (eexists; split; [apply last_event_snoc | apply range_patch_frame; apply Hr; discriminate]).
Qed.

Lemma icm20649_gyro_range_frame (r : GyroRange) (st st' : t T) :
  range_fits (AccelRange_int (requested_accel_range_ (staged st))) = true ->
  ConfigGyroRange r st = (true, st') ->
  exists w,
    last_event (bus_log st') = BusWrite GYRO_CONFIG_1_ w true /\
    same_outside 6 (byte_read GYRO_CONFIG_1_ 1 st) w.
Proof.
  intros Hfit.
  destruct r; unfold_drv; repeat bus_case; intros [= <-]; unfold_drv;
    (eexists; split; [apply last_event_snoc | apply range_patch_frame; exact Hfit]).
Qed.

Lemma icm20649_accel_dlpf_frame (dlpf : AccelDlpfBandwidth) (st st' : t T) :
  fields_fit = true ->
  ConfigAccelDlpfBandwidth dlpf st = (true, st') ->
  exists w,
    last_event (bus_log st') = BusWrite ACCEL_CONFIG_ w true /\
    same_outside 57 (byte_read ACCEL_CONFIG_ 1 st) w.
Proof.
  intros Hfit. apply icm20649_fields_fit in Hfit. destruct Hfit as (_ & Hd & _).
  specialize (Hd dlpf). destruct dlpf; unfold_drv; repeat bus_case; intros [= <-]; unfold_drv;
    (eexists; split; [apply last_event_snoc | apply dlpf_patch_frame; apply Hd; discriminate]).
Qed.

Lemma icm20649_gyro_dlpf_frame (dlpf : GyroDlpfBandwidth) (st st' : t T) :
  fields_fit = true ->
  ConfigGyroDlpfBandwidth dlpf st = (true, st') ->
  exists w,
    last_event (bus_log st') = BusWrite GYRO_CONFIG_1_ w true /\
    same_outside 57 (byte_read GYRO_CONFIG_1_ sizeof_data_buf_ st) w.
Proof.
  intros Hfit. apply icm20649_fields_fit in Hfit. destruct Hfit as (_ & _ & Hd).
  specialize (Hd dlpf). destruct dlpf; unfold_drv; repeat bus_case; intros [= <-]; unfold_drv;
    (eexists; split; [apply last_event_snoc | apply dlpf_patch_frame; apply Hd; discriminate]).
Qed.

(** On an acknowledging transport a sequence of bank selections puts one
    write on the bus per change of bank. *)
Lemma icm20649_SetBank_each_count :
  acknowledges T ->
  forall banks (st : t T),
    length (bus_log (snd (SetBank_each banks st))) =
      (length (bus_log st) + bank_changes (current_bank_ st) banks)%nat.
Proof.
  intros Hack banks. induction banks as [|b l IH]; intros st;
    cbn [SetBank_each bank_changes].
  - cbn. lia.
  - unfold bind. destruct (SetBank b st) as [ok st1] eqn:E. cbn [snd]. rewrite IH.
    destruct (Z.eqb_spec b (current_bank_ st)) as [Hb|Hb].
    + rewrite icm20649_SetBank_cached in E by exact Hb.
      injection E as _ <-. rewrite <- Hb. lia.
    + destruct (icm20649_SetBank_switch b st Hb) as (ack & Hlog & Hfst & Hcur).
      rewrite E in Hlog, Hfst, Hcur. cbn [fst snd] in Hlog, Hfst, Hcur.
      assert (ack = true) as ->.
      { subst ack. revert E. unfold_drv. apply Z.eqb_neq in Hb.
        unfold current_bank_ in Hb. rewrite Hb.
        pose proof (Hack (imu_ st) REG_BANK_SEL_ (u8 (Z.shiftl b 4))) as Ha.
        unfold imu_ in Ha.
        destruct (tr_write T _ _ _) as [[|] d]; [intros [= <- _]; reflexivity|].
        discriminate Ha. }
      rewrite Hlog, Hcur, length_app. cbn [length]. lia.
Qed.

End Facts.
End Icm20649Facts.

(** ** ICM-20948 *)

Module Icm20948Facts.
Import Icm20948.

(** Unfolds the methods down to the calls into the transport. *)
Ltac unfold_drv :=
  cbv beta iota zeta delta
    [Begin Read ConfigAccelRange ConfigGyroRange ConfigSrd
     ConfigAccelDlpfBandwidth ConfigGyroDlpfBandwidth ConfigTempDlpfBandwidth
     EnableDrdyInt DisableDrdyInt i2c_if_dis
     WriteAk09916Register ReadAk09916Registers
     WriteRegister ReadRegisters imu_WriteRegister imu_ReadRegisters delay imu_Begin
     bind ret gets modify poke update_buf0 byte_read publish
     stage_accel_range stage_gyro_range stage_accel_dlpf stage_gyro_dlpf stage_temp_dlpf
     commit_accel_range commit_gyro_range commit_accel_dlpf commit_gyro_dlpf
     commit_temp_dlpf commit_srd
     set_new_imu_data_ emit set_current_bank_ set_who_am_i_ set_data_buf_
     set_mag_data_ set_ret_val set_staged set_config set_sample
     imu_ bus_log iface_ current_bank_ who_am_i_ data_buf_ mag_data_ ret_val
     staged config sample
     requested_accel_range_ requested_accel_scale_ requested_gyro_range_
     requested_gyro_scale_ accel_requested_dlpf_ gyro_requested_dlpf_
     temp_requested_dlpf_
     accel_range_ accel_scale_ gyro_range_ gyro_scale_ accel_dlpf_bandwidth_
     gyro_dlpf_bandwidth_ temp_dlpf_bandwidth_ srd_
     new_imu_data_ new_mag_data_ mag_sensor_overflow_ accel_cnts_ gyro_cnts_
     temp_cnts_ mag_cnts_ accel_ gyro_ temp_ mag_
     fst snd negb].

(** Case analysis on the next answer of the transport, or on the next
    comparison. *)
Ltac bus_case :=
  match goal with
  | |- context [Z.eqb ?a ?a] => rewrite (Z.eqb_refl a)
  | |- context [tr_write ?T ?d ?r ?v] =>
      let ok := fresh "ack" in let d' := fresh "d" in
      destruct (tr_write T d r v) as [ok d']; destruct ok
  | |- context [tr_read ?T ?d ?r ?c] =>
      let bs := fresh "bs" in let d' := fresh "d" in
      destruct (tr_read T d r c) as [[bs|] d']
  | |- context [Z.eqb ?a ?b] =>
      let E := fresh "E" in destruct (Z.eqb a b) eqn:E
  | |- context [to_bool ?x] =>
      let E := fresh "E" in destruct (to_bool x) eqn:E
  end; unfold_drv.

Section Facts.
Context {T : Transport} {h : Header}.

Lemma icm20948_Begin_steps (st : t T) : Begin st = run_steps begin_steps st.
Proof.
  unfold Begin, begin_steps. cbn [run_steps].
  do 2 (apply bind_ext; intros ? ?).
  do 3 (apply check_ext; intros ?).
  do 4 (apply bind_ext; intros ? ?).
  do 2 (apply check_ext; intros ?).
  apply check_gets_neq; intros ?.
  do 3 (apply check_ext; intros ?).
  apply check_gets_neq; intros ?.
  reflexivity.
Qed.

(** The bank select in front of a register write. *)
Lemma icm20948_WriteRegister_cached (bank reg data : Z) (st : t T) :
  bank = current_bank_ st ->
  bus_log (snd (WriteRegister bank reg data st)) =
    bus_log st ++ [BusWrite reg data (fst (WriteRegister bank reg data st))] /\
  current_bank_ (snd (WriteRegister bank reg data st)) = current_bank_ st.
Proof.
  intros ->. unfold_drv. repeat bus_case; split; reflexivity.
Qed.

Lemma icm20948_WriteRegister_switch (bank reg data : Z) (st : t T) :
  bank <> current_bank_ st ->
  let r := WriteRegister bank reg data st in
  let sel := BusWrite REG_BANK_SEL_ (u8 (Z.shiftl bank 4)) in
  (bus_log (snd r) = bus_log st ++ [sel true; BusWrite reg data (fst r)] /\
   current_bank_ (snd r) = bank) \/
  (bus_log (snd r) = bus_log st ++ [sel false] /\
   current_bank_ (snd r) = current_bank_ st /\ fst r = false).
Proof.
  intros Hne. apply Z.eqb_neq in Hne. cbv zeta. unfold_drv.
  unfold current_bank_ in Hne. rewrite Hne. unfold_drv.
  repeat bus_case; rewrite <- ?app_assoc; cbn [app]; auto.
Qed.

Lemma icm20948_ReadRegisters_cached (bank reg count : Z) (dst : Dest) (st : t T) :
  bank = current_bank_ st ->
  exists reply,
    bus_log (snd (ReadRegisters bank reg count dst st)) =
      bus_log st ++ [BusRead reg count reply] /\
    fst (ReadRegisters bank reg count dst st) = ev_ok (BusRead reg count reply) /\
    current_bank_ (snd (ReadRegisters bank reg count dst st)) = current_bank_ st.
Proof.
  intros ->. unfold_drv. repeat bus_case; destruct dst; unfold_drv; eauto.
Qed.

Lemma icm20948_ReadRegisters_switch (bank reg count : Z) (dst : Dest) (st : t T) :
  bank <> current_bank_ st ->
  let r := ReadRegisters bank reg count dst st in
  let sel := BusWrite REG_BANK_SEL_ (u8 (Z.shiftl bank 4)) in
  (exists reply,
     bus_log (snd r) = bus_log st ++ [sel true; BusRead reg count reply] /\
     fst r = ev_ok (BusRead reg count reply) /\
     current_bank_ (snd r) = bank) \/
  (bus_log (snd r) = bus_log st ++ [sel false] /\
   current_bank_ (snd r) = current_bank_ st /\ fst r = false).
Proof.
  intros Hne. apply Z.eqb_neq in Hne. cbv zeta. unfold_drv.
  unfold current_bank_ in Hne. rewrite Hne. unfold_drv.
  repeat bus_case; destruct dst; unfold_drv; rewrite <- ?app_assoc; cbn [app]; eauto.
Qed.

(** An out-of-enumeration value is rejected before anything is done. *)
Lemma icm20948_invalid_rejected (st : t T) :
  (forall v, ConfigAccelRange (AccelRange_cast v) st = (false, st)) /\
  (forall v, ConfigGyroRange (GyroRange_cast v) st = (false, st)) /\
  (forall v, ConfigAccelDlpfBandwidth (AccelDlpfBandwidth_cast v) st = (false, st)) /\
  (forall v, ConfigGyroDlpfBandwidth (GyroDlpfBandwidth_cast v) st = (false, st)) /\
  (forall v, ConfigTempDlpfBandwidth (TempDlpfBandwidth_cast v) st = (false, st)).
Proof.
  repeat split; intros v; reflexivity.
Qed.

Lemma icm20948_accel_scale (r : AccelRange) (st st' : t T) :
  ConfigAccelRange r st = (true, st') ->
  accel_range_ (config st') = r /\
  accel_scale_ (config st') = scale_factor (AccelRange_full_scale r).
Proof.
  destruct r; unfold_drv; repeat bus_case; intros [= <-]; split; reflexivity.
Qed.

Lemma icm20948_gyro_scale (r : GyroRange) (st st' : t T) :
  ConfigGyroRange r st = (true, st') ->
  gyro_range_ (config st') = r /\
  gyro_scale_ (config st') = scale_factor (GyroRange_full_scale r).
Proof.
  destruct r; unfold_drv; repeat bus_case; intros [= <-]; split; reflexivity.
Qed.

(** The byte [ConfigGyroRange] passes to the register write is patched
    with the staged accelerometer range. *)
Lemma icm20948_gyro_range_byte (r : GyroRange) (st st' : t T) :
  ConfigGyroRange r st = (true, st') ->
  last_event (bus_log st') =
    BusWrite GYRO_CONFIG_1_
      (u8 (Z.lor (u8 (Z.land (byte_read GYRO_CONFIG_1_ 1 st) (Z.lnot 6)))
                 (Z.shiftl (AccelRange_int (requested_accel_range_ (staged st))) 1)))
      true.
Proof.
  destruct r; unfold_drv; repeat bus_case; intros [= <-]; unfold_drv;
    apply last_event_snoc.
Qed.

Lemma icm20948_fields_fit :
  fields_fit = true ->
  (forall r, (forall v, r <> AccelRange_cast v) -> range_fits (AccelRange_int r) = true) /\
  (forall d, (forall v, d <> AccelDlpfBandwidth_cast v) ->
             dlpf_fits (AccelDlpfBandwidth_int d) = true) /\
  (forall d, (forall v, d <> GyroDlpfBandwidth_cast v) ->
             dlpf_fits (GyroDlpfBandwidth_int d) = true).
Proof.
  unfold fields_fit. cbn [forallb]. rewrite !andb_true_iff.
  intros H. repeat split; intros x Hx; destruct x; cbn; try tauto;
    exfalso; eapply Hx; reflexivity.
Qed.

(** The register read-modify-write of the four field updates. *)
Lemma icm20948_accel_range_frame (r : AccelRange) (st st' : t T) :
  fields_fit = true ->
  ConfigAccelRange r st = (true, st') ->
  exists w,
    last_event (bus_log st') = BusWrite ACCEL_CONFIG_ w true /\
    same_outside 6 (byte_read ACCEL_CONFIG_ 1 st) w.
Proof.
  intros Hfit. apply icm20948_fields_fit in Hfit. destruct Hfit as (Hr & _).
  specialize (Hr r). destruct r; unfold_drv; repeat bus_case; intros [= <-]; unfold_drv;
    (eexists; split; [apply last_event_snoc | apply range_patch_frame; apply Hr; discriminate]).
Qed.

Lemma icm20948_gyro_range_frame (r : GyroRange) (st st' : t T) :
  range_fits (AccelRange_int (requested_accel_range_ (staged st))) = true ->
  ConfigGyroRange r st = (true, st') ->
  exists w,
    last_event (bus_log st') = BusWrite GYRO_CONFIG_1_ w true /\
    same_outside 6 (byte_read GYRO_CONFIG_1_ 1 st) w.
Proof.
  intros Hfit.
  destruct r; unfold_drv; repeat bus_case; intros [= <-]; unfold_drv;
    (eexists; split; [apply last_event_snoc | apply range_patch_frame; exact Hfit]).
Qed.

Lemma icm20948_accel_dlpf_frame (dlpf : AccelDlpfBandwidth) (st st' : t T) :
  fields_fit = true ->
  ConfigAccelDlpfBandwidth dlpf st = (true, st') ->
  exists w,
    last_event (bus_log st') = BusWrite ACCEL_CONFIG_ w true /\
    same_outside 57 (byte_read ACCEL_CONFIG_ 1 st) w.
Proof.
  intros Hfit. apply icm20948_fields_fit in Hfit. destruct Hfit as (_ & Hd & _).
  specialize (Hd dlpf). destruct dlpf; unfold_drv; repeat bus_case; intros [= <-]; unfold_drv;
    (eexists; split; [apply last_event_snoc | apply dlpf_patch_frame; apply Hd; discriminate]).
Qed.

Lemma icm20948_gyro_dlpf_frame (dlpf : GyroDlpfBandwidth) (st st' : t T) :
  fields_fit = true ->
  ConfigGyroDlpfBandwidth dlpf st = (true, st') ->
  exists w,
    last_event (bus_log st') = BusWrite GYRO_CONFIG_1_ w true /\
    same_outside 57 (byte_read GYRO_CONFIG_1_ sizeof_data_buf_ st) w.
Proof.
  intros Hfit. apply icm20948_fields_fit in Hfit. destruct Hfit as (_ & _ & Hd).
  specialize (Hd dlpf). destruct dlpf; unfold_drv; repeat bus_case; intros [= <-]; unfold_drv;
    (eexists; split; [apply last_event_snoc | apply dlpf_patch_frame; apply Hd; discriminate]).
Qed.

(** The temperature filter update reads nothing: it writes the whole
    register. *)
Lemma icm20948_temp_dlpf_blind (dlpf : TempDlpfBandwidth) (st : t T) :
  forallb (fun e => negb (is_read e))
    (appended (bus_log st) (bus_log (snd (ConfigTempDlpfBandwidth dlpf st)))) = true /\
  (fst (ConfigTempDlpfBandwidth dlpf st) = true ->
   last_event (bus_log (snd (ConfigTempDlpfBandwidth dlpf st))) =
     BusWrite TEMP_CONFIG_ (u8 (TempDlpfBandwidth_int dlpf)) true).
Proof.
  destruct dlpf; unfold_drv; repeat bus_case;
    (split;
     [ rewrite <- ?app_assoc, ?appended_app, ?appended_same; reflexivity
     | try discriminate; intros _; apply last_event_snoc ]).
Qed.

(** Reads leave the sample members alone. *)
Lemma icm20948_ReadRegisters_sample (bank reg count : Z) (dst : Dest) (st : t T) :
  sample (snd (ReadRegisters bank reg count dst st)) = sample st.
Proof.
  unfold_drv. repeat bus_case; destruct dst; reflexivity.
Qed.
(** The magnetometer part of a successful [Read]. *)
Lemma icm20948_Read_mag (st st' : t T) :
  Read st = (true, st') ->
  (new_mag_data_ (sample st') = true <->
     Z.land (byte_at (data_buf_ st') 14) AK09916_ST1_DRDY_ <> 0 /\
     Z.land (byte_at (data_buf_ st') 22) AK09916_ST2_HOFL_ = 0) /\
  (new_mag_data_ (sample st') = false -> mag_ (sample st') = mag_ (sample st)).
Proof.
  assert (Hb : forall x, to_bool x = true <-> x <> 0).
  { intros x. unfold to_bool. rewrite negb_true_iff. apply Z.eqb_neq. }
  assert (Hn : forall x, to_bool x = false <-> x = 0).
  { intros x. unfold to_bool. rewrite negb_false_iff. apply Z.eqb_eq. }
  unfold Read, bind, ret, gets, modify.
  pose proof (icm20948_ReadRegisters_sample BANK_0_ INT_STATUS_1_ 1 dst_data_buf_
                (set_new_imu_data_ false st)) as F1.
  destruct (ReadRegisters BANK_0_ INT_STATUS_1_ 1 dst_data_buf_ (set_new_imu_data_ false st))
    as [[|] s1]; [|discriminate].
  cbn [snd] in F1.
  match goal with |- context [negb ?c] => destruct c end; cbn [negb]; [|discriminate].
  match goal with |- context [ReadRegisters ?b ?r ?c ?d ?s] =>
    pose proof (icm20948_ReadRegisters_sample b r c d s) as F2;
    destruct (ReadRegisters b r c d s) as [ok s2] end.
  cbn [snd] in F2. intros [= <-].
  assert (Hmag : mag_ (sample s2) = mag_ (sample st)).
  { rewrite F2. cbn [set_new_imu_data_ set_sample sample mag_]. rewrite F1. reflexivity. }
  assert (Hbuf : data_buf_ (publish s2) = data_buf_ s2) by reflexivity.
  rewrite Hbuf. unfold publish. cbn [sample set_sample new_mag_data_ mag_].
  destruct (to_bool (Z.land (byte_at (data_buf_ s2) 22) AK09916_ST2_HOFL_)) eqn:Eo;
    destruct (to_bool (Z.land (byte_at (data_buf_ s2) 14) AK09916_ST1_DRDY_)) eqn:Ed;
    try apply Hb in Eo; try apply Hn in Eo; try apply Hb in Ed; try apply Hn in Ed;
    (split; [split; [try discriminate; intros _ | intros [? ?]] | try discriminate; intros _]);
    auto; try contradiction.
Qed.

(** The magnetometer part of a successful [Read] whose burst read was
    answered with [reply]: the flags and the scaled values in terms of the
    bytes received. *)
Lemma icm20948_Read_mag_reply (st st' : t T) (reply : list Z) :
  sizeof_data_buf_ = 23 ->
  Read st = (true, st') ->
  last_event (bus_log st') = BusRead ACCEL_XOUT_H sizeof_data_buf_ (Some reply) ->
  let byte := fun i : nat => u8 (nth i reply 0) in
  let f := F32.of_Z in
  (new_mag_data_ (sample st') = true <->
     Z.land (byte 14%nat) AK09916_ST1_DRDY_ <> 0 /\
     Z.land (byte 22%nat) AK09916_ST2_HOFL_ = 0) /\
  (mag_sensor_overflow_ (sample st') = true <->
     Z.land (byte 22%nat) AK09916_ST2_HOFL_ <> 0) /\
  (new_mag_data_ (sample st') = false -> mag_ (sample st') = mag_ (sample st)) /\
  (new_mag_data_ (sample st') = true ->
     mag_ (sample st') =
       (F32.mul F32.m1 (F32.mul (f (unpack16 (byte 18%nat) (byte 17%nat))) MAG_SCALE_),
        F32.mul (f (unpack16 (byte 16%nat) (byte 15%nat))) MAG_SCALE_,
        F32.mul (f (unpack16 (byte 20%nat) (byte 19%nat))) MAG_SCALE_)).
Proof.
  assert (Hb : forall x, to_bool x = true <-> x <> 0).
  { intros x. unfold to_bool. rewrite negb_true_iff. apply Z.eqb_neq. }
  assert (Hn : forall x, to_bool x = false <-> x = 0).
  { intros x. unfold to_bool. rewrite negb_false_iff. apply Z.eqb_eq. }
  assert (Hd : forall (i : nat) bs b, (i < 23)%nat ->
                 byte_at (overwrite (delivered 23 bs) b) i = u8 (nth i bs 0)).
  { intros i bs b Hi. apply delivered_byte. change (Z.to_nat 23) with 23%nat. exact Hi. }
  destruct st as [d lg ifc cb w buf mbuf rv sg cf sm].
  intros Hsz. cbv zeta. unfold_drv. rewrite !Hsz.
  repeat bus_case; intros [= <-]; unfold_drv;
    rewrite last_event_snoc; intros [= ->];
    rewrite ?Hd in * by lia;
    repeat match goal with
    | H : to_bool _ = true |- _ => apply Hb in H
    | H : to_bool _ = false |- _ => apply Hn in H
    end;
    (split; [split; [intros H; try discriminate H; auto | intros [H1 H2]; try reflexivity; contradiction]|]);
    (split; [split; [intros H; try discriminate H; auto | intros H; try reflexivity; contradiction]|]);
    (split; intros H; try discriminate H; reflexivity).
Qed.

(** Turns the recorded comparisons into (in)equalities. *)
Ltac eqb_facts :=
  repeat match goal with
  | H : (_ =? _) = true |- _ => apply Z.eqb_eq in H
  | H : (_ =? _) = false |- _ => apply Z.eqb_neq in H
  end.

(** Normalises the log a call built and computes what was appended. *)
Ltac log_norm :=
  rewrite <- ?app_assoc; rewrite ?appended_app, ?appended_same;
  cbn [app forallb ev_ok andb].

(** The indirect write: success needs every bus call to succeed. *)
Lemma icm20948_WriteAk_success (reg data : Z) (st : t T) :
  fst (WriteAk09916Register reg data st) = true ->
  forallb ev_ok
    (appended (bus_log st) (bus_log (snd (WriteAk09916Register reg data st)))) = true.
Proof.
  destruct st as [d lg ifc cb w buf mbuf rv sg cf sm].
  unfold_drv. repeat bus_case; log_norm; intros H; try discriminate H; reflexivity.
Qed.

(** The indirect write on a transport that acknowledges every call: one
    attempt, and the result is the comparison with the byte read back. *)
Lemma icm20948_WriteAk_traffic (reg data : Z) (st : t T) :
  forallb ev_ok
    (appended (bus_log st) (bus_log (snd (WriteAk09916Register reg data st)))) = true ->
  exists reply,
    appended (bus_log st) (bus_log (snd (WriteAk09916Register reg data st))) =
      indirect_write_traffic (current_bank_ st) reg data reply /\
    ret_val (snd (WriteAk09916Register reg data st)) = u8 (nth 0 reply 0) /\
    fst (WriteAk09916Register reg data st) = (data =? u8 (nth 0 reply 0)).
Proof.
  destruct st as [d lg ifc cb w buf mbuf rv sg cf sm].
  unfold indirect_write_traffic, bank_select_traffic.
  unfold_drv. repeat bus_case; log_norm; intros H; try discriminate H;
    first [ eexists; split; [reflexivity | split; [reflexivity | symmetry; assumption]]
          | exfalso; eqb_facts; congruence ].
Qed.

(** On an acknowledging transport a sequence of register writes puts on
    the bus one write per access and one bank-select write per change of
    bank. *)
Lemma icm20948_WriteRegister_each_count :
  acknowledges T ->
  forall ws (st : t T),
    length (bus_log (snd (WriteRegister_each ws st))) =
      (length (bus_log st) + length ws +
       bank_changes (current_bank_ st) (map (fun w => fst (fst w)) ws))%nat.
Proof.
  intros Hack ws. induction ws as [|[[bank reg] data] l IH]; intros st;
    cbn [WriteRegister_each bank_changes map length fst].
  - cbn. lia.
  - unfold bind. destruct (WriteRegister bank reg data st) as [ok st1] eqn:E.
    cbn [snd]. rewrite IH.
    assert (Hs : length (bus_log st1) =
                   (length (bus_log st) + 1 +
                    (if Z.eqb bank (current_bank_ st) then 0 else 1))%nat /\
                 current_bank_ st1 = bank).
    { revert E. destruct st as [d lg ifc cb w buf mbuf rv sg cf sm]. unfold_drv.
      destruct (Z.eqb_spec bank cb) as [->|Hb]; unfold_drv.
      - pose proof (Hack d reg data) as Ha.
        destruct (tr_write T d reg data) as [a d']. intros [= _ <-].
        cbn [bus_log current_bank_]. rewrite length_app. cbn [length]. lia.
      - pose proof (Hack d REG_BANK_SEL_ (u8 (Z.shiftl bank 4))) as Ha.
        destruct (tr_write T d REG_BANK_SEL_ (u8 (Z.shiftl bank 4))) as [[|] d'];
          [|discriminate Ha].
        unfold_drv. destruct (tr_write T d' reg data) as [a d'']. intros [= _ <-].
        cbn [bus_log current_bank_]. rewrite !length_app. cbn [length]. lia. }
    destruct Hs as [Hlen Hcur]. rewrite Hlen, Hcur. lia.
Qed.

(** [ConfigSrd] succeeds only if its indirect write to the magnetometer
    does. *)
Lemma icm20948_ConfigSrd_indirect_write (srd : Z) (st : t T) :
  fst (ConfigSrd srd st) = true ->
  exists s1 s2,
    WriteRegister BANK_2_ ACCEL_SMPLRT_DIV_2_ srd st = (true, s1) /\
    WriteRegister BANK_2_ GYRO_SMPLRT_DIV_ srd s1 = (true, s2) /\
    fst (WriteAk09916Register AK09916_CNTL2_ AK09916_CNTL2_CONT_MEAS_MODE1_ s2) = true.
Proof.
  unfold ConfigSrd, bind, ret.
  destruct (WriteRegister BANK_2_ ACCEL_SMPLRT_DIV_2_ srd st) as [[|] s1] eqn:E1;
    [|discriminate].
  destruct (WriteRegister BANK_2_ GYRO_SMPLRT_DIV_ srd s1) as [[|] s2] eqn:E2;
    [|discriminate].
  destruct (WriteAk09916Register AK09916_CNTL2_ AK09916_CNTL2_CONT_MEAS_MODE1_ s2)
    as [[|] s3] eqn:E3; [|discriminate].
  intros _. exists s1, s2. rewrite E2, E3. repeat split; reflexivity.
Qed.

End Facts.
End Icm20948Facts.

(** ** MPU-9250 *)

Module MPU9250Facts.
Import MPU9250.

Ltac unfold_mpu :=
  cbv beta iota zeta delta
    [begin setFilt writeRegister when bind ret gets modify on_wire
     set_accelScale set_gyroScale _address _accelScale _gyroScale wire fst snd].

(** Case analysis on the next string comparison with [s]. *)
Ltac string_case s :=
  repeat match goal with
  | |- context [String.eqb s ?l] => destruct (String.eqb s l)
  end.

Lemma mpu9250_accel_scale (a g : string) (st : t) (fs : Z) :
  accel_range_g a = Some fs ->
  _accelScale (snd (begin a g st)) = F64.div (F64.mul G (F64.of_Z fs)) F64.c32767_5.
Proof.
  unfold accel_range_g.
  destruct (String.eqb_spec a "2G") as [->|_];
    [|destruct (String.eqb_spec a "4G") as [->|_];
      [|destruct (String.eqb_spec a "8G") as [->|_];
        [|destruct (String.eqb_spec a "16G") as [->|_]; [|discriminate]]]];
    intros [= <-]; unfold_mpu; cbn [String.eqb Ascii.eqb Bool.eqb];
    string_case g; reflexivity.
Qed.

Lemma mpu9250_gyro_scale (a g : string) (st : t) (fs : Z) :
  gyro_range_dps g = Some fs ->
  _gyroScale (snd (begin a g st)) = F64.div (F64.of_Z fs) F64.c32767_5.
Proof.
  unfold gyro_range_dps.
  destruct (String.eqb_spec g "250DPS") as [->|_];
    [|destruct (String.eqb_spec g "500DPS") as [->|_];
      [|destruct (String.eqb_spec g "1000DPS") as [->|_];
        [|destruct (String.eqb_spec g "2000DPS") as [->|_]; [|discriminate]]]];
    intros [= <-]; unfold_mpu; cbn [String.eqb Ascii.eqb Bool.eqb];
    string_case a; reflexivity.
Qed.

(** With range strings it does not know, [begin] selects the clock source
    and does nothing else. *)
Lemma mpu9250_begin_unknown (a g : string) (st : t) :
  accel_range_g a = None -> gyro_range_dps g = None ->
  begin a g st =
    (tt, on_wire (Wire_transmission (_address st) [PWR_MGMNT_1; CLOCK_SEL_PLL])
           (on_wire Wire_begin st)).
Proof.
  unfold accel_range_g, gyro_range_dps. unfold_mpu.
  string_case a; try discriminate. string_case g; try discriminate.
  reflexivity.
Qed.

Lemma mpu9250_setFilt_srd (bandwidth : string) (frequency : Z) (st : t) :
  0 <= frequency < 256 ->
  (fst (setFilt bandwidth frequency st) = DivisionByZero <-> frequency = 0) /\
  (frequency <> 0 ->
   fst (setFilt bandwidth frequency st) = Returned /\
   exists pre,
     wire (snd (setFilt bandwidth frequency st)) =
       pre ++ [ Wire_transmission (_address st) [SMPDIV; (1000 / frequency - 1) mod 256];
                Wire_transmission (_address st) [INT_PIN_CFG; 0];
                Wire_transmission (_address st) [INT_ENABLE; 1] ]).
Proof.
  intros Hf. destruct st as [ad sa sg w]. unfold setFilt, int_div.
  destruct (Z.eqb_spec frequency 0) as [->|Hne].
  - unfold_mpu. cbn [Z.eqb]. string_case bandwidth; (split; [tauto | congruence]).
  - assert (Hq : Z.quot 1000 frequency = 1000 / frequency)
      by (apply Z.quot_div_nonneg; lia).
    unfold_mpu. string_case bandwidth; unfold_mpu; rewrite Hq; unfold u8;
      (split; [split; [discriminate | intros E; contradiction]|]);
      intros _; (split; [reflexivity|]);
      rewrite <- ?app_assoc; cbn [app];
      match goal with
      | |- exists pre, ?l = _ =>
          match l with
          | context C [ [Wire_transmission ad [SMPDIV; ?v]; ?e2; ?e3] ] =>
              let p := context C [ @nil WireEvent ] in
              exists p; rewrite <- ?app_assoc; cbn [app]; rewrite ?app_nil_r; reflexivity
          end
      end.
Qed.

End MPU9250Facts.

Import Icm20649Facts Icm20948Facts MPU9250Facts.

(** * The claims *)

(** C1 (the code departs from the claim).  The claim: [ConfigGyroRange]
    builds the byte for the gyro configuration register from the register
    contents and the gyro path's own staged range.  The code ORs in
    [requested_accel_range_ << 1].  Both drivers run here with the
    accelerometer range of integer value 3 staged by a preceding
    [ConfigAccelRange], then [ConfigGyroRange] with the gyro range of
    integer value 0, on a register that reads 0x00: the byte written to
    [GYRO_CONFIG_1_] is 0x06 (range field 3), not 0x00, while the committed
    range and scale are those of the requested gyro range. *)
Theorem C1_gyro_range_byte_uses_accel_stage :
  (let h := Icm20948.example_header in
   let st0 := Icm20948.example_object (T := scripted) [Ack; Data [0]; Ack; Data [0]; Ack] in
   let st1 := snd (Icm20948.ConfigAccelRange Icm20948.ACCEL_RANGE_16G st0) in
   let r := Icm20948.ConfigGyroRange Icm20948.GYRO_RANGE_250DPS st1 in
   Icm20948.GyroRange_int Icm20948.GYRO_RANGE_250DPS = 0 /\
   fst r = true /\
   last_event (Icm20948.bus_log (snd r)) = BusWrite Icm20948.GYRO_CONFIG_1_ 6 true /\
   Icm20948.gyro_range_ (Icm20948.config (snd r)) = Icm20948.GYRO_RANGE_250DPS /\
   Icm20948.gyro_scale_ (Icm20948.config (snd r)) = scale_factor 250) /\
  (let h := Icm20649.example_header in
   let st0 := Icm20649.example_object (T := scripted) [Ack; Data [0]; Ack; Data [0]; Ack] in
   let st1 := snd (Icm20649.ConfigAccelRange Icm20649.ACCEL_RANGE_30G st0) in
   let r := Icm20649.ConfigGyroRange Icm20649.GYRO_RANGE_500DPS st1 in
   Icm20649.GyroRange_int Icm20649.GYRO_RANGE_500DPS = 0 /\
   fst r = true /\
   last_event (Icm20649.bus_log (snd r)) = BusWrite Icm20649.GYRO_CONFIG_1_ 6 true /\
   Icm20649.gyro_range_ (Icm20649.config (snd r)) = Icm20649.GYRO_RANGE_500DPS /\
   Icm20649.gyro_scale_ (Icm20649.config (snd r)) = scale_factor 500).
Proof.
  cbv zeta. split; repeat split; vm_compute; reflexivity.
Qed.

(** C2, counterexample.  On a transport that acknowledges every call,
    [Icm20649::ConfigAccelRange(ACCEL_RANGE_30G)] succeeds and commits the
    scale factor 32.0f / 32767.5f, which is not 30.0f / 32767.5f. *)
Lemma C2_30G_commits_32_over_32767_5 :
  let h := Icm20649.example_header in
  let r := Icm20649.ConfigAccelRange Icm20649.ACCEL_RANGE_30G
             (Icm20649.example_object (T := scripted) [Ack; Data [0]; Ack]) in
  fst r = true /\
  Icm20649.accel_scale_ (Icm20649.config (snd r)) = scale_factor 32 /\
  Icm20649.accel_scale_ (Icm20649.config (snd r)) <>
    scale_factor (Icm20649.AccelRange_nominal Icm20649.ACCEL_RANGE_30G).
Proof.
  cbv zeta. repeat split; try (vm_compute; reflexivity).
  vm_compute. discriminate.
Qed.

(** C2, amended.  A successful range configuration of the ICM-20649 or
    ICM-20948 commits the requested range and the binary32 scale factor
    [full_scale / 32767.5f], where the full-scale value is the one the
    enumerator is named after, except that [ACCEL_RANGE_30G] uses 32.  The
    MPU-9250 [begin] sets, for a range string it knows, the binary64
    accelerometer scale [G * full_scale / 32767.5] and the gyro scale
    [full_scale / 32767.5]. *)
Theorem C2_committed_scale_factors :
  forall (T : Transport) (h9 : Icm20649.Header) (h8 : Icm20948.Header),
  (forall r (st st' : Icm20649.t T),
     Icm20649.ConfigAccelRange r st = (true, st') ->
     Icm20649.accel_range_ (Icm20649.config st') = r /\
     Icm20649.accel_scale_ (Icm20649.config st') =
       scale_factor (Icm20649.AccelRange_full_scale r)) /\
  (forall r (st st' : Icm20649.t T),
     Icm20649.ConfigGyroRange r st = (true, st') ->
     Icm20649.gyro_range_ (Icm20649.config st') = r /\
     Icm20649.gyro_scale_ (Icm20649.config st') =
       scale_factor (Icm20649.GyroRange_full_scale r)) /\
  (forall r (st st' : Icm20948.t T),
     Icm20948.ConfigAccelRange r st = (true, st') ->
     Icm20948.accel_range_ (Icm20948.config st') = r /\
     Icm20948.accel_scale_ (Icm20948.config st') =
       scale_factor (Icm20948.AccelRange_full_scale r)) /\
  (forall r (st st' : Icm20948.t T),
     Icm20948.ConfigGyroRange r st = (true, st') ->
     Icm20948.gyro_range_ (Icm20948.config st') = r /\
     Icm20948.gyro_scale_ (Icm20948.config st') =
       scale_factor (Icm20948.GyroRange_full_scale r)) /\
  (forall a g (st : MPU9250.t) fs,
     MPU9250.accel_range_g a = Some fs ->
     MPU9250._accelScale (snd (MPU9250.begin a g st)) =
       F64.div (F64.mul MPU9250.G (F64.of_Z fs)) F64.c32767_5) /\
  (forall a g (st : MPU9250.t) fs,
     MPU9250.gyro_range_dps g = Some fs ->
     MPU9250._gyroScale (snd (MPU9250.begin a g st)) =
       F64.div (F64.of_Z fs) F64.c32767_5).
Proof.
  intros T h9 h8. repeat split.
  - eapply icm20649_accel_scale; eassumption.
  - eapply icm20649_accel_scale; eassumption.
  - eapply icm20649_gyro_scale; eassumption.
  - eapply icm20649_gyro_scale; eassumption.
  - eapply icm20948_accel_scale; eassumption.
  - eapply icm20948_accel_scale; eassumption.
  - eapply icm20948_gyro_scale; eassumption.
  - eapply icm20948_gyro_scale; eassumption.
  - intros. apply mpu9250_accel_scale; assumption.
  - intros. apply mpu9250_gyro_scale; assumption.
Qed.

(** C2, witness: the 16G setting of the ICM-20948 on an acknowledging
    transport, and the string 4G of the MPU-9250. *)
Lemma C2_committed_scale_factors_witness :
  (let st := Icm20948.example_object (T := scripted) [Ack; Data [0]; Ack] in
   let st' := snd (Icm20948.ConfigAccelRange (h := Icm20948.example_header)
                     Icm20948.ACCEL_RANGE_16G st) in
   Icm20948.accel_range_ (Icm20948.config st') = Icm20948.ACCEL_RANGE_16G /\
   Icm20948.accel_scale_ (Icm20948.config st') = scale_factor 16) /\
  MPU9250._accelScale (snd (MPU9250.begin "4G" "250DPS" MPU9250.example_object)) =
    F64.div (F64.mul MPU9250.G (F64.of_Z 4)) F64.c32767_5.
Proof.
  destruct (C2_committed_scale_factors scripted Icm20649.example_header
              Icm20948.example_header) as (_ & _ & H3 & _ & H5 & _).
  split.
  - cbv zeta.
    apply (H3 Icm20948.ACCEL_RANGE_16G
             (Icm20948.example_object (T := scripted) [Ack; Data [0]; Ack])).
    vm_compute. reflexivity.
  - apply H5. reflexivity.
Defined.

(** C3, counterexample.  [Icm20649::ConfigAccelRange] called with a value
    outside the enumeration, on an object with bank 0 cached, returns
    failure after it has written the bank-select register: [SetBank(2)]
    comes before the [switch]. *)
Lemma C3_bank_select_precedes_validation :
  let h := Icm20649.example_header in
  let r := Icm20649.ConfigAccelRange (Icm20649.AccelRange_cast 7)
             (Icm20649.example_object (T := scripted) [Ack]) in
  fst r = false /\
  Icm20649.bus_log (snd r) = [BusWrite Icm20649.REG_BANK_SEL_ 0x20 true].
Proof.
  cbv zeta. split; vm_compute; reflexivity.
Qed.

(** C3, amended.  A configuration method called with a value outside its
    enumeration returns failure.  On the ICM-20948 it does nothing else:
    the object, transport and log included, is unchanged.  On the
    ICM-20649 it does what [SetBank(2)] does and nothing else: the
    committed and the staged configuration are unchanged, and the bus sees
    at most one write, to the bank-select register (none when bank 2 is
    cached).  The MPU-9250 [begin], given range strings it does not know,
    writes the clock-select register only and leaves both scale factors
    unchanged; it returns nothing. *)
Theorem C3_invalid_value_rejected :
  forall (T : Transport) (h9 : Icm20649.Header) (h8 : Icm20948.Header),
  (forall (st : Icm20948.t T) v,
     Icm20948.ConfigAccelRange (Icm20948.AccelRange_cast v) st = (false, st) /\
     Icm20948.ConfigGyroRange (Icm20948.GyroRange_cast v) st = (false, st) /\
     Icm20948.ConfigAccelDlpfBandwidth (Icm20948.AccelDlpfBandwidth_cast v) st = (false, st) /\
     Icm20948.ConfigGyroDlpfBandwidth (Icm20948.GyroDlpfBandwidth_cast v) st = (false, st) /\
     Icm20948.ConfigTempDlpfBandwidth (Icm20948.TempDlpfBandwidth_cast v) st = (false, st)) /\
  (forall (st : Icm20649.t T) v,
     let st1 := snd (Icm20649.SetBank 2 st) in
     Icm20649.ConfigAccelRange (Icm20649.AccelRange_cast v) st = (false, st1) /\
     Icm20649.ConfigGyroRange (Icm20649.GyroRange_cast v) st = (false, st1) /\
     Icm20649.ConfigAccelDlpfBandwidth (Icm20649.AccelDlpfBandwidth_cast v) st = (false, st1) /\
     Icm20649.ConfigGyroDlpfBandwidth (Icm20649.GyroDlpfBandwidth_cast v) st = (false, st1) /\
     Icm20649.config st1 = Icm20649.config st /\
     Icm20649.staged st1 = Icm20649.staged st /\
     (Icm20649.current_bank_ st = 2 -> st1 = st) /\
     (appended (Icm20649.bus_log st) (Icm20649.bus_log st1) = [] \/
      exists ack,
        appended (Icm20649.bus_log st) (Icm20649.bus_log st1) =
          [BusWrite Icm20649.REG_BANK_SEL_ (u8 (Z.shiftl 2 4)) ack])) /\
  (forall a g (st : MPU9250.t),
     MPU9250.accel_range_g a = None -> MPU9250.gyro_range_dps g = None ->
     let st' := snd (MPU9250.begin a g st) in
     MPU9250.wire st' =
       MPU9250.wire st ++
       [MPU9250.Wire_begin;
        MPU9250.Wire_transmission (MPU9250._address st)
          [MPU9250.PWR_MGMNT_1; MPU9250.CLOCK_SEL_PLL]] /\
     MPU9250._accelScale st' = MPU9250._accelScale st /\
     MPU9250._gyroScale st' = MPU9250._gyroScale st).
Proof.
  intros T h9 h8. split; [|split].
  - intros st v. destruct (icm20948_invalid_rejected st) as (H1 & H2 & H3 & H4 & H5).
    auto.
  - intros st v. cbv zeta.
    destruct (icm20649_invalid_rejected st) as (H1 & H2 & H3 & H4).
    destruct (icm20649_SetBank_frame 2 st) as (F1 & F2 & _).
    repeat split; auto.
    + intros E. rewrite icm20649_SetBank_cached by (symmetry; exact E). reflexivity.
    + apply icm20649_SetBank_log.
  - intros a g st Ha Hg. cbv zeta. rewrite (mpu9250_begin_unknown a g st Ha Hg).
    cbn. rewrite <- app_assoc. auto.
Qed.

(** C3, witness: the MPU-9250 [begin] with the strings 3G and 300DPS, and
    the ICM-20649 accelerometer range with bank 2 cached. *)
Lemma C3_invalid_value_rejected_witness :
  (let st' := snd (MPU9250.begin "3G" "300DPS" MPU9250.example_object) in
   MPU9250.wire st' =
     [MPU9250.Wire_begin; MPU9250.Wire_transmission 0x68 [0x6B; 0x01]] /\
   MPU9250._accelScale st' = S754_zero false /\
   MPU9250._gyroScale st' = S754_zero false) /\
  (let st := Icm20649.set_current_bank_ 2 (Icm20649.example_object (T := scripted) []) in
   snd (Icm20649.SetBank (h := Icm20649.example_header) 2 st) = st).
Proof.
  destruct (C3_invalid_value_rejected scripted Icm20649.example_header
              Icm20948.example_header) as (_ & H2 & H3).
  split.
  - apply (H3 "3G"%string "300DPS"%string MPU9250.example_object); reflexivity.
  - cbv zeta.
    apply (H2 (Icm20649.set_current_bank_ 2 (Icm20649.example_object (T := scripted) [])) 0).
    reflexivity.
Defined.

(** C4, counterexample.  On a transport that refuses the reset write to
    [PWR_MGMT_1_] and acknowledges everything else, [Icm20948::Begin]
    returns success: the result of the reset step is dropped. *)
Lemma C4_begin_succeeds_though_reset_failed :
  let h := Icm20948.example_header in
  let r := Icm20948.Begin (Icm20948.example_object (T := scripted) Examples.begin_script) in
  fst r = true /\
  nth 14 (Icm20948.bus_log (snd r)) BusBegin =
    BusWrite Icm20948.PWR_MGMT_1_ Icm20948.PWR_MGMT_1_RESET_ false.
Proof.
  cbv zeta. split; vm_compute; reflexivity.
Qed.

(** C4, amended.  [Begin] is the fail-fast run of its list of steps
    ([begin_steps]): it returns success exactly when every step has run
    and every checked step has returned success, and it returns failure
    exactly when some checked step returned failure after the steps before
    it had run, with nothing run after that step.  The checked steps are
    clock-source select, the I2C-master writes and both identity checks
    (ICM-20948), the bank select and identity check (ICM-20649), ODR
    alignment and the default range, filter and divider configuration; the
    steps whose result is dropped are the reset writes and the SPI-only
    interface write (and, in the ICM-20649, the [SetBank(2)] in front of
    the ODR alignment). *)
Theorem C4_begin_fail_fast_on_checked_steps :
  forall (T : Transport) (h9 : Icm20649.Header) (h8 : Icm20948.Header),
  (forall (st st' : Icm20948.t T),
     (Icm20948.Begin st = (true, st') <-> ran Icm20948.begin_steps st st') /\
     (Icm20948.Begin st = (false, st') <->
      exists pre m post s1,
        Icm20948.begin_steps = pre ++ Checked m :: post /\
        ran pre st s1 /\ m s1 = (false, st'))) /\
  (forall (st st' : Icm20649.t T),
     (Icm20649.Begin st = (true, st') <-> ran Icm20649.begin_steps st st') /\
     (Icm20649.Begin st = (false, st') <->
      exists pre m post s1,
        Icm20649.begin_steps = pre ++ Checked m :: post /\
        ran pre st s1 /\ m s1 = (false, st'))).
Proof.
  intros T h9 h8. split; intros st st'.
  - rewrite icm20948_Begin_steps. split.
    + apply run_steps_ran.
    + apply run_steps_stops.
  - rewrite icm20649_Begin_steps. split.
    + apply run_steps_ran.
    + apply run_steps_stops.
Qed.

(** C4, witness: an ICM-20649 whose WHO-AM-I register reads 0x00.  [Begin]
    returns failure at the identity check, and the identity read is the
    last thing on the bus. *)
Lemma C4_begin_fail_fast_on_checked_steps_witness :
  let h := Icm20649.example_header in
  let st := Icm20649.example_object (T := scripted) [Ack; Data [0x00]; Ack; Ack] in
  exists st',
    Icm20649.Begin st = (false, st') /\
    last_event (Icm20649.bus_log st') = BusRead Icm20649.WHO_AM_I_ 1 (Some [0x00]) /\
    Icm20649.imu_ st' = [Ack; Ack].
Proof.
  cbv zeta. eexists. split.
  - apply (C4_begin_fail_fast_on_checked_steps scripted Icm20649.example_header
             Icm20948.example_header).
    exists (firstn 7 (Icm20649.begin_steps (h := Icm20649.example_header))).
    eexists. exists (skipn 8 (Icm20649.begin_steps (h := Icm20649.example_header))).
    eexists. split; [reflexivity|]. split.
    + cbn [firstn Icm20649.begin_steps ran]. repeat split; reflexivity.
    + reflexivity.
  - split; reflexivity.
Defined.

(** C5 (the code departs from the claim).  The claim: a transport failure
    of the burst read inside [Read] makes [Read] return false.  Both
    drivers run here on a transport whose status read answers 0x01 (data
    ready) and whose burst read then fails: [Read] returns true, reports
    new data, and publishes counts unpacked from what the buffer held,
    which is the status byte followed by stale bytes. *)
Theorem C5_read_ignores_burst_failure :
  (let h := Icm20948.example_header in
   let r := Icm20948.Read (Icm20948.example_object (T := scripted) [Data [1]; Nak]) in
   fst r = true /\
   Icm20948.bus_log (snd r) =
     [BusRead Icm20948.INT_STATUS_1_ 1 (Some [1]);
      BusRead Icm20948.ACCEL_XOUT_H Icm20948.sizeof_data_buf_ None] /\
   Icm20948.new_imu_data_ (Icm20948.sample (snd r)) = true /\
   Icm20948.accel_cnts_ (Icm20948.sample (snd r)) = (256, 0, 0)) /\
  (let h := Icm20649.example_header in
   let r := Icm20649.Read (Icm20649.example_object (T := scripted) [Data [1]; Nak]) in
   fst r = true /\
   Icm20649.bus_log (snd r) =
     [BusRead Icm20649.INT_STATUS_1_ 1 (Some [1]);
      BusRead Icm20649.ACCEL_XOUT_H 14 None] /\
   Icm20649.new_imu_data_ (Icm20649.sample (snd r)) = true /\
   Icm20649.accel_cnts_ (Icm20649.sample (snd r)) = (256, 0, 0)).
Proof.
  cbv zeta. split; repeat split; vm_compute; reflexivity.
Qed.

(** C6, counterexample.  [MPU9250::setFilt] writes each configuration
    register as a whole, without reading it.  On a device whose [CONFIG]
    register holds 0x40, [setFilt("184HZ", 100)] leaves 0x01 in it: bit 6,
    which is outside the filter field (bits 0 to 2), has changed. *)
Lemma C6_setFilt_overwrites_whole_register :
  let r := MPU9250.setFilt "184HZ" 100 MPU9250.example_object in
  let regs := MPU9250.device_after (MPU9250.wire (snd r)) Examples.mpu_regs in
  MPU9250.wire (snd r) =
    [MPU9250.Wire_transmission 0x68 [MPU9250.ACCEL_CONFIG2; MPU9250.ACCEL_DLPF_184];
     MPU9250.Wire_transmission 0x68 [MPU9250.CONFIG; MPU9250.GYRO_DLPF_184];
     MPU9250.Wire_transmission 0x68 [MPU9250.SMPDIV; 9];
     MPU9250.Wire_transmission 0x68 [MPU9250.INT_PIN_CFG; 0];
     MPU9250.Wire_transmission 0x68 [MPU9250.INT_ENABLE; 1]] /\
  Examples.mpu_regs MPU9250.CONFIG = 0x40 /\
  regs MPU9250.CONFIG = 0x01 /\
  Z.testbit (Examples.mpu_regs MPU9250.CONFIG) 6 = true /\
  Z.testbit (regs MPU9250.CONFIG) 6 = false.
Proof.
  cbv zeta. repeat split; vm_compute; reflexivity.
Qed.

(** C6, amended.  For the accelerometer and gyroscope range and filter
    updates of the ICM-20649 and the ICM-20948, which read the register,
    patch the byte and write it back: when the update succeeds, the last
    bus event is the write of a byte that agrees with the byte the read
    left in [data_buf_[0]] at every bit outside the field, the field being
    bits 1 and 2 (mask 0x06) for a range and bits 3 to 5 with the enable
    bit 0 (mask 0x39) for a filter, provided the value shifted into the
    field fits it (the integer values of the enumerators; for the gyro
    range, the value the code shifts in).  The temperature filter update
    of the ICM-20948 reads nothing and writes the whole register.  (The
    MPU-9250 writes whole registers too.) *)
Theorem C6_field_update_preserves_other_bits :
  forall (T : Transport) (h9 : Icm20649.Header) (h8 : Icm20948.Header),
  (Icm20948.fields_fit = true ->
   forall (st st' : Icm20948.t T),
     (forall r, Icm20948.ConfigAccelRange r st = (true, st') ->
        exists w,
          last_event (Icm20948.bus_log st') = BusWrite Icm20948.ACCEL_CONFIG_ w true /\
          same_outside 0x06 (Icm20948.byte_read Icm20948.ACCEL_CONFIG_ 1 st) w) /\
     (forall d, Icm20948.ConfigAccelDlpfBandwidth d st = (true, st') ->
        exists w,
          last_event (Icm20948.bus_log st') = BusWrite Icm20948.ACCEL_CONFIG_ w true /\
          same_outside 0x39 (Icm20948.byte_read Icm20948.ACCEL_CONFIG_ 1 st) w) /\
     (forall d, Icm20948.ConfigGyroDlpfBandwidth d st = (true, st') ->
        exists w,
          last_event (Icm20948.bus_log st') = BusWrite Icm20948.GYRO_CONFIG_1_ w true /\
          same_outside 0x39
            (Icm20948.byte_read Icm20948.GYRO_CONFIG_1_ Icm20948.sizeof_data_buf_ st) w)) /\
  (forall (st st' : Icm20948.t T) r,
     range_fits (Icm20948.AccelRange_int
                   (Icm20948.requested_accel_range_ (Icm20948.staged st))) = true ->
     Icm20948.ConfigGyroRange r st = (true, st') ->
     exists w,
       last_event (Icm20948.bus_log st') = BusWrite Icm20948.GYRO_CONFIG_1_ w true /\
       same_outside 0x06 (Icm20948.byte_read Icm20948.GYRO_CONFIG_1_ 1 st) w) /\
  (forall (st : Icm20948.t T) d,
     let r := Icm20948.ConfigTempDlpfBandwidth d st in
     forallb (fun e => negb (is_read e))
       (appended (Icm20948.bus_log st) (Icm20948.bus_log (snd r))) = true /\
     (fst r = true ->
      last_event (Icm20948.bus_log (snd r)) =
        BusWrite Icm20948.TEMP_CONFIG_ (u8 (Icm20948.TempDlpfBandwidth_int d)) true)) /\
  (Icm20649.fields_fit = true ->
   forall (st st' : Icm20649.t T),
     (forall r, Icm20649.ConfigAccelRange r st = (true, st') ->
        exists w,
          last_event (Icm20649.bus_log st') = BusWrite Icm20649.ACCEL_CONFIG_ w true /\
          same_outside 0x06 (Icm20649.byte_read Icm20649.ACCEL_CONFIG_ 1 st) w) /\
     (forall d, Icm20649.ConfigAccelDlpfBandwidth d st = (true, st') ->
        exists w,
          last_event (Icm20649.bus_log st') = BusWrite Icm20649.ACCEL_CONFIG_ w true /\
          same_outside 0x39 (Icm20649.byte_read Icm20649.ACCEL_CONFIG_ 1 st) w) /\
     (forall d, Icm20649.ConfigGyroDlpfBandwidth d st = (true, st') ->
        exists w,
          last_event (Icm20649.bus_log st') = BusWrite Icm20649.GYRO_CONFIG_1_ w true /\
          same_outside 0x39
            (Icm20649.byte_read Icm20649.GYRO_CONFIG_1_ Icm20649.sizeof_data_buf_ st) w)) /\
  (forall (st st' : Icm20649.t T) r,
     range_fits (Icm20649.AccelRange_int
                   (Icm20649.requested_accel_range_ (Icm20649.staged st))) = true ->
     Icm20649.ConfigGyroRange r st = (true, st') ->
     exists w,
       last_event (Icm20649.bus_log st') = BusWrite Icm20649.GYRO_CONFIG_1_ w true /\
       same_outside 0x06 (Icm20649.byte_read Icm20649.GYRO_CONFIG_1_ 1 st) w).
Proof.
  intros T h9 h8. repeat apply conj.
  - intros Hfit st st'. repeat split; intros x Hx.
    + exact (icm20948_accel_range_frame x st st' Hfit Hx).
    + exact (icm20948_accel_dlpf_frame x st st' Hfit Hx).
    + exact (icm20948_gyro_dlpf_frame x st st' Hfit Hx).
  - intros st st' r Hfit Hr. exact (icm20948_gyro_range_frame r st st' Hfit Hr).
  - intros st d. cbv zeta. apply icm20948_temp_dlpf_blind.
  - intros Hfit st st'. repeat split; intros x Hx.
    + exact (icm20649_accel_range_frame x st st' Hfit Hx).
    + exact (icm20649_accel_dlpf_frame x st st' Hfit Hx).
    + exact (icm20649_gyro_dlpf_frame x st st' Hfit Hx).
  - intros st st' r Hfit Hr. exact (icm20649_gyro_range_frame r st st' Hfit Hr).
Qed.

(** C6, witness: on the ICM-20948, the accelerometer filter update on a
    register that reads 0x06 (range field 3) writes a byte that keeps
    bits 1 and 2. *)
Lemma C6_field_update_preserves_other_bits_witness :
  let st := Icm20948.example_object (T := scripted) [Ack; Data [0x06]; Ack] in
  let st' := snd (Icm20948.ConfigAccelDlpfBandwidth (h := Icm20948.example_header)
                    Icm20948.ACCEL_DLPF_BANDWIDTH_111HZ st) in
  exists w,
    last_event (Icm20948.bus_log st') = BusWrite 0x14 w true /\
    same_outside 0x39 0x06 w.
Proof.
  cbv zeta.
  destruct (C6_field_update_preserves_other_bits scripted Icm20649.example_header
              Icm20948.example_header) as (H1 & _).
  specialize (H1 eq_refl).
  destruct (H1 (Icm20948.example_object (T := scripted) [Ack; Data [0x06]; Ack])
               (snd (Icm20948.ConfigAccelDlpfBandwidth (h := Icm20948.example_header)
                       Icm20948.ACCEL_DLPF_BANDWIDTH_111HZ
                       (Icm20948.example_object (T := scripted) [Ack; Data [0x06]; Ack]))))
    as (_ & H & _).
  apply (H Icm20948.ACCEL_DLPF_BANDWIDTH_111HZ). vm_compute. reflexivity.
Defined.

(** C7.  Bank selection.  [Icm20649::SetBank(bank)]: with [bank] cached
    it returns success and changes nothing (no bus call); otherwise it
    issues exactly one write, of [bank << 4] to the bank-select register,
    returns what the transport answered, and caches [bank] on success and
    keeps the cached bank on failure; a second select of the same bank
    after a successful one issues nothing, so the two together put exactly
    one write on the bus.  [Icm20948::WriteRegister] and [ReadRegisters]
    do the same in front of their own bus call: no bank-select write when
    the bank is cached; otherwise one bank-select write, then the access
    with the bank cached if it succeeded, and failure with the cached bank
    unchanged and no access if it failed.  Hence, on a transport that
    acknowledges every write, a sequence of bank selections puts exactly
    one write on the bus per change of bank, and a sequence of register
    writes one write per access plus one per change of bank. *)
Theorem C7_bank_select_only_on_change :
  forall (T : Transport) (h9 : Icm20649.Header) (h8 : Icm20948.Header),
  (forall (bank : Z) (st : Icm20649.t T),
     let r := Icm20649.SetBank bank st in
     let sel := BusWrite Icm20649.REG_BANK_SEL_ (u8 (Z.shiftl bank 4)) in
     (bank = Icm20649.current_bank_ st -> r = (true, st)) /\
     (bank <> Icm20649.current_bank_ st ->
      exists ack,
        Icm20649.bus_log (snd r) = Icm20649.bus_log st ++ [sel ack] /\
        fst r = ack /\
        Icm20649.current_bank_ (snd r) =
          (if ack then bank else Icm20649.current_bank_ st)) /\
     (bank <> Icm20649.current_bank_ st -> fst r = true ->
      Icm20649.SetBank bank (snd r) = (true, snd r) /\
      Icm20649.bus_log (snd (Icm20649.SetBank bank (snd r))) =
        Icm20649.bus_log st ++ [sel true])) /\
  (forall (bank reg data : Z) (st : Icm20948.t T),
     let r := Icm20948.WriteRegister bank reg data st in
     let sel := BusWrite Icm20948.REG_BANK_SEL_ (u8 (Z.shiftl bank 4)) in
     (bank = Icm20948.current_bank_ st ->
      Icm20948.bus_log (snd r) = Icm20948.bus_log st ++ [BusWrite reg data (fst r)] /\
      Icm20948.current_bank_ (snd r) = Icm20948.current_bank_ st) /\
     (bank <> Icm20948.current_bank_ st ->
      (Icm20948.bus_log (snd r) =
         Icm20948.bus_log st ++ [sel true; BusWrite reg data (fst r)] /\
       Icm20948.current_bank_ (snd r) = bank) \/
      (Icm20948.bus_log (snd r) = Icm20948.bus_log st ++ [sel false] /\
       Icm20948.current_bank_ (snd r) = Icm20948.current_bank_ st /\
       fst r = false))) /\
  (forall (bank reg count : Z) (dst : Icm20948.Dest) (st : Icm20948.t T),
     let r := Icm20948.ReadRegisters bank reg count dst st in
     let sel := BusWrite Icm20948.REG_BANK_SEL_ (u8 (Z.shiftl bank 4)) in
     (bank = Icm20948.current_bank_ st ->
      exists reply,
        Icm20948.bus_log (snd r) = Icm20948.bus_log st ++ [BusRead reg count reply] /\
        fst r = ev_ok (BusRead reg count reply) /\
        Icm20948.current_bank_ (snd r) = Icm20948.current_bank_ st) /\
     (bank <> Icm20948.current_bank_ st ->
      (exists reply,
         Icm20948.bus_log (snd r) =
           Icm20948.bus_log st ++ [sel true; BusRead reg count reply] /\
         fst r = ev_ok (BusRead reg count reply) /\
         Icm20948.current_bank_ (snd r) = bank) \/
      (Icm20948.bus_log (snd r) = Icm20948.bus_log st ++ [sel false] /\
       Icm20948.current_bank_ (snd r) = Icm20948.current_bank_ st /\
       fst r = false))) /\
  (acknowledges T ->
   forall (banks : list Z) (st : Icm20649.t T),
     length (Icm20649.bus_log (snd (Icm20649.SetBank_each banks st))) =
       (length (Icm20649.bus_log st) +
        bank_changes (Icm20649.current_bank_ st) banks)%nat) /\
  (acknowledges T ->
   forall (ws : list (Z * Z * Z)) (st : Icm20948.t T),
     length (Icm20948.bus_log (snd (Icm20948.WriteRegister_each ws st))) =
       (length (Icm20948.bus_log st) + length ws +
        bank_changes (Icm20948.current_bank_ st) (map (fun w => fst (fst w)) ws))%nat).
Proof.
  intros T h9 h8. split; [|split; [|split; [|split]]].
  - intros bank st. cbv zeta. split; [|split].
    + apply icm20649_SetBank_cached.
    + apply icm20649_SetBank_switch.
    + intros Hne Hok.
      destruct (icm20649_SetBank_switch bank st Hne) as (ack & Hlog & Hack & Hcur).
      rewrite Hok in Hack. subst ack.
      rewrite icm20649_SetBank_cached by (symmetry; exact Hcur).
      split; [reflexivity | exact Hlog].
  - intros bank reg data st. cbv zeta. split.
    + apply icm20948_WriteRegister_cached.
    + apply icm20948_WriteRegister_switch.
  - intros bank reg count dst st. cbv zeta. split.
    + apply icm20948_ReadRegisters_cached.
    + apply icm20948_ReadRegisters_switch.
  - intros Hack banks st. apply icm20649_SetBank_each_count. exact Hack.
  - intros Hack ws st. apply icm20948_WriteRegister_each_count. exact Hack.
Qed.

(** C7, witness: selecting bank 2 twice on an ICM-20649 with bank 0
    cached puts one write on the bus; selecting banks 2, 2, 0, 0, 2 in a
    row puts three. *)
Lemma C7_bank_select_only_on_change_witness :
  (let h := Icm20649.example_header in
   let st := Icm20649.example_object (T := scripted) [Ack; Ack] in
   let r := Icm20649.SetBank 2 st in
   Icm20649.SetBank 2 (snd r) = (true, snd r) /\
   Icm20649.bus_log (snd (Icm20649.SetBank 2 (snd r))) = [BusWrite 0x7F 0x20 true]) /\
  (let h := Icm20649.example_header in
   let st := Icm20649.example_object (T := acking) tt in
   length (Icm20649.bus_log (snd (Icm20649.SetBank_each [2; 2; 0; 0; 2] st))) =
     (length (Icm20649.bus_log st) + 3)%nat).
Proof.
  cbv zeta. split.
  - destruct (C7_bank_select_only_on_change scripted Icm20649.example_header
                Icm20948.example_header) as (H & _).
    destruct (H 2 (Icm20649.example_object (T := scripted) [Ack; Ack])) as (_ & _ & H2).
    apply H2.
    + vm_compute. discriminate.
    + reflexivity.
  - destruct (C7_bank_select_only_on_change acking Icm20649.example_header
                Icm20948.example_header) as (_ & _ & _ & H & _).
    apply (H (fun _ _ _ => eq_refl) [2; 2; 0; 0; 2]
             (Icm20649.example_object (T := acking) tt)).
Defined.

(** C8.  A successful [Icm20948::Read] whose burst read was answered
    with the bytes [reply], into a data buffer of twenty-three bytes.
    The magnetometer's status 1 byte is byte 14 of the reply and its
    status 2 byte is byte 22.  The new-magnetometer-data flag is true
    exactly when the data-ready bit of status 1 is set and the overflow
    bit of status 2 is clear; the overflow flag is true exactly when
    that overflow bit is set.  When the new-data flag is false the scaled
    magnetometer values are the ones the object held before the call;
    when it is true they are the counts of the reply (bytes 15 to 20, low
    byte first) scaled.  (A [Read] whose burst read failed also returns
    [true]: that is the subject of C5.) *)
Theorem C8_mag_data_valid_iff_ready_and_no_overflow :
  forall (T : Transport) (h : Icm20948.Header) (st st' : Icm20948.t T)
         (reply : list Z),
    Icm20948.sizeof_data_buf_ = 23 ->
    Icm20948.Read st = (true, st') ->
    last_event (Icm20948.bus_log st') =
      BusRead Icm20948.ACCEL_XOUT_H Icm20948.sizeof_data_buf_ (Some reply) ->
    let byte := fun i : nat => u8 (nth i reply 0) in
    let f := F32.of_Z in
    (Icm20948.new_mag_data_ (Icm20948.sample st') = true <->
       Z.land (byte 14%nat) Icm20948.AK09916_ST1_DRDY_ <> 0 /\
       Z.land (byte 22%nat) Icm20948.AK09916_ST2_HOFL_ = 0) /\
    (Icm20948.mag_sensor_overflow_ (Icm20948.sample st') = true <->
       Z.land (byte 22%nat) Icm20948.AK09916_ST2_HOFL_ <> 0) /\
    (Icm20948.new_mag_data_ (Icm20948.sample st') = false ->
       Icm20948.mag_ (Icm20948.sample st') = Icm20948.mag_ (Icm20948.sample st)) /\
    (Icm20948.new_mag_data_ (Icm20948.sample st') = true ->
       Icm20948.mag_ (Icm20948.sample st') =
         (F32.mul F32.m1
            (F32.mul (f (unpack16 (byte 18%nat) (byte 17%nat))) Icm20948.MAG_SCALE_),
          F32.mul (f (unpack16 (byte 16%nat) (byte 15%nat))) Icm20948.MAG_SCALE_,
          F32.mul (f (unpack16 (byte 20%nat) (byte 19%nat))) Icm20948.MAG_SCALE_)).
Proof.
  intros T h st st' reply Hsz H Hlast.
  exact (icm20948_Read_mag_reply st st' reply Hsz H Hlast).
Qed.

(** C8, witness: a burst whose magnetometer status bytes have data-ready
    set and overflow set too.  The new-data flag is false, the overflow
    flag is true, and the scaled magnetometer values are those of
    before. *)
Lemma C8_mag_data_valid_iff_ready_and_no_overflow_witness :
  let h := Icm20948.example_header in
  let reply := Examples.burst 0x01 0x08 in
  let st := Icm20948.example_object (T := scripted) [Data [1]; Data reply] in
  let st' := snd (Icm20948.Read st) in
  Icm20948.new_mag_data_ (Icm20948.sample st') = false /\
  Icm20948.mag_sensor_overflow_ (Icm20948.sample st') = true /\
  Icm20948.mag_ (Icm20948.sample st') = Icm20948.mag_ (Icm20948.sample st).
Proof.
  intros h reply st st'.
  assert (R : Icm20948.Read st = (true, st')) by (vm_compute; reflexivity).
  assert (L : last_event (Icm20948.bus_log st') =
                BusRead Icm20948.ACCEL_XOUT_H Icm20948.sizeof_data_buf_ (Some reply))
    by (vm_compute; reflexivity).
  pose proof (C8_mag_data_valid_iff_ready_and_no_overflow
                scripted h st st' reply eq_refl R L) as C.
  cbv zeta in C. destruct C as (Hiff & Hov & Hkeep & _).
  assert (Hf : Icm20948.new_mag_data_ (Icm20948.sample st') = false).
  { destruct (Icm20948.new_mag_data_ (Icm20948.sample st')); [|reflexivity].
    destruct Hiff as [Hiff _]. destruct (Hiff eq_refl) as [_ H2].
    vm_compute in H2. discriminate H2. }
  split; [exact Hf | split; [|exact (Hkeep Hf)]].
  apply Hov. vm_compute. discriminate.
Defined.

(** C9.  The indirect write to the magnetometer.  If
    [WriteAk09916Register] returns success then every bus call it made
    succeeded.  If every bus call it made succeeded, then it made one
    attempt (the traffic is [indirect_write_traffic]: the four writes that
    send the byte once, then the three writes and the read that fetch it
    back, with bank selects where the cached bank differs), and it returns
    success if and only if the byte read back equals the byte sent.  The
    call that triggers the write, [ConfigSrd], succeeds only if the
    indirect write returns success. *)
Theorem C9_indirect_write_verified_by_read_back :
  forall (T : Transport) (h : Icm20948.Header),
  (forall (reg data : Z) (st : Icm20948.t T),
     let r := Icm20948.WriteAk09916Register reg data st in
     let traffic := appended (Icm20948.bus_log st) (Icm20948.bus_log (snd r)) in
     (fst r = true -> forallb ev_ok traffic = true) /\
     (forallb ev_ok traffic = true ->
      exists reply,
        traffic =
          Icm20948.indirect_write_traffic (Icm20948.current_bank_ st) reg data reply /\
        Icm20948.ret_val (snd r) = u8 (nth 0 reply 0) /\
        fst r = (data =? u8 (nth 0 reply 0)))) /\
  (forall (srd : Z) (st : Icm20948.t T),
     fst (Icm20948.ConfigSrd srd st) = true ->
     exists s1 s2,
       Icm20948.WriteRegister Icm20948.BANK_2_ Icm20948.ACCEL_SMPLRT_DIV_2_ srd st =
         (true, s1) /\
       Icm20948.WriteRegister Icm20948.BANK_2_ Icm20948.GYRO_SMPLRT_DIV_ srd s1 =
         (true, s2) /\
       fst (Icm20948.WriteAk09916Register Icm20948.AK09916_CNTL2_
              Icm20948.AK09916_CNTL2_CONT_MEAS_MODE1_ s2) = true).
Proof.
  intros T h. split.
  - intros reg data st. cbv zeta. split.
    + apply icm20948_WriteAk_success.
    + apply icm20948_WriteAk_traffic.
  - intros srd st. apply icm20948_ConfigSrd_indirect_write.
Qed.

(** C9, witness: the magnetometer answers 0x00 to the read-back of a
    write of 0x02; the call returns failure after a single attempt. *)
Lemma C9_indirect_write_verified_by_read_back_witness :
  let h := Icm20948.example_header in
  let st := Icm20948.example_object (T := scripted) (repeat Ack 9 ++ [Data [0]]) in
  let r := Icm20948.WriteAk09916Register Icm20948.AK09916_CNTL2_ 0x02 st in
  exists reply,
    appended (Icm20948.bus_log st) (Icm20948.bus_log (snd r)) =
      Icm20948.indirect_write_traffic 0 Icm20948.AK09916_CNTL2_ 0x02 reply /\
    Icm20948.ret_val (snd r) = u8 (nth 0 reply 0) /\
    fst r = (0x02 =? u8 (nth 0 reply 0)).
Proof.
  cbv zeta.
  destruct (C9_indirect_write_verified_by_read_back scripted Icm20948.example_header)
    as (H & _).
  apply H. vm_compute. reflexivity.
Defined.

(** C10.  [MPU9250::setFilt] divides 1000 by the frequency byte without a
    guard.  For a byte [frequency], the call ends at the division by zero
    exactly when [frequency] is 0; otherwise it returns, and the byte it
    writes to [SMPDIV] is [1000 / frequency - 1] truncated to 8 bits,
    followed by the two interrupt register writes. *)
Theorem C10_setFilt_divides_by_frequency :
  forall (bandwidth : string) (frequency : Z) (st : MPU9250.t),
    0 <= frequency < 256 ->
    (fst (MPU9250.setFilt bandwidth frequency st) = MPU9250.DivisionByZero <->
     frequency = 0) /\
    (frequency <> 0 ->
     fst (MPU9250.setFilt bandwidth frequency st) = MPU9250.Returned /\
     exists pre,
       MPU9250.wire (snd (MPU9250.setFilt bandwidth frequency st)) =
         pre ++
         [ MPU9250.Wire_transmission (MPU9250._address st)
             [MPU9250.SMPDIV; (1000 / frequency - 1) mod 256];
           MPU9250.Wire_transmission (MPU9250._address st) [MPU9250.INT_PIN_CFG; 0];
           MPU9250.Wire_transmission (MPU9250._address st) [MPU9250.INT_ENABLE; 1] ]).
Proof.
  intros bandwidth frequency st Hf. exact (mpu9250_setFilt_srd bandwidth frequency st Hf).
Qed.

(** C10, witness: the frequency 0 reaches the division by zero, and the
    frequency 1 returns with 999 truncated to 8 bits in [SMPDIV]. *)
Lemma C10_setFilt_divides_by_frequency_witness :
  (fst (MPU9250.setFilt "41HZ" 0 MPU9250.example_object) = MPU9250.DivisionByZero <->
   0 = 0) /\
  (fst (MPU9250.setFilt "41HZ" 1 MPU9250.example_object) = MPU9250.Returned /\
   exists pre,
     MPU9250.wire (snd (MPU9250.setFilt "41HZ" 1 MPU9250.example_object)) =
       pre ++
       [ MPU9250.Wire_transmission 0x68 [MPU9250.SMPDIV; (1000 / 1 - 1) mod 256];
         MPU9250.Wire_transmission 0x68 [MPU9250.INT_PIN_CFG; 0];
         MPU9250.Wire_transmission 0x68 [MPU9250.INT_ENABLE; 1] ]).
Proof.
  split.
  - apply (C10_setFilt_divides_by_frequency "41HZ"%string 0 MPU9250.example_object).
    lia.
  - apply (C10_setFilt_divides_by_frequency "41HZ"%string 1 MPU9250.example_object).
    + lia.
    + discriminate.
Defined.

(** * Lemmas for the further properties *)

(** ** Sixteen-bit words *)

Lemma lor_shiftl8 (hi lo : Z) :
  0 <= lo < 256 -> Z.lor (Z.shiftl hi 8) lo = hi * 256 + lo.
Proof.
  intros Hlo. rewrite Z.shiftl_mul_pow2 by lia. change (2 ^ 8) with 256.
  rewrite <- Z.lxor_lor, <- Z.add_nocarry_lxor; try reflexivity;
    apply Z.bits_inj'; intros i Hi; rewrite Z.land_spec, Z.bits_0;
    destruct (Z.lt_ge_cases i 8) as [Hlt|Hge].
  - change 256 with (2 ^ 8). rewrite Z.mul_pow2_bits_low by lia. reflexivity.
  - rewrite (small_testbit lo 8) by (change (2 ^ 8) with 256; lia).
    apply andb_false_r.
  - change 256 with (2 ^ 8). rewrite Z.mul_pow2_bits_low by lia. reflexivity.
  - rewrite (small_testbit lo 8) by (change (2 ^ 8) with 256; lia).
    apply andb_false_r.
Qed.

Lemma hi_byte_range (v : Z) : 0 <= hi_byte v < 256.
Proof.
  unfold hi_byte, u16. pose proof (Z.mod_pos_bound v 65536 eq_refl).
  split; [apply Z.div_pos; lia | apply Z.div_lt_upper_bound; lia].
Qed.

Lemma lo_byte_range (v : Z) : 0 <= lo_byte v < 256.
Proof. unfold lo_byte. apply Z.mod_pos_bound. reflexivity. Qed.

Lemma hi_lo_byte (v : Z) : hi_byte v * 256 + lo_byte v = u16 v.
Proof.
  unfold hi_byte, lo_byte, u16.
  replace (v mod 256) with ((v mod 65536) mod 256).
  - pose proof (Z.div_mod (v mod 65536) 256). lia.
  - change 65536 with (256 * 256). rewrite Z.rem_mul_r by lia.
    rewrite Z.mul_comm, Z.mod_add by lia. apply Z.mod_mod. lia.
Qed.

Lemma u8_byte (b : Z) : 0 <= b < 256 -> u8 b = b.
Proof. intros H. unfold u8. apply Z.mod_small. exact H. Qed.

Lemma is_int16_range (v : Z) : is_int16 v = true <-> -32768 <= v < 32768.
Proof. unfold is_int16. rewrite andb_true_iff, Z.leb_le, Z.ltb_lt. tauto. Qed.

(** Unpacking inverts the sensor's two-byte encoding. *)
Lemma unpack16_bytes (v : Z) :
  is_int16 v = true -> unpack16 (u8 (hi_byte v)) (u8 (lo_byte v)) = v.
Proof.
  intros Hv. apply is_int16_range in Hv.
  rewrite !u8_byte by (apply hi_byte_range || apply lo_byte_range).
  unfold unpack16. rewrite lor_shiftl8 by apply lo_byte_range.
  rewrite hi_lo_byte. unfold i16, u16.
  rewrite Z.add_mod_idemp_l by lia.
  rewrite Z.mod_small by lia. lia.
Qed.

(** The sign of an unpacked word is bit 7 of its high byte. *)
Lemma unpack16_closed (hi lo : Z) :
  0 <= hi < 256 -> 0 <= lo < 256 ->
  unpack16 hi lo = hi * 256 + lo - (if hi <? 128 then 0 else 65536).
Proof.
  intros Hh Hl. unfold unpack16. rewrite lor_shiftl8 by exact Hl. unfold i16.
  destruct (Z.ltb_spec hi 128).
  - rewrite Z.mod_small by lia. lia.
  - replace (hi * 256 + lo + 32768) with (hi * 256 + lo - 32768 + 1 * 65536) by lia.
    rewrite Z.mod_add by lia. rewrite Z.mod_small by lia. lia.
Qed.

Lemma to_bool_false (x : Z) : to_bool x = false <-> x = 0.
Proof. unfold to_bool. rewrite negb_false_iff. apply Z.eqb_eq. Qed.

(** ** Fail-fast sequences *)

Lemma ran_app {S : Type} (l1 l2 : list (Step S)) (s s' : S) :
  ran (l1 ++ l2) s s' <-> exists s1, ran l1 s s1 /\ ran l2 s1 s'.
Proof.
  revert s. induction l1 as [|[m|A m] l1 IH]; intros s; cbn [app ran].
  - split; [intros H; exists s; auto | intros (s1 & -> & H); exact H].
  - rewrite IH. split.
    + intros (H & s1 & H1 & H2). exists s1. auto.
    + intros (s1 & (H & H1) & H2). split; [exact H | exists s1; auto].
  - apply IH.
Qed.

(** The steps from the [n]-th on ran from some state the first [n] steps
    had led to. *)
Lemma ran_from {S : Type} (n : nat) (l : list (Step S)) (s s' : S) :
  ran l s s' -> exists s1, ran (firstn n l) s s1 /\ ran (skipn n l) s1 s'.
Proof. rewrite <- (firstn_skipn n l) at 1. apply ran_app. Qed.

(** ** Invariants of monadic code *)

Section Preserves.
Context {S : Type} (I : S -> Prop).

Lemma preserves_ret {A : Type} (a : A) : preserves I (ret a).
Proof. intros s Hs. exact Hs. Qed.

Lemma preserves_gets {A : Type} (f : S -> A) : preserves I (gets f).
Proof. intros s Hs. exact Hs. Qed.

Lemma preserves_modify (f : S -> S) :
  (forall s, I s -> I (f s)) -> preserves I (modify f).
Proof. intros H s Hs. apply H. exact Hs. Qed.

Lemma preserves_bind {A B : Type} (m : M S A) (k : A -> M S B) :
  preserves I m -> (forall a, preserves I (k a)) -> preserves I (bind m k).
Proof.
  intros Hm Hk s Hs. unfold bind. specialize (Hm s Hs).
  destruct (m s) as [a s1]. apply Hk. exact Hm.
Qed.

Lemma preserves_if {A : Type} (c : bool) (m1 m2 : M S A) :
  preserves I m1 -> preserves I m2 -> preserves I (if c then m1 else m2).
Proof. destruct c; auto. Qed.

End Preserves.

(** ** The bank-select register as the log shows it *)

Lemma selected_snoc (sel : Z) (log : list BusEvent) (e : BusEvent) :
  selected sel (log ++ [e]) =
    match e with
    | BusWrite r d true => if r =? sel then Some d else selected sel log
    | _ => selected sel log
    end.
Proof. unfold selected. rewrite fold_left_app. reflexivity. Qed.

Lemma cache_coherent_select (sel bank : Z) (log : list BusEvent) :
  cache_coherent sel bank (log ++ [BusWrite sel (u8 (Z.shiftl bank 4)) true]).
Proof.
  unfold cache_coherent. rewrite selected_snoc, Z.eqb_refl. reflexivity.
Qed.

Lemma cache_coherent_other (sel cur : Z) (log : list BusEvent) (e : BusEvent) :
  match e with BusWrite r _ true => r <> sel | _ => True end ->
  cache_coherent sel cur log -> cache_coherent sel cur (log ++ [e]).
Proof.
  unfold cache_coherent. rewrite selected_snoc.
  destruct e as [| |r d [|]|]; auto.
  intros Hr. apply Z.eqb_neq in Hr. rewrite Hr. auto.
Qed.


(** ** ICM-20649: the methods as a whole *)

Module Icm20649Methods.
Import Icm20649 Icm20649Calls Icm20649Facts.

Section Facts.
Context {T : Transport} {h : Header}.

(** *** The cached bank *)

Lemma icm20649_keeps_WriteRegister (reg data : Z) :
  reg <> REG_BANK_SEL_ -> preserves (bank_cached (T := T)) (WriteRegister reg data).
Proof.
  intros Hr st. unfold bank_cached, WriteRegister.
  destruct (tr_write T (imu_ st) reg data) as [ok d]. cbn.
  apply cache_coherent_other. destruct ok; auto.
Qed.

Lemma icm20649_keeps_ReadRegisters (reg count : Z) (dst : Dest) :
  preserves (bank_cached (T := T)) (ReadRegisters reg count dst).
Proof.
  intros st. unfold bank_cached, ReadRegisters.
  destruct (tr_read T (imu_ st) reg count) as [[bs|] d]; [destruct dst|]; cbn;
    apply cache_coherent_other; exact I.
Qed.

Lemma icm20649_keeps_SetBank (bank : Z) :
  preserves (bank_cached (T := T)) (SetBank bank).
Proof.
  intros st. unfold bank_cached. unfold_drv.
  destruct (bank =? _); unfold_drv; [auto|].
  destruct (tr_write T _ _ _) as [[|] d]; unfold_drv; intros Hc.
  - apply cache_coherent_select.
  - apply cache_coherent_other; auto.
Qed.

Lemma icm20649_keeps_delay (ms : Z) : preserves (bank_cached (T := T)) (delay ms).
Proof. intros st. apply cache_coherent_other. exact I. Qed.

Lemma icm20649_keeps_imu_Begin : preserves (bank_cached (T := T)) imu_Begin.
Proof. intros st. apply cache_coherent_other. exact I. Qed.

(** An update of members other than the log and the cached bank. *)
Lemma icm20649_keeps_update (f : t T -> t T) :
  (forall st, current_bank_ (f st) = current_bank_ st /\ bus_log (f st) = bus_log st) ->
  preserves bank_cached (modify f).
Proof.
  intros Hf. apply preserves_modify. intros st. unfold bank_cached.
  destruct (Hf st) as [-> ->]. auto.
Qed.

Lemma icm20649_private :
  bank_sel_private = true ->
  USER_CTRL_ <> REG_BANK_SEL_ /\ PWR_MGMT_1_ <> REG_BANK_SEL_ /\
  ODR_ALIGN_EN_ <> REG_BANK_SEL_ /\ INT_ENABLE_1_ <> REG_BANK_SEL_ /\
  ACCEL_CONFIG_ <> REG_BANK_SEL_ /\ GYRO_CONFIG_1_ <> REG_BANK_SEL_ /\
  ACCEL_SMPLRT_DIV_2_ <> REG_BANK_SEL_ /\ GYRO_SMPLRT_DIV_ <> REG_BANK_SEL_.
Proof.
  unfold bank_sel_private. cbn [forallb].
  rewrite !andb_true_iff, !negb_true_iff, !Z.eqb_neq. tauto.
Qed.

(** Splits a method into its calls and discharges each. *)
Ltac keeps :=
  repeat first
    [ apply preserves_ret
    | apply preserves_gets
    | apply icm20649_keeps_SetBank
    | apply icm20649_keeps_ReadRegisters
    | apply icm20649_keeps_delay
    | apply icm20649_keeps_imu_Begin
    | apply icm20649_keeps_WriteRegister; assumption
    | apply icm20649_keeps_update; intros ?; split; reflexivity
    | apply preserves_bind; [ | intros ? ]
    | apply preserves_if
    | match goal with
      | |- preserves _ (match ?x with _ => _ end) => destruct x
      end ].

Lemma icm20649_keeps_call (c : Call) :
  bank_sel_private = true -> preserves (bank_cached (T := T)) (call c).
Proof.
  intros Hp. apply icm20649_private in Hp.
  destruct Hp as (H1 & H2 & H3 & H4 & H5 & H6 & H7 & H8).
  destruct c; cbn [call];
    unfold Begin, EnableDrdyInt, DisableDrdyInt, ConfigAccelRange, ConfigGyroRange,
      ConfigSrd, ConfigAccelDlpfBandwidth, ConfigGyroDlpfBandwidth, Reset, Read,
      Serial_println;
    keeps.
Qed.

End Facts.
End Icm20649Methods.

(** ** ICM-20649: what the methods change *)

Module Icm20649Effects.
Import Icm20649 Icm20649Calls Icm20649Facts.

(** Normalises the log a call built and computes what was appended. *)
Ltac log_norm :=
  rewrite <- ?app_assoc; rewrite ?appended_app, ?appended_same;
  cbn [app forallb all_ok ev_ok andb].

Section Facts.
Context {T : Transport} {h : Header}.

(** *** What a configuration method commits *)

Lemma icm20649_ConfigAccelRange_effect (r : AccelRange) (st : t T) :
  let res := ConfigAccelRange r st in
  let c := config st in
  config (snd res) =
    (if fst res
     then mkConfig r (scale_factor (AccelRange_full_scale r)) (gyro_range_ c)
            (gyro_scale_ c) (accel_dlpf_bandwidth_ c) (gyro_dlpf_bandwidth_ c) (srd_ c)
     else c) /\
  sample (snd res) = sample st /\ who_am_i_ (snd res) = who_am_i_ st.
Proof.
  destruct st as [d lg sr ifc cb w buf sg cf sm].
  destruct r; unfold_drv; repeat bus_case; repeat split; reflexivity.
Qed.

Lemma icm20649_ConfigGyroRange_effect (r : GyroRange) (st : t T) :
  let res := ConfigGyroRange r st in
  let c := config st in
  config (snd res) =
    (if fst res
     then mkConfig (accel_range_ c) (accel_scale_ c) r
            (scale_factor (GyroRange_full_scale r))
            (accel_dlpf_bandwidth_ c) (gyro_dlpf_bandwidth_ c) (srd_ c)
     else c) /\
  sample (snd res) = sample st /\ who_am_i_ (snd res) = who_am_i_ st.
Proof.
  destruct st as [d lg sr ifc cb w buf sg cf sm].
  destruct r; unfold_drv; repeat bus_case; repeat split; reflexivity.
Qed.

Lemma icm20649_ConfigAccelDlpfBandwidth_effect (dlpf : AccelDlpfBandwidth) (st : t T) :
  let res := ConfigAccelDlpfBandwidth dlpf st in
  let c := config st in
  config (snd res) =
    (if fst res
     then mkConfig (accel_range_ c) (accel_scale_ c) (gyro_range_ c) (gyro_scale_ c)
            dlpf (gyro_dlpf_bandwidth_ c) (srd_ c)
     else c) /\
  sample (snd res) = sample st /\ who_am_i_ (snd res) = who_am_i_ st.
Proof.
  destruct st as [d lg sr ifc cb w buf sg cf sm].
  destruct dlpf; unfold_drv; repeat bus_case; repeat split; reflexivity.
Qed.

Lemma icm20649_ConfigGyroDlpfBandwidth_effect (dlpf : GyroDlpfBandwidth) (st : t T) :
  let res := ConfigGyroDlpfBandwidth dlpf st in
  let c := config st in
  config (snd res) =
    (if fst res
     then mkConfig (accel_range_ c) (accel_scale_ c) (gyro_range_ c) (gyro_scale_ c)
            (accel_dlpf_bandwidth_ c) dlpf (srd_ c)
     else c) /\
  sample (snd res) = sample st /\ who_am_i_ (snd res) = who_am_i_ st.
Proof.
  destruct st as [d lg sr ifc cb w buf sg cf sm].
  destruct dlpf; unfold_drv; repeat bus_case; repeat split; reflexivity.
Qed.

Lemma icm20649_ConfigSrd_effect (srd : Z) (st : t T) :
  let res := ConfigSrd srd st in
  let c := config st in
  config (snd res) =
    (if fst res
     then mkConfig (accel_range_ c) (accel_scale_ c) (gyro_range_ c) (gyro_scale_ c)
            (accel_dlpf_bandwidth_ c) (gyro_dlpf_bandwidth_ c) srd
     else c) /\
  sample (snd res) = sample st /\ who_am_i_ (snd res) = who_am_i_ st /\
  (fst res = true -> current_bank_ (snd res) = 2).
Proof.
  destruct st as [d lg sr ifc cb w buf sg cf sm].
  unfold_drv. repeat bus_case; repeat split; try reflexivity; try discriminate;
    intros _; symmetry; apply Z.eqb_eq; assumption.
Qed.

(** *** What the register methods leave alone *)

Lemma icm20649_WriteRegister_who (reg data : Z) (st : t T) :
  who_am_i_ (snd (WriteRegister reg data st)) = who_am_i_ st.
Proof. unfold_drv. repeat bus_case; reflexivity. Qed.

Lemma icm20649_SetBank_who (bank : Z) (st : t T) :
  who_am_i_ (snd (SetBank bank st)) = who_am_i_ st.
Proof. unfold_drv. repeat bus_case; reflexivity. Qed.

End Facts.
End Icm20649Effects.

(** ** ICM-20948: the methods as a whole *)

Module Icm20948Methods.
Import Icm20948 Icm20948Calls Icm20948Facts.

Section Facts.
Context {T : Transport} {h : Header}.

(** *** The cached bank *)

Lemma icm20948_keeps_WriteRegister (bank reg data : Z) :
  reg <> REG_BANK_SEL_ ->
  preserves (bank_cached (T := T)) (WriteRegister bank reg data).
Proof.
  intros Hr st. unfold bank_cached. destruct st as [d lg ifc cb w buf mbuf rv sg cf sm].
  unfold_drv. destruct (bank =? cb); unfold_drv.
  - destruct (tr_write T d reg data) as [ok d']. unfold_drv.
    apply cache_coherent_other. destruct ok; auto.
  - destruct (tr_write T d REG_BANK_SEL_ _) as [[|] d1]; unfold_drv; intros Hc.
    + destruct (tr_write T d1 reg data) as [ok d2]. unfold_drv.
      apply cache_coherent_other; [destruct ok; auto|].
      apply cache_coherent_select.
    + apply cache_coherent_other; auto.
Qed.

Lemma icm20948_keeps_ReadRegisters (bank reg count : Z) (dst : Dest) :
  preserves (bank_cached (T := T)) (ReadRegisters bank reg count dst).
Proof.
  intros st. unfold bank_cached. destruct st as [d lg ifc cb w buf mbuf rv sg cf sm].
  unfold_drv. destruct (bank =? cb); unfold_drv.
  - destruct (tr_read T d reg count) as [[bs|] d']; [destruct dst|]; unfold_drv;
      apply cache_coherent_other; exact I.
  - destruct (tr_write T d REG_BANK_SEL_ _) as [[|] d1]; unfold_drv; intros Hc.
    + destruct (tr_read T d1 reg count) as [[bs|] d2]; [destruct dst|]; unfold_drv;
        (apply cache_coherent_other; [exact I|]); apply cache_coherent_select.
    + apply cache_coherent_other; auto.
Qed.

Lemma icm20948_keeps_delay (ms : Z) : preserves (bank_cached (T := T)) (delay ms).
Proof. intros st. apply cache_coherent_other. exact I. Qed.

Lemma icm20948_keeps_imu_Begin : preserves (bank_cached (T := T)) imu_Begin.
Proof. intros st. apply cache_coherent_other. exact I. Qed.

(** An update of members other than the log and the cached bank. *)
Lemma icm20948_keeps_update (f : t T -> t T) :
  (forall st, current_bank_ (f st) = current_bank_ st /\ bus_log (f st) = bus_log st) ->
  preserves bank_cached (modify f).
Proof.
  intros Hf. apply preserves_modify. intros st. unfold bank_cached.
  destruct (Hf st) as [-> ->]. auto.
Qed.

Lemma icm20948_private :
  bank_sel_private = true ->
  Forall (fun r => r <> REG_BANK_SEL_)
    [USER_CTRL_; PWR_MGMT_1_; I2C_MST_CTRL_; I2C_SLV0_ADDR_; I2C_SLV0_REG_;
     I2C_SLV0_D0_; I2C_SLV0_CTRL_; ODR_ALIGN_EN_; INT_ENABLE_1_; ACCEL_CONFIG_;
     GYRO_CONFIG_1_; TEMP_CONFIG_; ACCEL_SMPLRT_DIV_2_; GYRO_SMPLRT_DIV_].
Proof.
  unfold bank_sel_private. rewrite forallb_forall, Forall_forall.
  intros H r Hr. specialize (H r Hr). apply negb_true_iff, Z.eqb_neq in H. exact H.
Qed.

(** Splits a method into its calls and discharges each. *)
Ltac keeps :=
  repeat first
    [ apply preserves_ret
    | apply preserves_gets
    | apply icm20948_keeps_ReadRegisters
    | apply icm20948_keeps_delay
    | apply icm20948_keeps_imu_Begin
    | apply icm20948_keeps_WriteRegister; assumption
    | apply icm20948_keeps_update; intros ?; split; reflexivity
    | apply preserves_bind; [ | intros ? ]
    | apply preserves_if
    | match goal with
      | |- preserves _ (match ?x with _ => _ end) => destruct x
      end ].

Lemma icm20948_keeps_call (c : Call) :
  bank_sel_private = true -> preserves (bank_cached (T := T)) (call c).
Proof.
  intros Hp. apply icm20948_private in Hp.
  repeat match type of Hp with
  | Forall _ (_ :: _) =>
      let H := fresh "Hreg" in
      apply Forall_cons_iff in Hp; destruct Hp as [H Hp]
  end.
  destruct c; cbn [call];
    unfold Begin, EnableDrdyInt, DisableDrdyInt, ConfigAccelRange, ConfigGyroRange,
      ConfigSrd, ConfigAccelDlpfBandwidth, ConfigGyroDlpfBandwidth,
      ConfigTempDlpfBandwidth, Read, i2c_if_dis,
      WriteAk09916Register, ReadAk09916Registers;
    keeps.
Qed.

End Facts.
End Icm20948Methods.

(** ** ICM-20948: what the methods change *)

Module Icm20948Effects.
Import Icm20948 Icm20948Calls Icm20948Facts.

(** Normalises the log a call built and computes what was appended. *)
Ltac log_norm :=
  rewrite <- ?app_assoc; rewrite ?appended_app, ?appended_same;
  cbn [app forallb all_ok ev_ok andb].

(** Turns the recorded comparisons into (in)equalities. *)
Ltac eqb_facts :=
  repeat match goal with
  | H : (_ =? _) = true |- _ => apply Z.eqb_eq in H
  | H : (_ =? _) = false |- _ => apply Z.eqb_neq in H
  end.

Section Facts.
Context {T : Transport} {h : Header}.

(** *** What the register methods leave alone *)

Lemma icm20948_WriteRegister_frame (bank reg data : Z) (st : t T) :
  let st' := snd (WriteRegister bank reg data st) in
  config st' = config st /\ sample st' = sample st /\ who_am_i_ st' = who_am_i_ st.
Proof.
  destruct st as [d lg ifc cb w buf mbuf rv sg cf sm].
  cbv zeta. unfold_drv. repeat bus_case; repeat split; reflexivity.
Qed.

Lemma icm20948_ReadAk_frame (reg count : Z) (dst : Dest) (st : t T) :
  let st' := snd (ReadAk09916Registers reg count dst st) in
  config st' = config st /\ sample st' = sample st /\
  (dst <> dst_who_am_i_ -> who_am_i_ st' = who_am_i_ st).
Proof.
  destruct st as [d lg ifc cb w buf mbuf rv sg cf sm].
  cbv zeta. unfold_drv. repeat bus_case; destruct dst; unfold_drv;
    repeat split; try reflexivity; intros H; contradiction H; reflexivity.
Qed.

Lemma icm20948_WriteAk_frame (reg data : Z) (st : t T) :
  let st' := snd (WriteAk09916Register reg data st) in
  config st' = config st /\ sample st' = sample st /\ who_am_i_ st' = who_am_i_ st.
Proof.
  destruct st as [d lg ifc cb w buf mbuf rv sg cf sm].
  cbv zeta. unfold_drv. repeat bus_case; repeat split; reflexivity.
Qed.

(** *** The indirect read *)

Lemma icm20948_ReadAk_bank (reg count : Z) (dst : Dest) (st : t T) :
  fst (ReadAk09916Registers reg count dst st) = true ->
  current_bank_ (snd (ReadAk09916Registers reg count dst st)) = BANK_0_.
Proof.
  destruct st as [d lg ifc cb w buf mbuf rv sg cf sm].
  unfold_drv. repeat bus_case; intros H; try discriminate H;
    destruct dst; unfold_drv; try reflexivity; eqb_facts; congruence.
Qed.

(** *** What a configuration method commits *)

Lemma icm20948_ConfigAccelRange_effect (r : AccelRange) (st : t T) :
  let res := ConfigAccelRange r st in
  let c := config st in
  config (snd res) =
    (if fst res
     then mkConfig r (scale_factor (AccelRange_full_scale r)) (gyro_range_ c)
            (gyro_scale_ c) (accel_dlpf_bandwidth_ c) (gyro_dlpf_bandwidth_ c)
            (temp_dlpf_bandwidth_ c) (srd_ c)
     else c) /\
  sample (snd res) = sample st /\ who_am_i_ (snd res) = who_am_i_ st.
Proof.
  destruct st as [d lg ifc cb w buf mbuf rv sg cf sm].
  destruct r; unfold_drv; repeat bus_case; repeat split; reflexivity.
Qed.

Lemma icm20948_ConfigGyroRange_effect (r : GyroRange) (st : t T) :
  let res := ConfigGyroRange r st in
  let c := config st in
  config (snd res) =
    (if fst res
     then mkConfig (accel_range_ c) (accel_scale_ c) r
            (scale_factor (GyroRange_full_scale r))
            (accel_dlpf_bandwidth_ c) (gyro_dlpf_bandwidth_ c)
            (temp_dlpf_bandwidth_ c) (srd_ c)
     else c) /\
  sample (snd res) = sample st /\ who_am_i_ (snd res) = who_am_i_ st.
Proof.
  destruct st as [d lg ifc cb w buf mbuf rv sg cf sm].
  destruct r; unfold_drv; repeat bus_case; repeat split; reflexivity.
Qed.

Lemma icm20948_ConfigAccelDlpfBandwidth_effect (dlpf : AccelDlpfBandwidth) (st : t T) :
  let res := ConfigAccelDlpfBandwidth dlpf st in
  let c := config st in
  config (snd res) =
    (if fst res
     then mkConfig (accel_range_ c) (accel_scale_ c) (gyro_range_ c) (gyro_scale_ c)
            dlpf (gyro_dlpf_bandwidth_ c) (temp_dlpf_bandwidth_ c) (srd_ c)
     else c) /\
  sample (snd res) = sample st /\ who_am_i_ (snd res) = who_am_i_ st.
Proof.
  destruct st as [d lg ifc cb w buf mbuf rv sg cf sm].
  destruct dlpf; unfold_drv; repeat bus_case; repeat split; reflexivity.
Qed.

Lemma icm20948_ConfigGyroDlpfBandwidth_effect (dlpf : GyroDlpfBandwidth) (st : t T) :
  let res := ConfigGyroDlpfBandwidth dlpf st in
  let c := config st in
  config (snd res) =
    (if fst res
     then mkConfig (accel_range_ c) (accel_scale_ c) (gyro_range_ c) (gyro_scale_ c)
            (accel_dlpf_bandwidth_ c) dlpf (temp_dlpf_bandwidth_ c) (srd_ c)
     else c) /\
  sample (snd res) = sample st /\ who_am_i_ (snd res) = who_am_i_ st.
Proof.
  destruct st as [d lg ifc cb w buf mbuf rv sg cf sm].
  destruct dlpf; unfold_drv; repeat bus_case; repeat split; reflexivity.
Qed.

Lemma icm20948_ConfigTempDlpfBandwidth_effect (dlpf : TempDlpfBandwidth) (st : t T) :
  let res := ConfigTempDlpfBandwidth dlpf st in
  let c := config st in
  config (snd res) =
    (if fst res
     then mkConfig (accel_range_ c) (accel_scale_ c) (gyro_range_ c) (gyro_scale_ c)
            (accel_dlpf_bandwidth_ c) (gyro_dlpf_bandwidth_ c) dlpf (srd_ c)
     else c) /\
  sample (snd res) = sample st /\ who_am_i_ (snd res) = who_am_i_ st.
Proof.
  destruct st as [d lg ifc cb w buf mbuf rv sg cf sm].
  destruct dlpf; unfold_drv; repeat bus_case; repeat split; reflexivity.
Qed.

Lemma icm20948_ConfigSrd_effect (srd : Z) (st : t T) :
  let res := ConfigSrd srd st in
  let c := config st in
  config (snd res) =
    (if fst res
     then mkConfig (accel_range_ c) (accel_scale_ c) (gyro_range_ c) (gyro_scale_ c)
            (accel_dlpf_bandwidth_ c) (gyro_dlpf_bandwidth_ c)
            (temp_dlpf_bandwidth_ c) srd
     else c) /\
  sample (snd res) = sample st /\ who_am_i_ (snd res) = who_am_i_ st /\
  (fst res = true -> current_bank_ (snd res) = BANK_0_).
Proof.
  cbv zeta. unfold ConfigSrd, bind, ret, modify.
  destruct (icm20948_WriteRegister_frame BANK_2_ ACCEL_SMPLRT_DIV_2_ srd st)
    as (C1 & S1 & W1).
  destruct (WriteRegister BANK_2_ ACCEL_SMPLRT_DIV_2_ srd st) as [[|] s1];
    cbn [fst snd] in *; [|repeat split; auto; discriminate].
  destruct (icm20948_WriteRegister_frame BANK_2_ GYRO_SMPLRT_DIV_ srd s1)
    as (C2 & S2 & W2).
  destruct (WriteRegister BANK_2_ GYRO_SMPLRT_DIV_ srd s1) as [[|] s2];
    cbn [fst snd] in *; [|repeat split; try congruence; discriminate].
  destruct (icm20948_WriteAk_frame AK09916_CNTL2_ AK09916_CNTL2_CONT_MEAS_MODE1_ s2)
    as (C3 & S3 & W3).
  destruct (WriteAk09916Register AK09916_CNTL2_ AK09916_CNTL2_CONT_MEAS_MODE1_ s2)
    as [[|] s3]; cbn [fst snd] in *; [|repeat split; try congruence; discriminate].
  destruct (icm20948_ReadAk_frame AK09916_ST1_ sizeof_mag_data_ dst_mag_data_ s3)
    as (C4 & S4 & W4).
  specialize (W4 ltac:(discriminate)).
  pose proof (icm20948_ReadAk_bank AK09916_ST1_ sizeof_mag_data_ dst_mag_data_ s3)
    as B4.
  destruct (ReadAk09916Registers AK09916_ST1_ sizeof_mag_data_ dst_mag_data_ s3)
    as [[|] s4]; cbn [fst snd] in *; [|repeat split; try congruence; discriminate].
  specialize (B4 eq_refl).
  unfold commit_srd. cbn [config set_config sample who_am_i_ current_bank_].
  repeat split; try congruence.
Qed.

End Facts.
End Icm20948Effects.

(** ** MPU-9250: ranges, filter, and the read path *)

Module MPU9250MoreFacts.
Import MPU9250 MPU9250Read MPU9250Codes MPU9250Facts.

Lemma device_after_app (l1 l2 : list WireEvent) (regs : Z -> Z) :
  device_after (l1 ++ l2) regs = device_after l2 (device_after l1 regs).
Proof. unfold device_after. apply fold_left_app. Qed.

(** Case analysis on every comparison of the string [s] in the goal. *)
Ltac str_case s :=
  repeat match goal with
  | |- context [String.eqb s ?l] =>
      let E := fresh "E" in destruct (String.eqb s l) eqn:E
  end.

(** A string equals one literal at most. *)
Ltac str_absurd :=
  match goal with
  | H1 : String.eqb ?s ?l1 = true, H2 : String.eqb ?s ?l2 = true |- _ =>
      apply String.eqb_eq in H1; subst s; cbn in H2; discriminate H2
  end.

(** *** [begin] *)

Lemma mpu9250_begin_accel (a g : string) (st : t) (regs : Z -> Z) :
  let st' := snd (begin a g st) in
  device_after (wire st') regs ACCEL_CONFIG =
    match accel_range_g a with
    | Some fs => accel_fs_sel fs
    | None => device_after (wire st) regs ACCEL_CONFIG
    end /\
  _accelScale st' =
    match accel_range_g a with
    | Some fs => F64.div (F64.mul G (F64.of_Z fs)) F64.c32767_5
    | None => _accelScale st
    end.
Proof.
  destruct st as [ad sa sg w]. cbv zeta. unfold accel_range_g. unfold_mpu.
  str_case a; try str_absurd; str_case g; unfold_mpu;
    rewrite ?device_after_app; (split; reflexivity).
Qed.

Lemma mpu9250_begin_gyro (a g : string) (st : t) (regs : Z -> Z) :
  let st' := snd (begin a g st) in
  device_after (wire st') regs GYRO_CONFIG =
    match gyro_range_dps g with
    | Some fs => gyro_fs_sel fs
    | None => device_after (wire st) regs GYRO_CONFIG
    end /\
  _gyroScale st' =
    match gyro_range_dps g with
    | Some fs => F64.div (F64.of_Z fs) F64.c32767_5
    | None => _gyroScale st
    end.
Proof.
  destruct st as [ad sa sg w]. cbv zeta. unfold gyro_range_dps. unfold_mpu.
  str_case g; try str_absurd; str_case a; unfold_mpu;
    rewrite ?device_after_app; (split; reflexivity).
Qed.

Lemma mpu9250_begin_clock (a g : string) (st : t) (regs : Z -> Z) :
  device_after (wire (snd (begin a g st))) regs PWR_MGMNT_1 = CLOCK_SEL_PLL.
Proof.
  destruct st as [ad sa sg w]. unfold_mpu.
  str_case a; str_case g; unfold_mpu; rewrite ?device_after_app; reflexivity.
Qed.

(** *** [setFilt] *)

Lemma mpu9250_setFilt_wire (bandwidth : string) (frequency : Z) (st : t) :
  frequency <> 0 ->
  wire (snd (setFilt bandwidth frequency st)) =
    wire st ++
    match dlpf_code bandwidth with
    | Some c => [ Wire_transmission (_address st) [ACCEL_CONFIG2; c];
                  Wire_transmission (_address st) [CONFIG; c] ]
    | None => []
    end ++
    [ Wire_transmission (_address st) [SMPDIV; u8 (Z.quot 1000 frequency - 1)];
      Wire_transmission (_address st) [INT_PIN_CFG; 0];
      Wire_transmission (_address st) [INT_ENABLE; 1] ].
Proof.
  intros Hf. apply Z.eqb_neq in Hf.
  destruct st as [ad sa sg w]. unfold setFilt, int_div, dlpf_code. rewrite Hf.
  unfold_mpu. str_case bandwidth; try str_absurd; unfold_mpu;
    rewrite <- ?app_assoc; reflexivity.
Qed.

Lemma mpu9250_setFilt_registers (bandwidth : string) (frequency : Z) (st : t)
    (regs : Z -> Z) :
  0 < frequency < 256 ->
  let dev := device_after (wire (snd (setFilt bandwidth frequency st))) regs in
  let old := device_after (wire st) regs in
  dev ACCEL_CONFIG2 = match dlpf_code bandwidth with Some c => c | None => old ACCEL_CONFIG2 end /\
  dev CONFIG = match dlpf_code bandwidth with Some c => c | None => old CONFIG end /\
  dev SMPDIV = (1000 / frequency - 1) mod 256 /\
  dev INT_PIN_CFG = 0 /\
  dev INT_ENABLE = 1.
Proof.
  intros Hf. cbv zeta.
  rewrite mpu9250_setFilt_wire by lia.
  rewrite Z.quot_div_nonneg by lia.
  rewrite !device_after_app. unfold u8.
  destruct (dlpf_code bandwidth); repeat split; reflexivity.
Qed.

(** The divider and the sample rate it selects. *)
Lemma srd_rate (frequency : Z) :
  0 < frequency < 256 ->
  let srd := (1000 / frequency - 1) mod 256 in
  frequency <= 1000 / (srd + 1) /\
  (srd = 1000 / frequency - 1 <-> 4 <= frequency).
Proof.
  intros Hf. cbv zeta.
  destruct (Z.lt_ge_cases frequency 4) as [Hlt|Hge].
  - assert (frequency = 1 \/ frequency = 2 \/ frequency = 3) as [-> | [-> | ->]] by lia;
      (split; [vm_compute; discriminate | split; [vm_compute; discriminate | lia]]).
  - pose proof (Z.mul_div_le 1000 frequency ltac:(lia)) as Hq.
    assert (Hlo : 3 <= 1000 / frequency) by (apply Z.div_le_lower_bound; lia).
    assert (Hhi : 1000 / frequency <= 250) by (apply Z.div_le_upper_bound; lia).
    rewrite Z.mod_small by lia.
    replace (1000 / frequency - 1 + 1) with (1000 / frequency) by lia.
    split; [apply Z.div_le_lower_bound; lia | tauto].
Qed.

(** *** The read path *)

Section Reads.
Variable peer : Z -> Z -> list Z.

Lemma requestFrom_length (subAddress count : Z) :
  length (requestFrom peer subAddress count) =
    Nat.min (Z.to_nat count) (length (peer subAddress count)).
Proof. unfold requestFrom. rewrite length_map, length_firstn. reflexivity. Qed.

(** [readRegisters] stores the bytes that arrived and nothing else. *)
Lemma mpu9250_readRegisters_bytes (subAddress count : Z) (dest : list Z) (st : t) (i : nat) :
  byte_at (fst (readRegisters peer subAddress count dest st)) i =
    if (i <? Nat.min (Z.to_nat count) (length (peer subAddress count)))%nat
    then u8 (nth i (peer subAddress count) 0)
    else byte_at dest i.
Proof.
  unfold readRegisters, bind, modify, ret. cbn [fst]. unfold byte_at, overwrite.
  pose proof (requestFrom_length subAddress count) as Hlen.
  destruct (Nat.ltb_spec i (Nat.min (Z.to_nat count) (length (peer subAddress count))))
    as [Hlt|Hge].
  - rewrite app_nth1 by lia. unfold requestFrom.
    rewrite (nth_indep _ 0 (u8 0)) by (rewrite length_map, length_firstn; lia).
    rewrite map_nth, nth_firstn.
    destruct (Nat.ltb_spec i (Z.to_nat count)); [reflexivity | lia].
  - rewrite app_nth2 by lia. rewrite Hlen, nth_skipn. f_equal. lia.
Qed.

End Reads.

Lemma word_bytes (v : Z) (buff : list Z) (i j : nat) :
  byte_at buff i = u8 (hi_byte v) -> byte_at buff j = u8 (lo_byte v) ->
  word buff i j = u16 v.
Proof.
  intros Hi Hj. unfold word. rewrite Hi, Hj.
  rewrite !u8_byte by (apply hi_byte_range || apply lo_byte_range).
  rewrite lor_shiftl8 by apply lo_byte_range. rewrite hi_lo_byte.
  unfold u16. apply Z.mod_mod. lia.
Qed.

Lemma i16_u16 (v : Z) : is_int16 v = true -> i16 (u16 v) = v.
Proof.
  intros Hv. apply is_int16_range in Hv. unfold i16, u16.
  rewrite Z.add_mod_idemp_l by lia. rewrite Z.mod_small by lia. lia.
Qed.

Lemma word_range (buff : list Z) (i j : nat) : 0 <= word buff i j < 65536.
Proof. unfold word, u16. apply Z.mod_pos_bound. reflexivity. Qed.

(** The bytes a word is made of decide it. *)
Lemma word_ext (b b' : list Z) (i j : nat) :
  byte_at b i = byte_at b' i -> byte_at b j = byte_at b' j -> word b i j = word b' i j.
Proof. unfold word. intros -> ->. reflexivity. Qed.

(** A word whose low byte is 0 differs from one with the same high byte
    whose low byte is 255. *)
Lemma word_low_differs (b b' : list Z) (i j : nat) (x : Z) :
  byte_at b i = u8 x -> byte_at b' i = u8 x ->
  byte_at b j = 0 -> byte_at b' j = 255 ->
  word b i j = word b' i j -> False.
Proof.
  unfold word. intros -> -> -> ->.
  rewrite !lor_shiftl8 by lia. unfold u16, u8. intros H.
  pose proof (Z.mod_pos_bound x 256 eq_refl).
  rewrite (Z.mod_small (x mod 256 * 256 + 0) 65536),
    (Z.mod_small (x mod 256 * 256 + 255) 65536) in H by lia.
  lia.
Qed.

Section Short.
Variable peer : Z -> Z -> list Z.

(** The three words of a six-byte read at [subAddress] into [buff]. *)
Lemma mpu9250_counts_complete (subAddress : Z) (buff buff' : list Z) (st : t) :
  (6 <= length (peer subAddress 6))%nat ->
  let b := fst (readRegisters peer subAddress 6 buff st) in
  let b' := fst (readRegisters peer subAddress 6 buff' st) in
  (word b 0 1, word b 2 3, word b 4 5) = (word b' 0 1, word b' 2 3, word b' 4 5).
Proof.
  intros Hlen. cbv zeta.
  assert (E : forall i, (i < 6)%nat ->
                byte_at (fst (readRegisters peer subAddress 6 buff st)) i =
                byte_at (fst (readRegisters peer subAddress 6 buff' st)) i).
  { intros i Hi. rewrite !mpu9250_readRegisters_bytes.
    change (Z.to_nat 6) with 6%nat.
    destruct (Nat.ltb_spec i (Nat.min 6 (length (peer subAddress 6)))); [reflexivity | lia]. }
  rewrite (word_ext _ _ 0 1), (word_ext _ _ 2 3), (word_ext _ _ 4 5)
    by (apply E; lia).
  reflexivity.
Qed.

Lemma mpu9250_counts_short (subAddress : Z) (st : t) :
  (length (peer subAddress 6) < 6)%nat ->
  let b := fst (readRegisters peer subAddress 6 (repeat 0 6) st) in
  let b' := fst (readRegisters peer subAddress 6 (repeat 255 6) st) in
  (word b 0 1, word b 2 3, word b 4 5) = (word b' 0 1, word b' 2 3, word b' 4 5) ->
  False.
Proof.
  intros Hlen. cbv zeta. intros H.
  assert (E : forall (v : Z) (i : nat), (i < 6)%nat ->
                byte_at (fst (readRegisters peer subAddress 6 (repeat v 6) st)) i =
                if (i <? length (peer subAddress 6))%nat
                then u8 (nth i (peer subAddress 6) 0) else v).
  { intros v i Hi. rewrite mpu9250_readRegisters_bytes.
    change (Z.to_nat 6) with 6%nat.
    rewrite Nat.min_r by lia.
    destruct (i <? length (peer subAddress 6))%nat; [reflexivity|].
    unfold byte_at. do 6 (destruct i as [|i]; [reflexivity|]). lia. }
  pose proof (E 0) as E0. pose proof (E 255) as E1.
  unfold readRegisters, bind, modify, ret in E0, E1. cbn [fst repeat] in E0, E1.
  injection H as H1 H2 H3.
  remember (length (peer subAddress 6)) as n eqn:El.
  destruct n as [|[|[|[|[|[|n]]]]]]; [| | | | | | lia].
  - revert H1. unfold word. rewrite !E0, !E1 by lia. vm_compute. discriminate.
  - exact (word_low_differs _ _ 0 1 _ (E 0 0%nat ltac:(lia)) (E 255 0%nat ltac:(lia))
             (E 0 1%nat ltac:(lia)) (E 255 1%nat ltac:(lia)) H1).
  - revert H2. unfold word. rewrite !E0, !E1 by lia. vm_compute. discriminate.
  - exact (word_low_differs _ _ 2 3 _ (E 0 2%nat ltac:(lia)) (E 255 2%nat ltac:(lia))
             (E 0 3%nat ltac:(lia)) (E 255 3%nat ltac:(lia)) H2).
  - revert H3. unfold word. rewrite !E0, !E1 by lia. vm_compute. discriminate.
  - exact (word_low_differs _ _ 4 5 _ (E 0 4%nat ltac:(lia)) (E 255 4%nat ltac:(lia))
             (E 0 5%nat ltac:(lia)) (E 255 5%nat ltac:(lia)) H3).
Qed.

End Short.

End MPU9250MoreFacts.

(** * Further properties *)

(** ** ICM-20649 *)

Section Icm20649_properties.
Import Icm20649 Icm20649Calls Icm20649Facts Icm20649Methods Icm20649Effects.
Context {T : Transport} {h : Header}.

(** X1.  ICM-20649, the bank cache.  Whatever methods are called, in
    whatever order and whatever the bus answers, [current_bank_] stays
    in step with what the device was told: if the log of the object
    shows an acknowledged write to [REG_BANK_SEL_] at all, the last one
    carried [current_bank_ << 4].  This needs the header to give no
    register the driver writes to the address of [REG_BANK_SEL_]. *)
Theorem X1_icm20649_bank_cache_coherent (l : list Call) (st : t T) :
  bank_sel_private = true ->
  bank_cached st ->
  bank_cached (snd (calls l st)).
Proof.
  intros Hp. revert st. induction l as [|c l IH]; intros st Hst; cbn [calls].
  - exact Hst.
  - unfold bind. pose proof (icm20649_keeps_call c Hp st Hst) as H1.
    destruct (call c st) as [u s1]. apply IH. exact H1.
Qed.

(** X2.  ICM-20649, what a configuration method commits.  Each of the
    five configuration methods leaves the committed configuration as it
    was when it returns [false], whatever made it fail, and when it
    returns [true] it has replaced its own members and no other: the
    range with its scale factor, one filter bandwidth, or the sample rate
    divider.  The sample members are never touched. *)
Theorem X2_icm20649_config_commits_on_success_only (st : t T) :
  let c := config st in
  (forall r,
     let res := ConfigAccelRange r st in
     config (snd res) =
       (if fst res
        then mkConfig r (scale_factor (AccelRange_full_scale r)) (gyro_range_ c)
               (gyro_scale_ c) (accel_dlpf_bandwidth_ c) (gyro_dlpf_bandwidth_ c) (srd_ c)
        else c) /\
     sample (snd res) = sample st) /\
  (forall r,
     let res := ConfigGyroRange r st in
     config (snd res) =
       (if fst res
        then mkConfig (accel_range_ c) (accel_scale_ c) r
               (scale_factor (GyroRange_full_scale r))
               (accel_dlpf_bandwidth_ c) (gyro_dlpf_bandwidth_ c) (srd_ c)
        else c) /\
     sample (snd res) = sample st) /\
  (forall dlpf,
     let res := ConfigAccelDlpfBandwidth dlpf st in
     config (snd res) =
       (if fst res
        then mkConfig (accel_range_ c) (accel_scale_ c) (gyro_range_ c) (gyro_scale_ c)
               dlpf (gyro_dlpf_bandwidth_ c) (srd_ c)
        else c) /\
     sample (snd res) = sample st) /\
  (forall dlpf,
     let res := ConfigGyroDlpfBandwidth dlpf st in
     config (snd res) =
       (if fst res
        then mkConfig (accel_range_ c) (accel_scale_ c) (gyro_range_ c) (gyro_scale_ c)
               (accel_dlpf_bandwidth_ c) dlpf (srd_ c)
        else c) /\
     sample (snd res) = sample st) /\
  (forall srd,
     let res := ConfigSrd srd st in
     config (snd res) =
       (if fst res
        then mkConfig (accel_range_ c) (accel_scale_ c) (gyro_range_ c) (gyro_scale_ c)
               (accel_dlpf_bandwidth_ c) (gyro_dlpf_bandwidth_ c) srd
        else c) /\
     sample (snd res) = sample st).
Proof.
  cbv zeta. repeat split.
  - apply icm20649_ConfigAccelRange_effect.
  - apply icm20649_ConfigAccelRange_effect.
  - apply icm20649_ConfigGyroRange_effect.
  - apply icm20649_ConfigGyroRange_effect.
  - apply icm20649_ConfigAccelDlpfBandwidth_effect.
  - apply icm20649_ConfigAccelDlpfBandwidth_effect.
  - apply icm20649_ConfigGyroDlpfBandwidth_effect.
  - apply icm20649_ConfigGyroDlpfBandwidth_effect.
  - apply icm20649_ConfigSrd_effect.
  - apply icm20649_ConfigSrd_effect.
Qed.

(** X3.  ICM-20649, what a successful [Begin] establishes.  When [Begin]
    returns [true] the committed configuration is the default one (30G
    with the scale factor of 32, 4000DPS, the 111 Hz and 119 Hz filters,
    divider 0) whatever it was before, [who_am_i_] holds the identity of
    the chip, and bank 2 is cached. *)
Theorem X3_icm20649_begin_establishes_defaults (st st' : t T) :
  Begin st = (true, st') ->
  config st' = default_config /\
  who_am_i_ st' = WHOAMI_ICM20649_ /\
  current_bank_ st' = 2.
Proof.
  rewrite icm20649_Begin_steps, run_steps_ran. intros R.
  apply (ran_from 7) in R. destruct R as (s0 & _ & R).
  cbn [skipn begin_steps ran] in R.
  destruct R as (Hw & R0 & R1 & R2 & R3 & R4 & R5 & ->).
  cbn [gets fst snd] in Hw. apply Z.eqb_eq in Hw.
  change (snd (gets (fun st => who_am_i_ st =? WHOAMI_ICM20649_) s0)) with s0 in *.
  pose proof (icm20649_WriteRegister_who ODR_ALIGN_EN_ ALIGN_ODR_ (snd (SetBank 2 s0)))
    as W0.
  rewrite icm20649_SetBank_who, Hw in W0.
  set (s1 := snd (WriteRegister ODR_ALIGN_EN_ ALIGN_ODR_ (snd (SetBank 2 s0)))) in *.
  clearbody s1. clear - R1 R2 R3 R4 R5 W0.
  destruct (icm20649_ConfigAccelRange_effect ACCEL_RANGE_30G s1) as (C1 & _ & W1).
  cbv zeta in C1, W1. rewrite R1 in C1. rewrite W0 in W1.
  set (s2 := snd (ConfigAccelRange ACCEL_RANGE_30G s1)) in *. clearbody s2.
  destruct (icm20649_ConfigGyroRange_effect GYRO_RANGE_4000DPS s2) as (C2 & _ & W2).
  cbv zeta in C2, W2. rewrite R2, C1 in C2. rewrite W1 in W2.
  set (s3 := snd (ConfigGyroRange GYRO_RANGE_4000DPS s2)) in *. clearbody s3.
  destruct (icm20649_ConfigAccelDlpfBandwidth_effect ACCEL_DLPF_BANDWIDTH_111HZ s3)
    as (C3 & _ & W3).
  cbv zeta in C3, W3. rewrite R3, C2 in C3. rewrite W2 in W3.
  set (s4 := snd (ConfigAccelDlpfBandwidth ACCEL_DLPF_BANDWIDTH_111HZ s3)) in *.
  clearbody s4.
  destruct (icm20649_ConfigGyroDlpfBandwidth_effect GYRO_DLPF_BANDWIDTH_119HZ s4)
    as (C4 & _ & W4).
  cbv zeta in C4, W4. rewrite R4, C3 in C4. rewrite W3 in W4.
  set (s5 := snd (ConfigGyroDlpfBandwidth GYRO_DLPF_BANDWIDTH_119HZ s4)) in *.
  clearbody s5.
  destruct (icm20649_ConfigSrd_effect 0 s5) as (C5 & _ & W5 & B5).
  cbv zeta in C5, W5, B5. rewrite R5, C4 in C5. rewrite W4 in W5.
  split; [exact C5 | split; [exact W5 | exact (B5 R5)]].
Qed.

(** X4.  ICM-20649, [Read] and its flag.  The result of [Read] is the
    value it leaves in [new_imu_data_]; [Read] never changes the
    committed or the staged configuration; and when it returns [false]
    the sample members other than the flag are those of before and the
    last call on the bus is the one-byte read of [INT_STATUS_1_], which
    failed or answered with the ready bit clear: the data registers were
    not read. *)
Theorem X4_icm20649_read_flag_and_frame (st : t T) :
  let r := Read st in
  new_imu_data_ (sample (snd r)) = fst r /\
  config (snd r) = config st /\
  staged (snd r) = staged st /\
  (fst r = false ->
   sample (snd r) = sample (set_new_imu_data_ false st) /\
   exists reply,
     last_event (bus_log (snd r)) = BusRead INT_STATUS_1_ 1 reply /\
     match reply with
     | Some bs => Z.land (u8 (nth 0 bs 0)) RAW_DATA_RDY_INT_ = 0
     | None => True
     end).
Proof.
  destruct st as [d lg sr ifc cb w buf sg cf sm].
  cbv zeta. unfold_drv. repeat bus_case;
    (split; [reflexivity | split; [reflexivity | split; [reflexivity|]]]);
    intros H; try discriminate H; (split; [reflexivity|]);
    eexists; (split; [apply last_event_snoc|]); try exact I;
    apply to_bool_false; assumption.
Qed.

(** X5.  ICM-20649, [Read] inverts the sensor's encoding.  If [Read]
    returns [true] and the burst read was answered with the fourteen
    bytes that encode the counts [a], [g] and [tc] (sixteen-bit two's
    complement, high byte first), the published counts are [a], [g] and
    [tc]. *)
Theorem X5_icm20649_read_decodes_burst (st st' : t T) (a g : vec3 Z) (tc : Z) :
  (let '(ax, ay, az) := a in
   let '(gx, gy, gz) := g in
   forallb is_int16 [ax; ay; az; gx; gy; gz; tc]) = true ->
  Read st = (true, st') ->
  last_event (bus_log st') = BusRead ACCEL_XOUT_H 14 (Some (burst_of a g tc)) ->
  accel_cnts_ (sample st') = a /\
  gyro_cnts_ (sample st') = g /\
  temp_cnts_ (sample st') = tc.
Proof.
  destruct st as [d lg sr ifc cb w buf sg cf sm].
  destruct a as [[ax ay] az], g as [[gx gy] gz].
  cbn [forallb]. rewrite !andb_true_iff.
  intros (Hax & Hay & Haz & Hgx & Hgy & Hgz & Htc & _).
  unfold_drv. repeat bus_case; intros [= <-]; unfold publish; unfold_drv;
    rewrite last_event_snoc; intros [= ->];
    unfold burst_of, be16, delivered; change (Z.to_nat 14) with 14%nat;
    cbn [app map seq nth overwrite byte_at length skipn];
    rewrite !unpack16_bytes by assumption; repeat split; reflexivity.
Qed.

(** X6.  ICM-20649, methods that report the bus.  [SetBank],
    [EnableDrdyInt], [DisableDrdyInt] and [ConfigSrd] return [true]
    exactly when every call they made on the bus succeeded. *)
Theorem X6_icm20649_result_is_bus_result (st : t T) :
  (forall bank,
     fst (SetBank bank st) =
       all_ok (appended (bus_log st) (bus_log (snd (SetBank bank st))))) /\
  fst (EnableDrdyInt st) =
    all_ok (appended (bus_log st) (bus_log (snd (EnableDrdyInt st)))) /\
  fst (DisableDrdyInt st) =
    all_ok (appended (bus_log st) (bus_log (snd (DisableDrdyInt st)))) /\
  (forall srd,
     fst (ConfigSrd srd st) =
       all_ok (appended (bus_log st) (bus_log (snd (ConfigSrd srd st))))).
Proof.
  destruct st as [d lg sr ifc cb w buf sg cf sm].
  repeat split; intros; unfold_drv; repeat bus_case; log_norm; reflexivity.
Qed.

(** X7.  ICM-20649, the data-ready interrupt.  A successful
    [EnableDrdyInt] ends with the acknowledged write of
    [INT_RAW_RDY_EN_] to [INT_ENABLE_1_] and bank 0 cached, a successful
    [DisableDrdyInt] with that of [INT_DISABLE_]; neither touches the
    configuration or the sample. *)
Theorem X7_icm20649_drdy_int (st : t T) :
  (fst (EnableDrdyInt st) = true ->
   last_event (bus_log (snd (EnableDrdyInt st))) =
     BusWrite INT_ENABLE_1_ INT_RAW_RDY_EN_ true /\
   current_bank_ (snd (EnableDrdyInt st)) = 0) /\
  (fst (DisableDrdyInt st) = true ->
   last_event (bus_log (snd (DisableDrdyInt st))) =
     BusWrite INT_ENABLE_1_ INT_DISABLE_ true /\
   current_bank_ (snd (DisableDrdyInt st)) = 0) /\
  config (snd (EnableDrdyInt st)) = config st /\
  sample (snd (EnableDrdyInt st)) = sample st /\
  config (snd (DisableDrdyInt st)) = config st /\
  sample (snd (DisableDrdyInt st)) = sample st.
Proof.
  destruct st as [d lg sr ifc cb w buf sg cf sm].
  split; [|split]; [| |repeat split; unfold_drv; repeat bus_case; reflexivity];
    unfold_drv; repeat bus_case; intros H; try discriminate H;
    (split; [apply last_event_snoc | try reflexivity; symmetry; apply Z.eqb_eq; assumption]).
Qed.

(** X8.  ICM-20649, [Reset].  [Reset] always writes [H_RESET_] to
    [PWR_MGMT_1_] and then waits one millisecond, the write being
    preceded by at most one bank-select write, also when that
    bank-select write failed; it keeps the committed and staged
    configuration and the sample of the object as they were. *)
Theorem X8_icm20649_reset (st : t T) :
  let st' := snd (Reset st) in
  (exists pre ack,
     appended (bus_log st) (bus_log st') =
       pre ++ [BusWrite PWR_MGMT_1_ H_RESET_ ack; BusDelay 1] /\
     (pre = [] \/ exists a, pre = [BusWrite REG_BANK_SEL_ (u8 (Z.shiftl 0 4)) a])) /\
  config st' = config st /\ staged st' = staged st /\ sample st' = sample st.
Proof.
  destruct st as [d lg sr ifc cb w buf sg cf sm].
  cbv zeta. unfold_drv. repeat bus_case; log_norm;
    (split; [|repeat split; reflexivity]);
    first [ exists []; eexists; split; [reflexivity | left; reflexivity]
          | exists [BusWrite REG_BANK_SEL_ (u8 (Z.shiftl 0 4)) true]; eexists;
            split; [reflexivity | right; eexists; reflexivity]
          | exists [BusWrite REG_BANK_SEL_ (u8 (Z.shiftl 0 4)) false]; eexists;
            split; [reflexivity | right; eexists; reflexivity] ].
Qed.

End Icm20649_properties.

Section Icm20649_runs.
Import Icm20649 Icm20649Calls.

(** X1 on the data-sheet header: a divider change (bank 2), a [Read] that
    finds no data (bank 0) and an interrupt enable, every call
    acknowledged. *)
Lemma X1_icm20649_bank_cache_coherent_witness :
  let h := example_header in
  let st := example_object (T := scripted) [Ack; Ack; Ack; Ack; Data [0]; Ack] in
  let l := [Call_ConfigSrd 5; Call_Read; Call_EnableDrdyInt] in
  bank_sel_private = true /\
  bank_cached st /\
  bank_cached (snd (calls l st)) /\
  selected REG_BANK_SEL_ (bus_log (snd (calls l st))) = Some 0.
Proof.
  intros h st l.
  split; [reflexivity | split; [exact I | split; [|reflexivity]]].
  apply (X1_icm20649_bank_cache_coherent l st); [reflexivity | exact I].
Defined.

(** X3 on the data-sheet header, every call acknowledged and the chip
    answering its identity. *)
Lemma X3_icm20649_begin_establishes_defaults_witness :
  let h := example_header in
  let st := example_object (T := scripted)
              [Ack; Data [0xE1]; Ack; Ack; Data [0]; Ack; Data [0]; Ack;
               Data [0]; Ack; Data [0]; Ack; Ack; Ack] in
  fst (Begin st) = true /\
  config (snd (Begin st)) = default_config /\
  who_am_i_ (snd (Begin st)) = 0xE1 /\
  current_bank_ (snd (Begin st)) = 2.
Proof.
  intros h st. split; [vm_compute; reflexivity|].
  assert (R : Begin st = (true, snd (Begin st))) by (vm_compute; reflexivity).
  exact (X3_icm20649_begin_establishes_defaults st (snd (Begin st)) R).
Defined.

(** X5 for the extreme and some mixed counts. *)
Lemma X5_icm20649_read_decodes_burst_witness :
  let h := example_header in
  let a := (32767, -32768, -1) in
  let g := (0, 1, -2) in
  let tc := 21 in
  let st := example_object (T := scripted) [Data [1]; Data (burst_of a g tc)] in
  burst_of a g tc = [127; 255; 128; 0; 255; 255; 0; 0; 0; 1; 255; 254; 0; 21] /\
  accel_cnts_ (sample (snd (Read st))) = a /\
  gyro_cnts_ (sample (snd (Read st))) = g /\
  temp_cnts_ (sample (snd (Read st))) = tc.
Proof.
  intros h a g tc st. split; [reflexivity|].
  apply (X5_icm20649_read_decodes_burst st (snd (Read st)) a g tc);
    vm_compute; reflexivity.
Defined.

End Icm20649_runs.

(** ** ICM-20948 *)

Section Icm20948_properties.
Import Icm20948 Icm20948Calls Icm20948Facts Icm20948Methods Icm20948Effects.
Context {T : Transport} {h : Header}.

(** X9.  ICM-20948, the bank cache.  Whatever methods are called, in
    whatever order and whatever the bus answers, [current_bank_] stays
    in step with what the device was told: if the log of the object
    shows an acknowledged write to [REG_BANK_SEL_] at all, the last one
    carried [current_bank_ << 4].  This needs the header to give no
    register the driver writes to the address of [REG_BANK_SEL_]. *)
Theorem X9_icm20948_bank_cache_coherent (l : list Call) (st : t T) :
  bank_sel_private = true ->
  bank_cached st ->
  bank_cached (snd (calls l st)).
Proof.
  intros Hp. revert st. induction l as [|c l IH]; intros st Hst; cbn [calls].
  - exact Hst.
  - unfold bind. pose proof (icm20948_keeps_call c Hp st Hst) as H1.
    destruct (call c st) as [u s1]. apply IH. exact H1.
Qed.

(** X10.  ICM-20948, what a configuration method commits.  Each of the
    six configuration methods leaves the committed configuration as it
    was when it returns [false], whatever made it fail, and when it
    returns [true] it has replaced its own members and no other: the
    range with its scale factor, one filter bandwidth, or the sample rate
    divider.  The sample members are never touched. *)
Theorem X10_icm20948_config_commits_on_success_only (st : t T) :
  let c := config st in
  (forall r,
     let res := ConfigAccelRange r st in
     config (snd res) =
       (if fst res
        then mkConfig r (scale_factor (AccelRange_full_scale r)) (gyro_range_ c)
               (gyro_scale_ c) (accel_dlpf_bandwidth_ c) (gyro_dlpf_bandwidth_ c)
               (temp_dlpf_bandwidth_ c) (srd_ c)
        else c) /\
     sample (snd res) = sample st) /\
  (forall r,
     let res := ConfigGyroRange r st in
     config (snd res) =
       (if fst res
        then mkConfig (accel_range_ c) (accel_scale_ c) r
               (scale_factor (GyroRange_full_scale r))
               (accel_dlpf_bandwidth_ c) (gyro_dlpf_bandwidth_ c)
               (temp_dlpf_bandwidth_ c) (srd_ c)
        else c) /\
     sample (snd res) = sample st) /\
  (forall dlpf,
     let res := ConfigAccelDlpfBandwidth dlpf st in
     config (snd res) =
       (if fst res
        then mkConfig (accel_range_ c) (accel_scale_ c) (gyro_range_ c) (gyro_scale_ c)
               dlpf (gyro_dlpf_bandwidth_ c) (temp_dlpf_bandwidth_ c) (srd_ c)
        else c) /\
     sample (snd res) = sample st) /\
  (forall dlpf,
     let res := ConfigGyroDlpfBandwidth dlpf st in
     config (snd res) =
       (if fst res
        then mkConfig (accel_range_ c) (accel_scale_ c) (gyro_range_ c) (gyro_scale_ c)
               (accel_dlpf_bandwidth_ c) dlpf (temp_dlpf_bandwidth_ c) (srd_ c)
        else c) /\
     sample (snd res) = sample st) /\
  (forall dlpf,
     let res := ConfigTempDlpfBandwidth dlpf st in
     config (snd res) =
       (if fst res
        then mkConfig (accel_range_ c) (accel_scale_ c) (gyro_range_ c) (gyro_scale_ c)
               (accel_dlpf_bandwidth_ c) (gyro_dlpf_bandwidth_ c) dlpf (srd_ c)
        else c) /\
     sample (snd res) = sample st) /\
  (forall srd,
     let res := ConfigSrd srd st in
     config (snd res) =
       (if fst res
        then mkConfig (accel_range_ c) (accel_scale_ c) (gyro_range_ c) (gyro_scale_ c)
               (accel_dlpf_bandwidth_ c) (gyro_dlpf_bandwidth_ c)
               (temp_dlpf_bandwidth_ c) srd
        else c) /\
     sample (snd res) = sample st).
Proof.
  cbv zeta. repeat split.
  - apply icm20948_ConfigAccelRange_effect.
  - apply icm20948_ConfigAccelRange_effect.
  - apply icm20948_ConfigGyroRange_effect.
  - apply icm20948_ConfigGyroRange_effect.
  - apply icm20948_ConfigAccelDlpfBandwidth_effect.
  - apply icm20948_ConfigAccelDlpfBandwidth_effect.
  - apply icm20948_ConfigGyroDlpfBandwidth_effect.
  - apply icm20948_ConfigGyroDlpfBandwidth_effect.
  - apply icm20948_ConfigTempDlpfBandwidth_effect.
  - apply icm20948_ConfigTempDlpfBandwidth_effect.
  - apply icm20948_ConfigSrd_effect.
  - apply icm20948_ConfigSrd_effect.
Qed.

(** X11.  ICM-20948, what a successful [Begin] establishes.  When
    [Begin] returns [true] the committed configuration is the default one
    (16G, 2000DPS, the 473 Hz, 361 Hz and 7932 Hz filters, divider 0)
    whatever it was before, bank 0 is cached, and [who_am_i_] holds the
    identity of the magnetometer, which was read into it after that of
    the IMU. *)
Theorem X11_icm20948_begin_establishes_defaults (st st' : t T) :
  Begin st = (true, st') ->
  config st' = default_config /\
  who_am_i_ st' = WHOAMI_AK09916_ /\
  current_bank_ st' = BANK_0_.
Proof.
  rewrite icm20948_Begin_steps, run_steps_ran. intros R.
  apply (ran_from 15) in R. destruct R as (s0 & _ & R).
  cbn [skipn begin_steps ran] in R.
  destruct R as (Hw & _ & R1 & R2 & R3 & R4 & R5 & R6 & ->).
  cbn [gets fst snd] in Hw. apply Z.eqb_eq in Hw.
  change (snd (gets (fun st => who_am_i_ st =? WHOAMI_AK09916_) s0)) with s0 in *.
  destruct (icm20948_WriteRegister_frame BANK_2_ ODR_ALIGN_EN_
              ODR_ALIGN_EN_ALIGN_ENABLE_ s0) as (_ & _ & W0).
  cbv zeta in W0. rewrite Hw in W0.
  set (s1 := snd (WriteRegister BANK_2_ ODR_ALIGN_EN_ ODR_ALIGN_EN_ALIGN_ENABLE_ s0)) in *.
  clearbody s1. clear - R1 R2 R3 R4 R5 R6 W0.
  destruct (icm20948_ConfigAccelRange_effect ACCEL_RANGE_16G s1) as (C1 & _ & W1).
  cbv zeta in C1, W1. rewrite R1 in C1. rewrite W0 in W1.
  set (s2 := snd (ConfigAccelRange ACCEL_RANGE_16G s1)) in *. clearbody s2.
  destruct (icm20948_ConfigGyroRange_effect GYRO_RANGE_2000DPS s2) as (C2 & _ & W2).
  cbv zeta in C2, W2. rewrite R2, C1 in C2. rewrite W1 in W2.
  set (s3 := snd (ConfigGyroRange GYRO_RANGE_2000DPS s2)) in *. clearbody s3.
  destruct (icm20948_ConfigAccelDlpfBandwidth_effect ACCEL_DLPF_BANDWIDTH_473HZ s3)
    as (C3 & _ & W3).
  cbv zeta in C3, W3. rewrite R3, C2 in C3. rewrite W2 in W3.
  set (s4 := snd (ConfigAccelDlpfBandwidth ACCEL_DLPF_BANDWIDTH_473HZ s3)) in *.
  clearbody s4.
  destruct (icm20948_ConfigGyroDlpfBandwidth_effect GYRO_DLPF_BANDWIDTH_361HZ s4)
    as (C4 & _ & W4).
  cbv zeta in C4, W4. rewrite R4, C3 in C4. rewrite W3 in W4.
  set (s5 := snd (ConfigGyroDlpfBandwidth GYRO_DLPF_BANDWIDTH_361HZ s4)) in *.
  clearbody s5.
  destruct (icm20948_ConfigTempDlpfBandwidth_effect TEMP_DLPF_BANDWIDTH_7932HZ s5)
    as (C5 & _ & W5).
  cbv zeta in C5, W5. rewrite R5, C4 in C5. rewrite W4 in W5.
  set (s6 := snd (ConfigTempDlpfBandwidth TEMP_DLPF_BANDWIDTH_7932HZ s5)) in *.
  clearbody s6.
  destruct (icm20948_ConfigSrd_effect 0 s6) as (C6 & _ & W6 & B6).
  cbv zeta in C6, W6, B6. rewrite R6, C5 in C6. rewrite W5 in W6.
  split; [exact C6 | split; [exact W6 | exact (B6 R6)]].
Qed.

(** X12.  ICM-20948, [Read] and its flag.  The result of [Read] is the
    value it leaves in [new_imu_data_]; [Read] never changes the
    committed or the staged configuration; and when it returns [false]
    the sample members other than the flag are those of before and the
    last call on the bus is a bank-select write that failed or the
    one-byte read of [INT_STATUS_1_], which failed or answered with the
    ready bit clear: the data registers were not read. *)
Theorem X12_icm20948_read_flag_and_frame (st : t T) :
  let r := Read st in
  new_imu_data_ (sample (snd r)) = fst r /\
  config (snd r) = config st /\
  staged (snd r) = staged st /\
  (fst r = false ->
   sample (snd r) = sample (set_new_imu_data_ false st) /\
   (last_event (bus_log (snd r)) =
      BusWrite REG_BANK_SEL_ (u8 (Z.shiftl BANK_0_ 4)) false \/
    exists reply,
      last_event (bus_log (snd r)) = BusRead INT_STATUS_1_ 1 reply /\
      match reply with
      | Some bs => Z.land (u8 (nth 0 bs 0)) RAW_DATA_RDY_INT_ = 0
      | None => True
      end)).
Proof.
  destruct st as [d lg ifc cb w buf mbuf rv sg cf sm].
  cbv zeta. unfold_drv. repeat bus_case;
    (split; [reflexivity | split; [reflexivity | split; [reflexivity|]]]);
    intros H; try discriminate H; (split; [reflexivity|]);
    first [ left; apply last_event_snoc
          | right; eexists; (split; [apply last_event_snoc|]); try exact I;
            apply to_bool_false; assumption ].
Qed.

(** X13.  ICM-20948, [Read] inverts the encodings of both sensors.  With
    a data buffer of twenty-three bytes, if [Read] returns [true] and the
    burst read was answered with the bytes that encode the counts [a],
    [g], [tc] (high byte first) and [m] (the magnetometer's, low byte
    first, between its two status bytes), the published counts are [a],
    [g], [tc] and [m], whatever the status bytes say. *)
Theorem X13_icm20948_read_decodes_burst
    (st st' : t T) (a g m : vec3 Z) (tc st1 rsv st2 : Z) :
  sizeof_data_buf_ = 23 ->
  (let '(ax, ay, az) := a in
   let '(gx, gy, gz) := g in
   let '(mx, my, mz) := m in
   forallb is_int16 [ax; ay; az; gx; gy; gz; tc; mx; my; mz]) = true ->
  Read st = (true, st') ->
  last_event (bus_log st') =
    BusRead ACCEL_XOUT_H sizeof_data_buf_ (Some (burst_of a g tc st1 m rsv st2)) ->
  accel_cnts_ (sample st') = a /\
  gyro_cnts_ (sample st') = g /\
  temp_cnts_ (sample st') = tc /\
  mag_cnts_ (sample st') = m.
Proof.
  destruct st as [d lg ifc cb w buf mbuf rv sg cf sm].
  destruct a as [[ax ay] az], g as [[gx gy] gz], m as [[mx my] mz].
  intros Hsz. cbn [forallb]. rewrite !andb_true_iff.
  intros (Hax & Hay & Haz & Hgx & Hgy & Hgz & Htc & Hmx & Hmy & Hmz & _).
  unfold_drv. repeat bus_case; intros [= <-]; unfold_drv;
    rewrite last_event_snoc; intros [= ->];
    unfold burst_of, be16, le16, delivered; rewrite Hsz;
    change (Z.to_nat 23) with 23%nat;
    cbn [app map seq nth overwrite byte_at length skipn];
    rewrite !unpack16_bytes by assumption; repeat split; reflexivity.
Qed.

(** X14.  ICM-20948, methods that report the bus.  [WriteRegister],
    [ReadRegisters], [ReadAk09916Registers], [EnableDrdyInt] and
    [DisableDrdyInt] return [true] exactly when every call they made on
    the bus succeeded, the bank-select write included. *)
Theorem X14_icm20948_result_is_bus_result (st : t T) :
  (forall bank reg data,
     fst (WriteRegister bank reg data st) =
       all_ok (appended (bus_log st) (bus_log (snd (WriteRegister bank reg data st))))) /\
  (forall bank reg count dst,
     fst (ReadRegisters bank reg count dst st) =
       all_ok (appended (bus_log st)
                 (bus_log (snd (ReadRegisters bank reg count dst st))))) /\
  (forall reg count dst,
     fst (ReadAk09916Registers reg count dst st) =
       all_ok (appended (bus_log st)
                 (bus_log (snd (ReadAk09916Registers reg count dst st))))) /\
  fst (EnableDrdyInt st) =
    all_ok (appended (bus_log st) (bus_log (snd (EnableDrdyInt st)))) /\
  fst (DisableDrdyInt st) =
    all_ok (appended (bus_log st) (bus_log (snd (DisableDrdyInt st)))).
Proof.
  destruct st as [d lg ifc cb w buf mbuf rv sg cf sm].
  repeat split; intros; unfold_drv; repeat bus_case;
    try (destruct dst; unfold_drv); log_norm; reflexivity.
Qed.

(** X15.  ICM-20948, the data-ready interrupt.  A successful
    [EnableDrdyInt] ends with the acknowledged write of
    [INT_ENABLE_1_INT_ENABLE_] to [INT_ENABLE_1_] and [BANK_0_] cached, a
    successful [DisableDrdyInt] with that of [INT_ENABLE_1_INT_DISABLE_];
    neither touches the configuration or the sample. *)
Theorem X15_icm20948_drdy_int (st : t T) :
  (fst (EnableDrdyInt st) = true ->
   last_event (bus_log (snd (EnableDrdyInt st))) =
     BusWrite INT_ENABLE_1_ INT_ENABLE_1_INT_ENABLE_ true /\
   current_bank_ (snd (EnableDrdyInt st)) = BANK_0_) /\
  (fst (DisableDrdyInt st) = true ->
   last_event (bus_log (snd (DisableDrdyInt st))) =
     BusWrite INT_ENABLE_1_ INT_ENABLE_1_INT_DISABLE_ true /\
   current_bank_ (snd (DisableDrdyInt st)) = BANK_0_) /\
  config (snd (EnableDrdyInt st)) = config st /\
  sample (snd (EnableDrdyInt st)) = sample st /\
  config (snd (DisableDrdyInt st)) = config st /\
  sample (snd (DisableDrdyInt st)) = sample st.
Proof.
  destruct st as [d lg ifc cb w buf mbuf rv sg cf sm].
  split; [|split]; [| |repeat split; unfold_drv; repeat bus_case; reflexivity];
    unfold_drv; repeat bus_case; intros H; try discriminate H;
    (split; [apply last_event_snoc | try reflexivity; symmetry; apply Z.eqb_eq; assumption]).
Qed.

(** X16.  ICM-20948, the indirect read.  When [ReadAk09916Registers]
    returns [true], its last call on the bus is the read of [count]
    bytes from [EXT_SLV_SENS_DATA_00_], [BANK_0_] is cached, and the
    destination holds the bytes of that read: the whole array for a
    buffer, the first byte for a single variable. *)
Theorem X16_icm20948_indirect_read (reg count : Z) (dst : Dest) (st st' : t T) :
  ReadAk09916Registers reg count dst st = (true, st') ->
  exists bs,
    last_event (bus_log st') = BusRead EXT_SLV_SENS_DATA_00_ count (Some bs) /\
    current_bank_ st' = BANK_0_ /\
    match dst with
    | dst_data_buf_ => data_buf_ st' = overwrite (delivered count bs) (data_buf_ st)
    | dst_who_am_i_ => who_am_i_ st' = nth 0 (delivered count bs) 0
    | dst_mag_data_ => mag_data_ st' = overwrite (delivered count bs) (mag_data_ st)
    | dst_ret_val => ret_val st' = nth 0 (delivered count bs) 0
    end.
Proof.
  destruct st as [d lg ifc cb w buf mbuf rv sg cf sm].
  unfold_drv. repeat bus_case; intros [= <-];
    eexists; destruct dst; unfold_drv;
    (split; [apply last_event_snoc | split; [|reflexivity]]);
    try reflexivity; eqb_facts; congruence.
Qed.

End Icm20948_properties.

Section Icm20948_runs.
Import Icm20948 Icm20948Calls.

(** X9 on the data-sheet header: a temperature filter change (bank 2), a
    [Read] that finds no data (bank 0) and an interrupt enable, every
    call acknowledged. *)
Lemma X9_icm20948_bank_cache_coherent_witness :
  let h := example_header in
  let st := example_object (T := scripted) [Ack; Ack; Ack; Data [0]; Ack] in
  let l := [Call_ConfigTempDlpfBandwidth TEMP_DLPF_BANDWIDTH_217HZ; Call_Read;
            Call_EnableDrdyInt] in
  bank_sel_private = true /\
  bank_cached st /\
  bank_cached (snd (calls l st)) /\
  selected REG_BANK_SEL_ (bus_log (snd (calls l st))) = Some 0.
Proof.
  intros h st l.
  split; [reflexivity | split; [exact I | split; [|reflexivity]]].
  apply (X9_icm20948_bank_cache_coherent l st); [reflexivity | exact I].
Defined.

(** X11 on the data-sheet header, under replies that let [Begin] run to
    its end. *)
Lemma X11_icm20948_begin_establishes_defaults_witness :
  let h := example_header in
  let st := example_object (T := scripted) Examples.begin_script in
  fst (Begin st) = true /\
  config (snd (Begin st)) = default_config /\
  who_am_i_ (snd (Begin st)) = 0x09 /\
  current_bank_ (snd (Begin st)) = 0.
Proof.
  intros h st. split; [vm_compute; reflexivity|].
  assert (R : Begin st = (true, snd (Begin st))) by (vm_compute; reflexivity).
  exact (X11_icm20948_begin_establishes_defaults st (snd (Begin st)) R).
Defined.

(** X13 for extreme and mixed counts, the magnetometer reporting an
    overflow. *)
Lemma X13_icm20948_read_decodes_burst_witness :
  let h := example_header in
  let a := (32767, -32768, -1) in
  let g := (0, 1, -2) in
  let m := (258, -258, -32768) in
  let bytes := burst_of a g 21 1 m 0 8 in
  let st := example_object (T := scripted) [Data [1]; Data bytes] in
  bytes = [127; 255; 128; 0; 255; 255; 0; 0; 0; 1; 255; 254; 0; 21;
           1; 2; 1; 254; 254; 0; 128; 0; 8] /\
  accel_cnts_ (sample (snd (Read st))) = a /\
  gyro_cnts_ (sample (snd (Read st))) = g /\
  temp_cnts_ (sample (snd (Read st))) = 21 /\
  mag_cnts_ (sample (snd (Read st))) = m.
Proof.
  intros h a g m bytes st. split; [reflexivity|].
  apply (X13_icm20948_read_decodes_burst st (snd (Read st)) a g m 21 1 0 8);
    vm_compute; reflexivity.
Defined.

(** X16 for the identity read of [Begin]: the magnetometer answers 0x09. *)
Lemma X16_icm20948_indirect_read_witness :
  let h := example_header in
  let st := example_object (T := scripted) [Ack; Ack; Ack; Ack; Ack; Data [0x09]] in
  let st' := snd (ReadAk09916Registers AK09916_WIA2_ 1 dst_who_am_i_ st) in
  who_am_i_ st' = 0x09 /\
  exists bs,
    last_event (bus_log st') = BusRead EXT_SLV_SENS_DATA_00_ 1 (Some bs) /\
    current_bank_ st' = BANK_0_ /\
    who_am_i_ st' = nth 0 (delivered 1 bs) 0.
Proof.
  intros h st st'. split; [reflexivity|].
  assert (R : ReadAk09916Registers AK09916_WIA2_ 1 dst_who_am_i_ st = (true, st'))
    by (vm_compute; reflexivity).
  exact (X16_icm20948_indirect_read AK09916_WIA2_ 1 dst_who_am_i_ st st' R).
Defined.

End Icm20948_runs.

(** ** MPU-9250 *)

Section MPU9250_properties.
Import MPU9250 MPU9250Read MPU9250Codes MPU9250Facts MPU9250MoreFacts.

(** X17.  MPU-9250, [begin] programs the range it scales with.  After
    [begin] the accelerometer configuration register of the device holds
    the [FS_SEL] code of the full-scale value whose scale factor the
    object stores, and likewise for the gyro; a range string [begin] does
    not know leaves both the register and the scale factor of that sensor
    as they were, whatever the other string is.  The power management
    register holds the PLL clock selection in every case. *)
Theorem X17_mpu9250_begin_programs_ranges (a g : string) (st : t) (regs : Z -> Z) :
  let st' := snd (begin a g st) in
  let dev := device_after (wire st') regs in
  let old := device_after (wire st) regs in
  dev ACCEL_CONFIG =
    match accel_range_g a with Some fs => accel_fs_sel fs | None => old ACCEL_CONFIG end /\
  _accelScale st' =
    match accel_range_g a with
    | Some fs => F64.div (F64.mul G (F64.of_Z fs)) F64.c32767_5
    | None => _accelScale st
    end /\
  dev GYRO_CONFIG =
    match gyro_range_dps g with Some fs => gyro_fs_sel fs | None => old GYRO_CONFIG end /\
  _gyroScale st' =
    match gyro_range_dps g with
    | Some fs => F64.div (F64.of_Z fs) F64.c32767_5
    | None => _gyroScale st
    end /\
  dev PWR_MGMNT_1 = CLOCK_SEL_PLL.
Proof.
  cbv zeta.
  destruct (mpu9250_begin_accel a g st regs) as [A1 A2].
  destruct (mpu9250_begin_gyro a g st regs) as [G1 G2].
  pose proof (mpu9250_begin_clock a g st regs) as P.
  auto 6.
Qed.

(** X18.  MPU-9250, the registers [setFilt] leaves.  For a frequency from
    1 to 255, after [setFilt] both filter registers of the device hold
    the code of the bandwidth string (or what they held, for a string
    [setFilt] does not know), the interrupt pin register holds 0 and the
    interrupt enable register 1.  The divider register holds
    [1000 / frequency - 1] cut to eight bits; the rate it selects,
    [1000 / (divider + 1)], is never below the requested frequency, and
    the divider is cut exactly when the frequency is below 4. *)
Theorem X18_mpu9250_setFilt_registers (bandwidth : string) (frequency : Z) (st : t)
    (regs : Z -> Z) :
  0 < frequency < 256 ->
  let dev := device_after (wire (snd (setFilt bandwidth frequency st))) regs in
  let old := device_after (wire st) regs in
  dev ACCEL_CONFIG2 =
    match dlpf_code bandwidth with Some c => c | None => old ACCEL_CONFIG2 end /\
  dev CONFIG =
    match dlpf_code bandwidth with Some c => c | None => old CONFIG end /\
  dev INT_PIN_CFG = 0 /\
  dev INT_ENABLE = 1 /\
  dev SMPDIV = (1000 / frequency - 1) mod 256 /\
  frequency <= 1000 / (dev SMPDIV + 1) /\
  (dev SMPDIV = 1000 / frequency - 1 <-> 4 <= frequency).
Proof.
  intros Hf. cbv zeta.
  destruct (mpu9250_setFilt_registers bandwidth frequency st regs Hf)
    as (H1 & H2 & H3 & H4 & H5).
  destruct (srd_rate frequency Hf) as [R1 R2].
  rewrite H3. auto 10.
Qed.

(** X19.  MPU-9250, what a short answer does to the three-axis getters.
    [getAccelCounts] and [getGyroCounts] read six bytes into a local
    array that is not initialised.  If the device sends the six bytes
    (or more), the counts do not depend on what the array held.  If it
    sends fewer, or none, they do: an array of zeros and an array of
    0xFF bytes give different counts, so the getters return what the
    array happened to hold, with nothing to tell the caller. *)
Theorem X19_mpu9250_short_answer_leaks_buffer (peer : Z -> Z -> list Z) (st : t) :
  ((6 <= length (peer ACCEL_OUT 6%Z))%nat ->
   forall buff buff',
     fst (getAccelCounts peer buff st) = fst (getAccelCounts peer buff' st)) /\
  ((length (peer ACCEL_OUT 6%Z) < 6)%nat ->
   fst (getAccelCounts peer (repeat 0 6) st) <>
   fst (getAccelCounts peer (repeat 255 6) st)) /\
  ((6 <= length (peer GYRO_OUT 6%Z))%nat ->
   forall buff buff',
     fst (getGyroCounts peer buff st) = fst (getGyroCounts peer buff' st)) /\
  ((length (peer GYRO_OUT 6%Z) < 6)%nat ->
   fst (getGyroCounts peer (repeat 0 6) st) <>
   fst (getGyroCounts peer (repeat 255 6) st)).
Proof.
  repeat split.
  - intros Hlen buff buff'.
    exact (mpu9250_counts_complete peer ACCEL_OUT buff buff' st Hlen).
  - intros Hlen. exact (mpu9250_counts_short peer ACCEL_OUT st Hlen).
  - intros Hlen buff buff'.
    exact (mpu9250_counts_complete peer GYRO_OUT buff buff' st Hlen).
  - intros Hlen. exact (mpu9250_counts_short peer GYRO_OUT st Hlen).
Qed.

(** X20.  MPU-9250, the six-axis read agrees with the two three-axis
    reads.  On a device that answers from its register file,
    [getMotion6Counts] returns the counts [getAccelCounts] and
    [getGyroCounts] return, and [getMotion6] the values [getAccel] and
    [getGyro] return, whatever the local buffers held: the offset 8 at
    which the gyro bytes are taken is the distance from [ACCEL_OUT] to
    [GYRO_OUT].  Every count the three counting getters return, the
    three of the accelerometer and the three of the gyro, is a
    [uint16_t]. *)
Theorem X20_mpu9250_motion6_agrees (regs : Z -> Z) (buff14 buffa buffg : list Z)
    (st : t) :
  let peer := register_file regs in
  fst (getMotion6Counts peer buff14 st) =
    (fst (getAccelCounts peer buffa st), fst (getGyroCounts peer buffg st)) /\
  fst (getMotion6 peer buff14 st) =
    (fst (getAccel peer buffa st), fst (getGyro peer buffg st)) /\
  uint16_counts (fst (getAccelCounts peer buffa st)) /\
  uint16_counts (fst (getGyroCounts peer buffg st)) /\
  uint16_counts (fst (fst (getMotion6Counts peer buff14 st))) /\
  uint16_counts (snd (fst (getMotion6Counts peer buff14 st))).
Proof.
  cbv zeta. split; [|split].
  - reflexivity.
  - destruct st as [ad sa sg w]. reflexivity.
  - unfold getAccelCounts, getGyroCounts, getMotion6Counts, bind, ret, uint16_counts.
    cbn [fst snd].
    destruct (readRegisters (register_file regs) ACCEL_OUT 6 buffa st) as [b1 s1].
    destruct (readRegisters (register_file regs) GYRO_OUT 6 buffg st) as [b2 s2].
    destruct (readRegisters (register_file regs) ACCEL_OUT 14 buff14 st) as [b3 s3].
    cbn [fst snd]. repeat split; apply word_range.
Qed.

(** X21.  MPU-9250, the scaled getters invert the sensor's encoding.  If
    the device answers the read at [ACCEL_OUT] with the six bytes that
    encode the counts [x], [y], [z] (sixteen-bit two's complement, high
    byte first), [getAccelCounts] returns them as [uint16_t] values and
    [getAccel] returns each count, with its sign, times [_accelScale];
    likewise [getGyroCounts] and [getGyro] for the read at [GYRO_OUT]
    and [_gyroScale]. *)
Theorem X21_mpu9250_getters_decode (peer : Z -> Z -> list Z) (x y z : Z)
    (buff : list Z) (st : t) :
  forallb is_int16 [x; y; z] = true ->
  (peer ACCEL_OUT 6 = be16 x ++ be16 y ++ be16 z ->
   fst (getAccelCounts peer buff st) = (u16 x, u16 y, u16 z) /\
   fst (getAccel peer buff st) =
     (F64.mul (F64.of_Z x) (_accelScale st),
      F64.mul (F64.of_Z y) (_accelScale st),
      F64.mul (F64.of_Z z) (_accelScale st))) /\
  (peer GYRO_OUT 6 = be16 x ++ be16 y ++ be16 z ->
   fst (getGyroCounts peer buff st) = (u16 x, u16 y, u16 z) /\
   fst (getGyro peer buff st) =
     (F64.mul (F64.of_Z x) (_gyroScale st),
      F64.mul (F64.of_Z y) (_gyroScale st),
      F64.mul (F64.of_Z z) (_gyroScale st))).
Proof.
  cbn [forallb]. rewrite !andb_true_iff. intros (Hx & Hy & Hz & _).
  assert (W : forall sub,
             peer sub 6 = be16 x ++ be16 y ++ be16 z ->
             let b := overwrite (requestFrom peer sub 6) buff in
             (word b 0 1, word b 2 3, word b 4 5) = (u16 x, u16 y, u16 z)).
  { intros sub Hp. cbv zeta. unfold requestFrom. rewrite Hp.
    change (Z.to_nat 6) with 6%nat. unfold be16.
    cbn [app firstn map overwrite length skipn].
    rewrite (word_bytes x _ 0 1), (word_bytes y _ 2 3), (word_bytes z _ 4 5)
      by reflexivity.
    reflexivity. }
  destruct st as [ad sa sg w].
  split; intros Hp; specialize (W _ Hp); cbv zeta in W;
    unfold getAccel, getGyro, getAccelCounts, getGyroCounts, readRegisters,
      bind, ret, gets, modify; cbn [fst snd _accelScale _gyroScale on_wire];
    rewrite W; unfold scaled3, scaled; rewrite !i16_u16 by assumption;
    split; reflexivity.
Qed.

End MPU9250_properties.

Section MPU9250_runs.
Import MPU9250 MPU9250Read.

(** X19 for a device that does not answer: the counts are those of the
    array, all zero for an array of zeros and all 0xFFFF for an array of
    0xFF bytes. *)
Lemma X19_mpu9250_short_answer_leaks_buffer_witness :
  fst (getAccelCounts silent (repeat 0 6) example_object) <>
    fst (getAccelCounts silent (repeat 255 6) example_object) /\
  fst (getAccelCounts silent (repeat 0 6) example_object) = (0, 0, 0) /\
  fst (getAccelCounts silent (repeat 255 6) example_object) = (65535, 65535, 65535).
Proof.
  destruct (X19_mpu9250_short_answer_leaks_buffer silent example_object)
    as (_ & H & _).
  split; [apply H; cbn; lia | split; reflexivity].
Defined.

(** X18 for the 41 Hz filter at 50 Hz: divider 19, rate 50 Hz. *)
Lemma X18_mpu9250_setFilt_registers_witness :
  let dev := device_after (wire (snd (setFilt "41HZ" 50 example_object)))
               Examples.mpu_regs in
  dev ACCEL_CONFIG2 = 3 /\
  dev CONFIG = 3 /\
  dev INT_PIN_CFG = 0 /\
  dev INT_ENABLE = 1 /\
  dev SMPDIV = 19 /\
  50 <= 1000 / (dev SMPDIV + 1) /\
  (dev SMPDIV = 1000 / 50 - 1 <-> 4 <= 50).
Proof.
  apply (X18_mpu9250_setFilt_registers "41HZ" 50 example_object Examples.mpu_regs).
  lia.
Defined.

(** X21 for the extreme and a negative count. *)
Lemma X21_mpu9250_getters_decode_witness :
  let peer := fun (_ _ : Z) => [127; 255; 128; 0; 255; 254] in
  fst (getAccelCounts peer [] example_object) = (32767, 32768, 65534) /\
  fst (getAccel peer [] example_object) =
    (F64.mul (F64.of_Z 32767) (S754_zero false),
     F64.mul (F64.of_Z (-32768)) (S754_zero false),
     F64.mul (F64.of_Z (-2)) (S754_zero false)).
Proof.
  intros peer.
  destruct (X21_mpu9250_getters_decode peer 32767 (-32768) (-2) [] example_object
              eq_refl) as [A _].
  exact (A eq_refl).
Defined.

End MPU9250_runs.
